(** * Structured-response retry loops of the collaborator agent

    A shallow embedding of [src/collaborator_agent.py] (class
    [CollaboratorAgent]) and of the two call sites in
    [src/full_human_study.py] that consume its results, followed by the
    properties of the retry loops, of scaffolding and of the caller's
    memory update.

    Python objects that are mutated in place (the message dictionaries of a
    conversation) live in an explicit store and are handled through
    references; everything the code does to the outside world (calls of the
    text generator, lines printed) is recorded in the state that the
    computations thread. *)

From Stdlib Require Import ZArith Ascii String List Lia Bool.
From stdpp Require Import base list.
Import ListNotations.

Local Open Scope string_scope.
Local Open Scope list_scope.
Set Warnings "-register-all".

(** ** Python values *)

Module Py.

(** The objects [repair_json(..., return_objects=True)] can return: what
    [json.loads] produces.  A float keeps its decimal mantissa and
    exponent; no code below computes with it.  A dictionary keeps its
    items in insertion order, keys distinct. *)
Inductive PyValue : Type :=
| PNone
| PBool (b : bool)
| PInt (z : Z)
| PFloat (mantissa exponent : Z)
| PStr (s : string)
| PList (items : list PyValue)
| PDict (items : list (string * PyValue)).

(** Exceptions, all subclasses of Python's [Exception].  [GatewayError]
    stands for whatever the generator call raises (timeout, connection or
    provider error).  [InvalidRef] is the model's own: a reference that is
    not in the store, which Python cannot produce. *)
Inductive Exn : Type :=
| TypeError
| IndexError
| KeyError (key : string)
| GatewayError (msg : string)
| InvalidRef.

Inductive Res (A : Type) : Type :=
| Ok (a : A)
| Raise (e : Exn).
Arguments Ok {A} a.
Arguments Raise {A} e.

(** [needle in hay] on two [str]: substring containment. *)
Fixpoint is_substring (needle hay : string) : bool :=
  String.prefix needle hay ||
  match hay with
  | EmptyString => false
  | String _ hay' => is_substring needle hay'
  end.

Fixpoint dict_has (key : string) (items : list (string * PyValue)) : bool :=
  match items with
  | [] => false
  | (k, _) :: items' => String.eqb k key || dict_has key items'
  end.

Fixpoint dict_get (key : string) (items : list (string * PyValue)) : option PyValue :=
  match items with
  | [] => None
  | (k, v) :: items' => if String.eqb k key then Some v else dict_get key items'
  end.

(** [x == key] for a string [key]: only a [str] can be equal to it. *)
Definition eq_str (key : string) (x : PyValue) : bool :=
  match x with
  | PStr s => String.eqb s key
  | _ => false
  end.

(** [key in v] for a string [key]: key membership on a dict, element
    membership on a list, substring containment on a str, and
    [TypeError] (argument is not iterable) on None, bool, int and float. *)
Definition contains (key : string) (v : PyValue) : Res bool :=
  match v with
  | PDict items => Ok (dict_has key items)
  | PList items => Ok (existsb (eq_str key) items)
  | PStr s => Ok (is_substring key s)
  | PNone | PBool _ | PInt _ | PFloat _ _ => Raise TypeError
  end.

(** [v[key]] for a string [key]: the value of a dict, [KeyError] when the
    key is absent, [TypeError] on every other object (string and list
    indices must be integers, the rest is not subscriptable). *)
Definition getitem (v : PyValue) (key : string) : Res PyValue :=
  match v with
  | PDict items =>
      match dict_get key items with
      | Some x => Ok x
      | None => Raise (KeyError key)
      end
  | _ => Raise TypeError
  end.

(** Truth value of an object, as tested by [if v:] and [v and ...]. *)
Definition truthy (v : PyValue) : bool :=
  match v with
  | PNone => false
  | PBool b => b
  | PInt z => negb (Z.eqb z 0)
  | PFloat m _ => negb (Z.eqb m 0)
  | PStr s => negb (String.eqb s EmptyString)
  | PList items => match items with [] => false | _ => true end
  | PDict items => match items with [] => false | _ => true end
  end.

(** [str.capitalize()] on ASCII text: first character upper case, the
    rest lower case. *)
Definition upper_ascii (c : ascii) : ascii :=
  let n := nat_of_ascii c in
  if (97 <=? n)%nat && (n <=? 122)%nat then ascii_of_nat (n - 32) else c.

Definition lower_ascii (c : ascii) : ascii :=
  let n := nat_of_ascii c in
  if (65 <=? n)%nat && (n <=? 90)%nat then ascii_of_nat (n + 32) else c.

Fixpoint lower (s : string) : string :=
  match s with
  | EmptyString => EmptyString
  | String c s' => String (lower_ascii c) (lower s')
  end.

Definition capitalize (s : string) : string :=
  match s with
  | EmptyString => EmptyString
  | String c s' => String (upper_ascii c) (lower s')
  end.

(** [sep.join(parts)] *)
Fixpoint join (sep : string) (parts : list string) : string :=
  match parts with
  | [] => EmptyString
  | [p] => p
  | p :: ps => p ++ sep ++ join sep ps
  end.

End Py.
Export Py.

(** ** Messages, the store and the effects *)

(** A message dictionary [{"role": ..., "content": ...}]. *)
Record Message : Type := mkMessage { role : string; content : string }.

(** A reference to a message dictionary in the store. *)
Abbreviation loc := nat (only parsing).

(** The outcome of one call of the text generator. *)
Inductive GenOutcome : Type :=
| GenText (text : string)
| GenRaise (e : Exn).

(** What the code prints, one constructor per [print] statement, carrying
    the values its f-string interpolates. *)
Inductive Printed : Type :=
| MissingKeysScaffolding (missing : list string) (processed : PyValue)
| MissingKeysResponse (missing : list string) (messages : list Message)
    (response : string) (processed : PyValue)
| FailedCollaboratorResponse (retries : Z)
| MissingKeysNotes (missing : list string) (processed : PyValue)
| FailedUpdateNotes (e : Exn).

(** The state threaded through a run: the store of message dictionaries
    (a reference is an index), the generator calls made so far with the
    messages each one received, and the lines printed so far. *)
Record World : Type := mkWorld {
  heap : list Message;
  calls : list (list Message);
  stdout : list Printed
}.

Definition M (A : Type) : Type := World -> Res A * World.

Definition ret {A} (a : A) : M A := fun w => (Ok a, w).

Definition raise {A} (e : Exn) : M A := fun w => (Raise e, w).

Definition bind {A B} (m : M A) (f : A -> M B) : M B :=
  fun w =>
    match m w with
    | (Ok a, w') => f a w'
    | (Raise e, w') => (Raise e, w')
    end.

(** [try: m except Exception as e: h e] *)
Definition try_except {A} (m : M A) (h : Exn -> M A) : M A :=
  fun w =>
    match m w with
    | (Ok a, w') => (Ok a, w')
    | (Raise e, w') => h e w'
    end.

Definition lift {A} (r : Res A) : M A := fun w => (r, w).

Declare Scope py_scope.
Delimit Scope py_scope with py.
Notation "x <- m ;; k" := (bind m (fun x => k))
  (at level 100, m at next level, right associativity) : py_scope.
Notation "m ;;; k" := (bind m (fun _ => k))
  (at level 100, right associativity) : py_scope.
Local Open Scope py_scope.

Definition print (p : Printed) : M unit :=
  fun w => (Ok tt, mkWorld (heap w) (calls w) (stdout w ++ [p])).

(** A new dictionary object. *)
Definition alloc (m : Message) : M loc :=
  fun w => (Ok (length (heap w)), mkWorld (heap w ++ [m]) (calls w) (stdout w)).

Definition read (l : loc) : M Message :=
  fun w =>
    match heap w !! l with
    | Some m => (Ok m, w)
    | None => (Raise InvalidRef, w)
    end.

(** [d["content"] = text] on the dictionary at [l]. *)
Definition set_content (l : loc) (text : string) : M unit :=
  fun w =>
    match heap w !! l with
    | Some m => (Ok tt, mkWorld (<[l := mkMessage (role m) text]> (heap w)) (calls w) (stdout w))
    | None => (Raise InvalidRef, w)
    end.

(** The dictionaries a list of references points to, as they are now. *)
Fixpoint snapshot (ls : list loc) : M (list Message) :=
  match ls with
  | [] => ret []
  | l :: ls' =>
      m <- read l ;;
      ms <- snapshot ls' ;;
      ret (m :: ms)
  end.

(** ** What the module imports *)

(** The code outside this repository that the agent calls.
    - [llm_completion n msgs]: what the [n+1]-th call of litellm's
      [completion] in a run does when given [msgs] (text of the first
      choice, or an exception).  The generator samples at temperature 1,
      so the outcome may differ from call to call.
    - [repair_json]: [json_repair.repair_json(text, return_objects=True)].
    - [py_repr]: Python's text for an object that is not a str, None or a
      bool, as an f-string inserts it.
    - the templates of [prompts.py], each as the function
      [template.format(...)] of its named arguments. *)
Record Externals : Type := mkExternals {
  llm_completion : nat -> list Message -> GenOutcome;
  repair_json : string -> PyValue;
  py_repr : PyValue -> string;
  agent_system_prompt : Z -> string;
  agent_system_prompt_with_user_preferences : Z -> string -> string;
  reflective_agent_system_prompt : Z -> string -> string;
  update_agent_notes_prompt : string -> string -> string;
  proper_scaffolding_prompt : string -> string -> string
}.

(** ** class CollaboratorAgent *)

Record CollaboratorAgent : Type := mkAgent {
  num_retries : Z;
  model_name : string;
  user_preferences : PyValue;
  agent_notes : PyValue;
  with_scaffolding : bool;
  with_proper_scaffolding : bool;
  max_new_tokens : Z;
  system_prompt : string
}.

Section Agent.

Context (E : Externals).

(** [f"{v}"] *)
Definition py_str (v : PyValue) : string :=
  match v with
  | PStr s => s
  | PNone => "None"
  | PBool true => "True"
  | PBool false => "False"
  | _ => py_repr E v
  end.

(** [__init__]; the arguments left out ([api_base], [api_key]) only reach
    the generator call. *)
Definition init (model_name : string) (user_preferences agent_notes : PyValue)
    (with_scaffolding with_proper_scaffolding : bool) (num_retries : Z)
    : CollaboratorAgent :=
  let max_new_tokens := 2048%Z in
  mkAgent num_retries model_name user_preferences agent_notes
    with_scaffolding with_proper_scaffolding max_new_tokens
    (if truthy agent_notes then
       reflective_agent_system_prompt E max_new_tokens (py_str agent_notes)
     else if truthy user_preferences then
       agent_system_prompt_with_user_preferences E max_new_tokens (py_str user_preferences)
     else
       agent_system_prompt E max_new_tokens).

Definition message_line (m : Message) : string :=
  capitalize (role m) ++ ": " ++ content m.

Definition get_conversation_string (messages : list loc) : M string :=
  ms <- snapshot messages ;;
  ret (join (String (ascii_of_nat 10) EmptyString) (map message_line ms)).

(** [completion]: one call of the generator, recorded with the messages
    it received. *)
Definition completion (messages : list Message) : M string :=
  fun w =>
    let w' := mkWorld (heap w) (calls w ++ [messages]) (stdout w) in
    match llm_completion E (length (calls w)) messages with
    | GenText text => (Ok text, w')
    | GenRaise e => (Raise e, w')
    end.

(** [[key for key in keys if key not in processed]] *)
Fixpoint missing_keys (keys : list string) (processed : PyValue) : Res (list string) :=
  match keys with
  | [] => Ok []
  | key :: keys' =>
      match contains key processed with
      | Raise e => Raise e
      | Ok present =>
          match missing_keys keys' processed with
          | Raise e => Raise e
          | Ok rest => Ok (if present then rest else key :: rest)
          end
      end
  end.

Definition nl : string := String (ascii_of_nat 10) EmptyString.

Definition raw_instruction : string :=
  "Remember, you have been taking notes throughout past conversations about user preferences. Use whatever is relevant in these notes to guide your response:" ++ nl.

Definition proper_instruction : string :=
  "Remember, you have been taking notes throughout past conversations about user preferences. Use these notes to guide your response:" ++ nl.

(** [messages[0]["content"] = prefix + messages[0]["content"]] *)
Definition prepend_to_first (prefix : string) (messages : list loc) : M unit :=
  match messages with
  | [] => raise IndexError
  | l :: _ =>
      m <- read l ;;
      set_content l (prefix ++ content m)
  end.

(** The [for] loop of [add_scaffolding_to_conversation] with [n]
    iterations left.  Falling off the end of the loop, the method returns
    nothing, that is None. *)
Fixpoint scaffolding_loop (n : nat) (scaffolding_messages : list Message)
    (messages : list loc) : M (option (list loc)) :=
  match n with
  | O => ret None
  | S n' =>
      scaffolding_response <- completion scaffolding_messages ;;
      let processed := repair_json E scaffolding_response in
      missing <- lift (missing_keys ["reasoning"; "relevant_notes"] processed) ;;
      match missing with
      | _ :: _ =>
          print (MissingKeysScaffolding missing processed) ;;;
          scaffolding_loop n' scaffolding_messages messages
      | [] =>
          scaffolded_notes <- lift (getitem processed "relevant_notes") ;;
          prepend_to_first (proper_instruction ++ py_str scaffolded_notes) messages ;;;
          ret (Some messages)
      end
  end.

(** [add_scaffolding_to_conversation]; the argument is None when an
    earlier call returned None. *)
Definition add_scaffolding_to_conversation (self : CollaboratorAgent)
    (messages : option (list loc)) : M (option (list loc)) :=
  match messages with
  | None => raise TypeError
  | Some messages =>
      if negb (with_proper_scaffolding self) then
        prepend_to_first (raw_instruction ++ py_str (agent_notes self)) messages ;;;
        ret (Some messages)
      else
        conversation_str <- get_conversation_string messages ;;
        let prompt := proper_scaffolding_prompt E conversation_str (py_str (agent_notes self)) in
        scaffolding_loop (Z.to_nat (num_retries self)) [mkMessage "user" prompt] messages
  end.

(** [copy.deepcopy] of a list of dictionaries: every dictionary is copied
    once, and a dictionary that occurs twice in the list is the same copy
    in both places. *)
Fixpoint memo_get (memo : list (loc * loc)) (l : loc) : option loc :=
  match memo with
  | [] => None
  | (k, v) :: memo' => if Nat.eqb k l then Some v else memo_get memo' l
  end.

Fixpoint deepcopy_items (memo : list (loc * loc)) (ls : list loc) : M (list loc) :=
  match ls with
  | [] => ret []
  | l :: ls' =>
      match memo_get memo l with
      | Some l' =>
          rest <- deepcopy_items memo ls' ;;
          ret (l' :: rest)
      | None =>
          m <- read l ;;
          l' <- alloc m ;;
          rest <- deepcopy_items ((l, l') :: memo) ls' ;;
          ret (l' :: rest)
      end
  end.

Definition deepcopy (conversation : list loc) : M (list loc) :=
  deepcopy_items [] conversation.

(** The [for] loop of [generate_collaborator_response] with [n]
    iterations left; [conversation] is the local variable, which the
    scaffolding call rebinds. *)
Fixpoint response_loop (self : CollaboratorAgent) (n : nat)
    (conversation : option (list loc)) : M (option PyValue) :=
  match n with
  | O =>
      print (FailedCollaboratorResponse (num_retries self)) ;;;
      ret None
  | S n' =>
      conversation <-
        (if with_scaffolding self
         then add_scaffolding_to_conversation self conversation
         else ret conversation) ;;
      rest <-
        match conversation with
        | Some refs => snapshot refs
        | None => raise TypeError
        end ;;
      let messages := mkMessage "system" (system_prompt self) :: rest in
      response <- completion messages ;;
      let processed := repair_json E response in
      missing <- lift (missing_keys ["reasoning"; "response"] processed) ;;
      match missing with
      | _ :: _ =>
          print (MissingKeysResponse missing messages response processed) ;;;
          response_loop self n' conversation
      | [] => ret (Some processed)
      end
  end.

Definition generate_collaborator_response (self : CollaboratorAgent)
    (conversation : list loc) : M (option PyValue) :=
  conversation <- deepcopy conversation ;;
  response_loop self (Z.to_nat (num_retries self)) (Some conversation).

(** One iteration body of [update_agent_notes], inside its [try]:
    [Some r] is [return r], [None] is [continue]. *)
Definition notes_attempt (prompt : string) : M (option PyValue) :=
  response <- completion [mkMessage "user" prompt] ;;
  let processed := repair_json E response in
  missing <- lift (missing_keys ["user_preferences_reasoning"; "agent_notes"] processed) ;;
  match missing with
  | _ :: _ =>
      print (MissingKeysNotes missing processed) ;;;
      ret None
  | [] => ret (Some processed)
  end.

Fixpoint notes_loop (n : nat) (prompt : string) : M (option PyValue) :=
  match n with
  | O => ret None
  | S n' =>
      r <- try_except (notes_attempt prompt)
             (fun e => print (FailedUpdateNotes e) ;;; ret None) ;;
      match r with
      | Some processed => ret (Some processed)
      | None => notes_loop n' prompt
      end
  end.

Definition update_agent_notes (self : CollaboratorAgent) (agent_notes : PyValue)
    (conversation : list loc) : M (option PyValue) :=
  conversation_str <- get_conversation_string conversation ;;
  let prompt := update_agent_notes_prompt E (py_str agent_notes) conversation_str in
  notes_loop (Z.to_nat (num_retries self)) prompt.

End Agent.

(** ** The callers in full_human_study.py *)

Module Study.

Definition MODEL_NAME : string := "together_ai/meta-llama/Llama-3.3-70B-Instruct-Turbo".

Definition apology : string :=
  "I apologize, but I'm having trouble generating a response. Could you please try rephrasing your question?".

Definition initial_notes : string := "Initial notes: No preferences learned yet.".

(** The part of [st.session_state] the two call sites use.  A chat entry
    always has its role and its content (and a timestamp, which neither
    call site reads). *)
Record Session : Type := mkSession {
  messages : list Message;
  session_agent_notes : PyValue;
  agent : CollaboratorAgent
}.

(** [[{"role": msg["role"], "content": msg["content"]} for msg in messages ...]]:
    a new dictionary for every entry. *)
Fixpoint build_conversation (msgs : list Message) : M (list loc) :=
  match msgs with
  | [] => ret []
  | m :: msgs' =>
      l <- alloc (mkMessage (role m) (content m)) ;;
      ls <- build_conversation msgs' ;;
      ret (l :: ls)
  end.

(** [result and key in result], where [result] may be None. *)
Definition result_has (key : string) (result : option PyValue) : Res bool :=
  match result with
  | None => Ok false
  | Some r => if truthy r then contains key r else Ok false
  end.

(** show_study_interface: from the agent's result to the text shown. *)
Definition response_text (result : option PyValue) : Res PyValue :=
  match result_has "response" result with
  | Raise e => Raise e
  | Ok false => Ok (PStr apology)
  | Ok true =>
      match result with
      | Some r => getitem r "response"
      | None => Raise TypeError
      end
  end.

Section Callers.

Context (E : Externals).

(** show_study_interface: the agent's turn, after the user's message has
    been appended to [messages]. *)
Definition agent_turn (st : Session) : M PyValue :=
  conversation <- build_conversation (messages st) ;;
  result <- generate_collaborator_response E (agent st) conversation ;;
  lift (response_text result).

(** show_survey_interface: the memory update on submission. *)
Definition update_memory (uses_memory : bool) (st : Session) : M Session :=
  if uses_memory then
    conversation <- build_conversation (messages st) ;;
    result <-
      (if truthy (session_agent_notes st)
       then update_agent_notes E (agent st) (session_agent_notes st) conversation
       else update_agent_notes E (agent st) (PStr initial_notes) conversation) ;;
    has <- lift (result_has "agent_notes" result) ;;
    if (has : bool) then
      notes <- lift (match result with
                     | Some r => getitem r "agent_notes"
                     | None => Raise TypeError
                     end) ;;
      ret (mkSession (messages st) notes
             (init E MODEL_NAME PNone notes false false 10))
    else ret st
  else ret st.

End Callers.

End Study.

(** ** The study application of full_human_study.py *)

Module App.

(** The pages [main] dispatches on; [st.session_state.page] is only ever
    assigned these six names. *)
Inductive Page : Type :=
| Intro
| StudySelect
| StudyIntro
| StudyPage
| Survey
| FinalDownload.

Record Problem : Type := mkProblem {
  problem_id : string;
  problem_title : string;
  problem_description : string
}.

Record StudyConfig : Type := mkStudyConfig {
  study_name : string;
  study_description : string;
  uses_memory : bool;
  preferences : list string;
  problems : list Problem
}.

Definition CODING_PREFERENCES : list string :=
  [ "When an agent is writing code or explaining a programming concept, you prefer responses that begin with pseudocode (e.g., high-level idea, design rationale) before showing going into implementation details.";
    "If multiple high-level, valid solutions exist for a coding problem (recursion vs. dynamic programming), then you would prefer the agent to present the different approaches and their tradeoffs.";
    "If the code solution requires extensive use of an imported library, the agent should always provide an explanation detailing why the dependency is helpful.";
    "When writing variable names, function names, or method names, you prefer that the agent consistently use camelCase rather than other naming conventions." ].

Definition CODING_PROBLEMS : list Problem :=
  [ mkProblem "p1" "Session 1"
      ("**Problem #1:**" ++ nl ++
       EmptyString ++ nl ++
       "The function below is intended to walk a directory tree and collect files whose names match a pattern. It always returns an empty list. Can you fix it and/or find a cleaner way to implement it?" ++ nl ++
       EmptyString ++ nl ++
       "```python" ++ nl ++
       "import os" ++ nl ++
       EmptyString ++ nl ++
       "def scan_dir(path, pattern):" ++ nl ++
       "    curr_results = []" ++ nl ++
       "    for root, dirs, files in os.walk(path):" ++ nl ++
       "        for f in files:" ++ nl ++
       "            if f.endswith(pattern):" ++ nl ++
       "                curr_results = curr_results.append(os.path.join(root, f))" ++ nl ++
       "    return curr_results" ++ nl ++
       "```" ++ nl ++
       EmptyString)%string;
    mkProblem "p2" "Session 2"
      "Write a function that resizes an image, converts it to grayscale, and saves it.";
    mkProblem "p3" "Session 3"
      "You are implementing an object-oriented program to help students plan their coursework each semester. Your program must support checking whether a student has completed all prerequisites for a course, where some prerequisites include a minimum completion date." ].

Definition MIXED_PREFERENCES : list string :=
  [ "When producing an answer, you prefer responses that begin with a high-level plan before showing concrete revisions, implementations, solutions, or rewritten text. This plan should outline the conceptual strategy, structural intent, and major steps the agent will take.";
    "If multiple high-level, valid strategies exist for completing a task, you prefer that the agent first present these different approaches along with their tradeoffs. The agent should briefly explain how each strategy would shape the outcome and then ask which direction you want to pursue before producing any detailed edits or solutions." ].

Definition MIXED_PROBLEMS : list Problem :=
  [ mkProblem "p1" "Session 1"
      ("Add a plot twist to the paragraph below, but make sure the twist (e.g., character-based, setting-based, or perspective-based) integrates smoothly with the existing setup. The twist should feel motivated rather than sudden or random." ++ nl ++
       "\“Nora stood waiting at the empty bus stop, the cold wind tugging at her coat as she checked the time again. The streetlamps flickered in uneven intervals, casting long shadows across the pavement. Behind her, the small bakery she had just left was closing for the night, its warm lights dimming one by one. The bus was already ten minutes late, and the neighborhood felt unusually deserted for a Thursday evening.\”")%string;
    mkProblem "p2" "Session 2"
      "How many ways are there to put 4 distinguishable balls into 2 indistinguishable boxes?";
    mkProblem "p3" "Session 3"
      "Write a function that resizes an image, converts it to grayscale, and saves it." ].

Definition STUDY_CONDITIONS : list (string * StudyConfig) :=
  [ ("coding_standard_agent",
     mkStudyConfig "Coding Study - Version A"
       "You will be solving debugging, implementation, and object-oriented design problems."
       false CODING_PREFERENCES CODING_PROBLEMS);
    ("coding_collaborative_agent",
     mkStudyConfig "Coding Study - Version B"
       "You will be solving debugging, implementation, and object-oriented design problems."
       true CODING_PREFERENCES CODING_PROBLEMS);
    ("mixed_standard_agent",
     mkStudyConfig "Mixed Domains Study - Version A"
       "You will be solving a writing, math, and coding problems."
       false CODING_PREFERENCES MIXED_PROBLEMS);
    ("mixed_collaborative_agent",
     mkStudyConfig "Mixed Domains Study - Version B"
       "You will be solving a writing, math, and coding problems."
       true MIXED_PREFERENCES MIXED_PROBLEMS) ].

(** [STUDY_CONDITIONS[key]], None standing for KeyError. *)
Fixpoint lookup_config (key : string) (table : list (string * StudyConfig))
    : option StudyConfig :=
  match table with
  | [] => None
  | (k, cfg) :: table' => if String.eqb k key then Some cfg else lookup_config key table'
  end.

(** An entry of [st.session_state.messages]; the content of an assistant
    entry is whatever object the response field held. *)
Record ChatEntry : Type := mkChatEntry {
  entry_role : string;
  entry_content : PyValue;
  entry_timestamp : string
}.

(** The values of the survey form, in the order of its widgets. *)
Record SurveyAnswers : Type := mkSurveyAnswers {
  q1 : Z;
  q2 : Z;
  q3 : string;
  q4 : Z;
  q_sat : Z;
  q5 : string;
  q6 : string
}.

(** The dictionary stored under [survey_responses]. *)
Record SurveyResponses : Type := mkSurveyResponses {
  q1_preference_adherence : Z;
  q2_preference_memory : Z;
  q3_preference_impact : string;
  q4_confidence : Z;
  q_satisfaction : Z;
  q5_memorable_moments : string
}.

Record SessionRecord : Type := mkSessionRecord {
  session_index : nat;
  record_problem_id : string;
  record_problem_title : string;
  chat_history : list ChatEntry;
  agent_notes_before : PyValue;
  agent_notes_after : PyValue;
  survey_responses : SurveyResponses;
  record_timestamp : string
}.

Record StudyRecord : Type := mkStudyRecord {
  study_condition : string;
  record_study_name : string;
  start_time : string;
  end_time : string;
  assigned_preferences : list string;
  record_uses_memory : bool;
  sessions : list SessionRecord
}.

Record AllStudyData : Type := mkAllStudyData {
  participant_id : string;
  overall_start_time : string;
  studies : list StudyRecord
}.

(** [st.session_state]: every key may be absent. *)
Record SessionState : Type := mkSessionState {
  raw_page : option Page;
  raw_selected_study : option (option string);
  raw_current_problem_index : option nat;
  raw_messages : option (list ChatEntry);
  raw_agent_notes : option PyValue;
  raw_completed_studies : option (list string);
  raw_all_study_data : option AllStudyData;
  raw_agent : option CollaboratorAgent;
  raw_study_start_time : option string;
  raw_current_study_sessions : option (list SessionRecord)
}.

(** The session state once [init_session] has run: its seven keys are
    there; [agent], [study_start_time] and [current_study_sessions] are
    set later and may still be absent.  The set of completed studies is
    kept as the list of its elements, in the order they were added. *)
Record State : Type := mkState {
  page : Page;
  selected_study : option string;
  current_problem_index : nat;
  messages : list ChatEntry;
  agent_notes : PyValue;
  completed_studies : list string;
  all_study_data : AllStudyData;
  agent : option CollaboratorAgent;
  study_start_time : option string;
  current_study_sessions : option (list SessionRecord)
}.

(** The state with no key, before the first run and after the download
    page's reset. *)
Definition no_state : SessionState :=
  mkSessionState None None None None None None None None None None.

(** The state as [st.session_state] holds it. *)
Definition store (s : State) : SessionState :=
  mkSessionState (Some (page s)) (Some (selected_study s))
    (Some (current_problem_index s)) (Some (messages s)) (Some (agent_notes s))
    (Some (completed_studies s)) (Some (all_study_data s))
    (agent s) (study_start_time s) (current_study_sessions s).

(** [init_session]: each of the seven keys gets its default only when it
    is absent; [uuid] and [now] are what [uuid.uuid4()] and
    [datetime.now()] give in this run. *)
Definition init_session (raw : SessionState) (uuid now : string) : State :=
  mkState
    (match raw_page raw with Some p => p | None => Intro end)
    (match raw_selected_study raw with Some k => k | None => None end)
    (match raw_current_problem_index raw with Some i => i | None => 0 end)
    (match raw_messages raw with Some ms => ms | None => [] end)
    (match raw_agent_notes raw with Some n => n | None => PStr EmptyString end)
    (match raw_completed_studies raw with Some c => c | None => [] end)
    (match raw_all_study_data raw with
     | Some d => d
     | None => mkAllStudyData uuid now []
     end)
    (raw_agent raw) (raw_study_start_time raw) (raw_current_study_sessions raw).

(** [key in completed] and [completed.add(key)] on the set. *)
Definition set_mem (key : string) (set : list string) : bool :=
  existsb (String.eqb key) set.

Definition set_add (key : string) (set : list string) : list string :=
  if set_mem key set then set else set ++ [key].

(** What happens outside the agent: an exception of the agent, or an
    attribute of the session state that is not there. *)
Inductive AppExn : Type :=
| PyExn (e : Exn)
| AttributeError (attribute : string).

(** The widget the user has just used; a run with [Rerun] has none.  The
    timestamps are the values of [datetime.now()] in the run. *)
Inductive Event : Type :=
| Rerun
| BeginStudies (agreed : bool)
| DownloadAll
| Start (key : string) (now : string)
| BackToSelection
| BeginStudy
| TaskComplete
| ChatInput (prompt : string) (now_user now_assistant : string)
| SubmitSurvey (answers : SurveyAnswers) (now_session now_start now_end : string)
| StartAnother
| ExitStudy.

Definition set_page (s : State) (p : Page) : State :=
  mkState p (selected_study s) (current_problem_index s) (messages s)
    (agent_notes s) (completed_studies s) (all_study_data s) (agent s)
    (study_start_time s) (current_study_sessions s).

Definition set_messages (s : State) (ms : list ChatEntry) : State :=
  mkState (page s) (selected_study s) (current_problem_index s) ms
    (agent_notes s) (completed_studies s) (all_study_data s) (agent s)
    (study_start_time s) (current_study_sessions s).

(** [config = STUDY_CONDITIONS[st.session_state.selected_study]] *)
Definition current_config (s : State) : Res StudyConfig :=
  match selected_study s with
  | None => Raise (KeyError "None")
  | Some key =>
      match lookup_config key STUDY_CONDITIONS with
      | Some cfg => Ok cfg
      | None => Raise (KeyError key)
      end
  end.

(** show_intro_page: the button is disabled until the box is ticked. *)
Definition show_intro_page (s : State) (ev : Event) : State :=
  match ev with
  | BeginStudies true => set_page s StudySelect
  | _ => s
  end.

(** show_study_selector: the download button once every study is
    completed, otherwise a start button for each study not yet
    completed. *)
Definition show_study_selector (s : State) (ev : Event) : State :=
  if Nat.eqb (length (completed_studies s)) (length STUDY_CONDITIONS) then
    match ev with
    | DownloadAll => set_page s FinalDownload
    | _ => s
    end
  else
    match ev with
    | Start key now =>
        match lookup_config key STUDY_CONDITIONS with
        | Some _ =>
            if set_mem key (completed_studies s) then s
            else mkState StudyIntro (Some key) (current_problem_index s) (messages s)
                   (agent_notes s) (completed_studies s) (all_study_data s) (agent s)
                   (Some now) (current_study_sessions s)
        | None => s
        end
    | _ => s
    end.

Definition survey_responses_of (a : SurveyAnswers) : SurveyResponses :=
  mkSurveyResponses (q1 a) (q2 a) (q3 a) (q4 a) (q_sat a) (q5 a).

Section WithExternals.

Context (E : Externals).

(** [CollaboratorAgent(model_name=MODEL_NAME)] *)
Definition new_agent : CollaboratorAgent :=
  init E Study.MODEL_NAME PNone PNone false false 10.

(** The dictionary the callers build for the agent from a chat entry.
    The agent's code reads a content through an f-string or hands it to
    the generator; a content that is not a str is given here as its
    text. *)
Definition as_message (e : ChatEntry) : Message :=
  mkMessage (entry_role e) (py_str E (entry_content e)).

Definition session_view (s : State) (a : CollaboratorAgent) : Study.Session :=
  Study.mkSession (map as_message (messages s)) (agent_notes s) a.

(** show_study_intro_page *)
Definition show_study_intro_page (s : State) (ev : Event) : State * option AppExn :=
  match current_config s with
  | Raise e => (s, Some (PyExn e))
  | Ok _ =>
      match ev with
      | BackToSelection => (set_page s StudySelect, None)
      | BeginStudy =>
          (mkState StudyPage (selected_study s) (current_problem_index s) (messages s)
             (agent_notes s) (completed_studies s) (all_study_data s) (Some new_agent)
             (study_start_time s) (current_study_sessions s), None)
      | _ => (s, None)
      end
  end.

(** show_study_interface, the chat input: the user's entry is appended
    before the agent is called, the assistant's after. *)
Definition chat (s : State) (prompt now_user now_assistant : string)
    : World -> (State * option AppExn) * World :=
  fun w =>
    let s1 := set_messages s (messages s ++ [mkChatEntry "user" (PStr prompt) now_user]) in
    match agent s1 with
    | None => ((s1, Some (AttributeError "agent")), w)
    | Some a =>
        match Study.agent_turn E (session_view s1 a) w with
        | (Ok text, w') =>
            ((set_messages s1 (messages s1 ++ [mkChatEntry "assistant" text now_assistant]),
              None), w')
        | (Raise e, w') => ((s1, Some (PyExn e)), w')
        end
    end.

(** show_study_interface *)
Definition show_study_interface (s : State) (ev : Event)
    : World -> (State * option AppExn) * World :=
  fun w =>
    match current_config s with
    | Raise e => ((s, Some (PyExn e)), w)
    | Ok cfg =>
        if Nat.leb (length (problems cfg)) (current_problem_index s) then
          ((set_page s Survey, None), w)
        else
          match ev with
          | TaskComplete => ((set_page s Survey, None), w)
          | ChatInput prompt now_user now_assistant =>
              if String.eqb prompt EmptyString then ((s, None), w)
              else chat s prompt now_user now_assistant w
          | _ => ((s, None), w)
          end
    end.

(** show_survey_interface, the form once submitted, after the memory
    update: [notes] and [a] are the notes and the agent it left. *)
Definition record_session (s : State) (key : string) (cfg : StudyConfig)
    (current_problem : Problem) (notes : PyValue) (a : option CollaboratorAgent)
    (answers : SurveyAnswers) (now_session now_start now_end : string) : State :=
  let session_record :=
    mkSessionRecord (current_problem_index s) (problem_id current_problem)
      (problem_title current_problem) (messages s) (agent_notes s) notes
      (survey_responses_of answers) now_session in
  let current_sessions :=
    match current_study_sessions s with
    | Some l => l
    | None => []
    end ++ [session_record] in
  let index := current_problem_index s + 1 in
  if Nat.leb (length (problems cfg)) index then
    let study_record :=
      mkStudyRecord key (study_name cfg)
        (match study_start_time s with Some t => t | None => now_start end)
        now_end (preferences cfg) (uses_memory cfg) current_sessions in
    mkState StudySelect None 0 [] (PStr EmptyString)
      (set_add key (completed_studies s))
      (mkAllStudyData (participant_id (all_study_data s))
         (overall_start_time (all_study_data s))
         (studies (all_study_data s) ++ [study_record]))
      a (study_start_time s) (Some [])
  else
    mkState StudyPage (Some key) index [] notes (completed_studies s)
      (all_study_data s) a (study_start_time s) (Some current_sessions).

(** show_survey_interface *)
Definition show_survey_interface (s : State) (ev : Event)
    : World -> (State * option AppExn) * World :=
  fun w =>
    match ev with
    | SubmitSurvey answers now_session now_start now_end =>
        match selected_study s, current_config s with
        | _, Raise e => ((s, Some (PyExn e)), w)
        | None, Ok _ => ((s, Some (PyExn (KeyError "None"))), w)
        | Some key, Ok cfg =>
            match problems cfg !! current_problem_index s with
            | None => ((s, Some (PyExn IndexError)), w)
            | Some current_problem =>
                if uses_memory cfg then
                  match agent s with
                  | None => ((s, Some (AttributeError "agent")), w)
                  | Some a =>
                      match Study.update_memory E true (session_view s a) w with
                      | (Ok st, w') =>
                          ((record_session s key cfg current_problem
                              (Study.session_agent_notes st) (Some (Study.agent st))
                              answers now_session now_start now_end, None), w')
                      | (Raise e, w') => ((s, Some (PyExn e)), w')
                      end
                  end
                else
                  ((record_session s key cfg current_problem (agent_notes s) (agent s)
                      answers now_session now_start now_end, None), w)
            end
        end
    | _ => ((s, None), w)
    end.

(** [main]: one run of the script, from the session state it finds to the
    one it leaves. *)
Definition main (raw : SessionState) (uuid now : string) (ev : Event)
    : World -> (SessionState * option AppExn) * World :=
  fun w =>
    let s := init_session raw uuid now in
    match page s with
    | Intro => ((store (show_intro_page s ev), None), w)
    | StudySelect => ((store (show_study_selector s ev), None), w)
    | StudyIntro =>
        let r := show_study_intro_page s ev in ((store r.1, r.2), w)
    | StudyPage =>
        let r := show_study_interface s ev w in ((store r.1.1, r.1.2), r.2)
    | Survey =>
        let r := show_survey_interface s ev w in ((store r.1.1, r.1.2), r.2)
    | FinalDownload =>
        match ev with
        | StartAnother => ((no_state, None), w)
        | _ => ((store s, None), w)
        end
    end.

(** The runs of [main] for a list of user actions, each with the values
    [uuid.uuid4()] and [datetime.now()] have in its run. *)
Fixpoint session (raw : SessionState) (w : World)
    (actions : list (string * string * Event)) : SessionState * World :=
  match actions with
  | [] => (raw, w)
  | (uuid, now, ev) :: actions' =>
      let r := main raw uuid now ev w in
      session r.1.1 r.2 actions'
  end.

End WithExternals.

End App.

(** ** Vocabulary of the properties *)

Module Spec.

Definition response_keys : list string := ["reasoning"; "response"].
Definition notes_keys : list string := ["user_preferences_reasoning"; "agent_notes"].
Definition scaffold_keys : list string := ["reasoning"; "relevant_notes"].

(** Every reference of [refs] points into the store of [w]. *)
Definition valid_refs (refs : list loc) (w : World) : Prop :=
  Forall (fun l => l < length (heap w)) refs.

Definition deref (h : list Message) (refs : list loc) : list Message :=
  omap (fun l => h !! l) refs.

(** The world after a generator call with [msgs], and after a print. *)
Definition called (w : World) (msgs : list Message) : World :=
  mkWorld (heap w) (calls w ++ [msgs]) (stdout w).

Definition printed (w : World) (p : Printed) : World :=
  mkWorld (heap w) (calls w) (stdout w ++ [p]).

(** [extends n0 w w']: going from [w] to [w'], the first [n0]
    dictionaries of the store are untouched, no dictionary disappears and
    the record of generator calls only grows. *)
Definition extends (n0 : nat) (w w' : World) : Prop :=
  take n0 (heap w') = take n0 (heap w) /\
  length (heap w) <= length (heap w') /\
  calls w `prefix_of` calls w'.

(** [safe n0 m Q]: run from a store of at least [n0] dictionaries, [m]
    extends the world, and a value it returns satisfies [Q]. *)
Definition safe {A} (n0 : nat) (m : M A) (Q : A -> Prop) : Prop :=
  forall w, n0 <= length (heap w) ->
    extends n0 w (m w).2 /\
    match (m w).1 with Ok a => Q a | Raise _ => True end.

Definition beyond (n0 : nat) (conversation : option (list loc)) : Prop :=
  match conversation with
  | Some refs => Forall (fun l => n0 <= l) refs
  | None => True
  end.

(** Scaffolding is local when it needs no generator call and has a first
    message to write to: either the agent does not scaffold, or it
    scaffolds in raw mode and the conversation is not empty. *)
Definition local_scaffolding (a : CollaboratorAgent) (refs : list loc) : Prop :=
  with_scaffolding a = false \/
  (with_proper_scaffolding a = false /\ refs <> []).

(** Every pair of the memo is an original and its copy: both in the store,
    with the same contents. *)
Definition memo_ok (memo : list (loc * loc)) (h : list Message) : Prop :=
  Forall (fun p => p.1 < length h /\ p.2 < length h /\ h !! p.2 = h !! p.1) memo.

(** [j] copies of [prefix] in front of [body]. *)
Fixpoint stack (j : nat) (prefix body : string) : string :=
  match j with
  | O => body
  | S j' => prefix ++ stack j' prefix body
  end.

Section WithExternals.

Context (E : Externals).

(** How one generator outcome fares against a set of required keys. *)
Definition fails_validation (keys : list string) (o : GenOutcome) : bool :=
  match o with
  | GenText raw =>
      match missing_keys keys (repair_json E raw) with
      | Ok (_ :: _) => true
      | _ => false
      end
  | GenRaise _ => false
  end.

Definition yields_valid (keys : list string) (o : GenOutcome) : bool :=
  match o with
  | GenText raw =>
      match missing_keys keys (repair_json E raw) with
      | Ok [] => true
      | _ => false
      end
  | GenRaise _ => false
  end.

(** The generator's calls number [c0+1] to [c0+k] fail validation,
    whatever messages they get. *)
Definition fails_first (keys : list string) (c0 k : nat) : Prop :=
  forall i msgs, i < k ->
    fails_validation keys (llm_completion E (c0 + i) msgs) = true.

(** The generator's call number [c+1] yields a record with all the
    keys. *)
Definition valid_at (keys : list string) (c : nat) : Prop :=
  forall msgs, yields_valid keys (llm_completion E c msgs) = true.

(** The generator's calls number [c0+1] to [c0+k] yield no valid record:
    each raises, or its text fails validation, or the validation itself
    raises. *)
Definition never_valid (keys : list string) (c0 k : nat) : Prop :=
  forall i msgs, i < k ->
    yields_valid keys (llm_completion E (c0 + i) msgs) = false.

(** The attempt with outcome [o] ends in the exception [e]: the generator
    raises it, or the membership test does on the repaired text. *)
Definition ends_in (keys : list string) (o : GenOutcome) (e : Exn) : Prop :=
  match o with
  | GenRaise e' => e' = e
  | GenText raw => missing_keys keys (repair_json E raw) = Raise e
  end.

Definition raw_prefix (a : CollaboratorAgent) : string :=
  raw_instruction ++ py_str E (agent_notes a).

(** The world after the scaffolding step of one iteration, when
    scaffolding is local. *)
Definition scaffolded (a : CollaboratorAgent) (refs : list loc) (w : World) : World :=
  if with_scaffolding a then
    match refs with
    | l :: _ =>
        match heap w !! l with
        | Some m =>
            mkWorld (<[l := mkMessage (role m) (raw_prefix a ++ content m)]> (heap w))
              (calls w) (stdout w)
        | None => w
        end
    | [] => w
    end
  else w.

(** What the response loop returns, when it returns a record: the
    repaired text of some generator output, with no required key
    missing. *)
Definition validated (r : option PyValue) : Prop :=
  forall processed, r = Some processed ->
    missing_keys ["reasoning"; "response"] processed = Ok [] /\
    exists raw, processed = repair_json E raw.

End WithExternals.

(** Raw-mode scaffolding succeeds on the conversation [refs], as C8 states
    it for every conversation. *)
Definition raw_scaffolding_succeeds (E : Externals) (a : CollaboratorAgent)
    (refs : list loc) (w : World) : Prop :=
  exists w', add_scaffolding_to_conversation E a (Some refs) w = (Ok (Some refs), w').

(** C1 for [generate_collaborator_response], as stated: after [k] attempts
    that fail validation and a valid one, the record is returned and the
    generator has been called [k+1] times. *)
Definition response_retry_claim (E : Externals) (a : CollaboratorAgent)
    (conversation : list loc) (w : World) (k : nat) : Prop :=
  valid_refs conversation w ->
  k < Z.to_nat (num_retries a) ->
  fails_first E response_keys (length (calls w)) k ->
  valid_at E response_keys (length (calls w) + k) ->
  exists raw msgs w',
    generate_collaborator_response E a conversation w
      = (Ok (Some (repair_json E raw)), w') /\
    llm_completion E (length (calls w) + k) msgs = GenText raw /\
    length (calls w') = length (calls w) + k + 1.

(** C4, as stated: what [generate_collaborator_response] returns on
    success is the text of the response field. *)
Definition returns_response_text (E : Externals) (a : CollaboratorAgent)
    (conversation : list loc) (w : World) : Prop :=
  forall returned w',
    generate_collaborator_response E a conversation w = (Ok (Some returned), w') ->
    exists raw, getitem (repair_json E raw) "response" = Ok returned.

End Spec.
Import Spec.

(** ** Vocabulary of the cost and transcript properties *)

Module Cost.

(** [spends n m]: whatever the world it starts from, a run of [m] makes
    at most [n] generator calls. *)
Definition spends {A} (n : nat) (m : M A) : Prop :=
  forall w, length (calls (m w).2) <= length (calls w) + n.

(** The flat transcript of the messages at [refs]: one line per message,
    the capitalized role, a colon and the content. *)
Definition transcript (h : list Message) (refs : list loc) : string :=
  join nl (map message_line (deref h refs)).

(** The most generator calls one iteration of the response loop can add
    to the call for the turn: the scaffolding attempts, in
    model-mediated mode. *)
Definition scaffolding_budget (a : CollaboratorAgent) : nat :=
  if with_scaffolding a && with_proper_scaffolding a
  then Z.to_nat (num_retries a)
  else 0.

End Cost.
Import Cost.

(** ** Vocabulary of the application's properties *)

Module AppSpec.

Import App.

Definition sessions_of (s : State) : list SessionRecord :=
  match current_study_sessions s with
  | Some l => l
  | None => []
  end.

(** No study is under way: first problem, no session recorded, empty
    chat, empty notes. *)
Definition idle (s : State) : Prop :=
  current_problem_index s = 0 /\
  sessions_of s = [] /\
  messages s = [] /\
  agent_notes s = PStr EmptyString.

(** The study [key], with configuration [cfg], is selected and not yet
    completed. *)
Definition active (s : State) (key : string) (cfg : StudyConfig) : Prop :=
  selected_study s = Some key /\
  lookup_config key STUDY_CONDITIONS = Some cfg /\
  set_mem key (completed_studies s) = false.

(** The session records are numbered from 0 in the order they were
    made. *)
Definition numbered (l : list SessionRecord) : Prop :=
  map session_index l = seq 0 (length l).

(** The notes go from [first] to [final] through the records: each
    session starts with the notes the one before ended with. *)
Fixpoint chained (first : PyValue) (l : list SessionRecord) (final : PyValue) : Prop :=
  match l with
  | [] => first = final
  | r :: l' => agent_notes_before r = first /\ chained (agent_notes_after r) l' final
  end.

(** The record shows empty notes before and after the session. *)
Definition without_notes (r : SessionRecord) : Prop :=
  agent_notes_before r = PStr EmptyString /\ agent_notes_after r = PStr EmptyString.

(** The settings every agent of the application has. *)
Definition default_agent (a : CollaboratorAgent) : Prop :=
  with_scaffolding a = false /\
  with_proper_scaffolding a = false /\
  num_retries a = 10%Z /\
  model_name a = Study.MODEL_NAME /\
  user_preferences a = PNone.

(** A recorded study agrees with its condition in the table. *)
Definition study_ok (r : StudyRecord) : Prop :=
  exists cfg final,
    lookup_config (study_condition r) STUDY_CONDITIONS = Some cfg /\
    length (sessions r) = length (problems cfg) /\
    numbered (sessions r) /\
    record_uses_memory r = uses_memory cfg /\
    record_study_name r = study_name cfg /\
    assigned_preferences r = preferences cfg /\
    chained (PStr EmptyString) (sessions r) final /\
    (uses_memory cfg = false -> Forall without_notes (sessions r)).

Section WithExternals.

Context (E : Externals).

(** The agent of a study under way: it is there, with the default
    settings; its system prompt is the one the stored notes give; in a
    condition without memory it is still the agent the study began with,
    and the notes are empty. *)
Definition agent_fits (s : State) (cfg : StudyConfig) : Prop :=
  exists a,
    agent s = Some a /\
    system_prompt a
      = system_prompt (init E Study.MODEL_NAME PNone (agent_notes s) false false 10) /\
    (uses_memory cfg = false ->
     agent_notes s = PStr EmptyString /\ a = new_agent E).

(** What every run of [main] keeps true of the session state. *)
Definition invariant (s : State) : Prop :=
  length (sessions_of s) = current_problem_index s /\
  numbered (sessions_of s) /\
  chained (PStr EmptyString) (sessions_of s) (agent_notes s) /\
  map study_condition (studies (all_study_data s)) = completed_studies s /\
  NoDup (completed_studies s) /\
  Forall study_ok (studies (all_study_data s)) /\
  (forall a, agent s = Some a -> default_agent a) /\
  match page s with
  | Intro | StudySelect => idle s
  | FinalDownload =>
      idle s /\ length (completed_studies s) = length STUDY_CONDITIONS
  | StudyIntro => idle s /\ exists key cfg, active s key cfg
  | StudyPage | Survey =>
      exists key cfg,
        active s key cfg /\
        current_problem_index s < length (problems cfg) /\
        agent_fits s cfg /\
        (uses_memory cfg = false -> Forall without_notes (sessions_of s))
  end.

Definition raw_invariant (raw : SessionState) : Prop :=
  raw = no_state \/ exists s, raw = store s /\ invariant s.

(** The state the next run of [main] starts from, after the user's
    [actions] in a browser session that began with no state. *)
Definition state_after (w : World) (actions : list (string * string * Event))
    (uuid now : string) : State :=
  init_session (session E no_state w actions).1 uuid now.

End WithExternals.

End AppSpec.
Import AppSpec.

(** ** Sample surroundings for the examples *)

Module Sample.

Local Open Scope string_scope.

Definition dq : string := String (ascii_of_nat 34) EmptyString.

Definition quoted (s : string) : string := dq ++ s ++ dq.

(** The JSON text of a flat object with string values. *)
Fixpoint json_items (items : list (string * string)) : string :=
  match items with
  | [] => EmptyString
  | [(k, v)] => quoted k ++ ": " ++ quoted v
  | (k, v) :: items' => quoted k ++ ": " ++ quoted v ++ ", " ++ json_items items'
  end.

Definition json_object (items : list (string * string)) : string :=
  "{" ++ json_items items ++ "}".

Definition record (items : list (string * string)) : PyValue :=
  PDict (map (fun kv => (fst kv, PStr (snd kv))) items).

Definition response_ok : list (string * string) :=
  [("reasoning", "r"); ("response", "hi")].
Definition response_only : list (string * string) :=
  [("response", "hi")].
Definition notes_ok : list (string * string) :=
  [("user_preferences_reasoning", "likes camelCase");
   ("agent_notes", "User prefers camelCase naming.")].
Definition scaffold_ok : list (string * string) :=
  [("reasoning", "r"); ("relevant_notes", "Prefers Python.")].
Definition all_keys : list (string * string) :=
  [("reasoning", "r"); ("response", "hi"); ("relevant_notes", "Prefers Python.")].

Definition loose_text : string := "my reasoning and my response".

(** [repair_json] on the generator outputs used in the examples.  Each
    of the listed texts is valid JSON, which [repair_json] hands to
    [json.loads]: an object becomes a dict, a number an int, [null] None
    and a string literal a str.  The only other text the examples use is
    the empty one, which is repaired to the empty string. *)
Definition repair_json (text : string) : PyValue :=
  if String.eqb text (json_object response_ok) then record response_ok
  else if String.eqb text (json_object response_only) then record response_only
  else if String.eqb text (json_object notes_ok) then record notes_ok
  else if String.eqb text (json_object scaffold_ok) then record scaffold_ok
  else if String.eqb text (json_object all_keys) then record all_keys
  else if String.eqb text "123" then PInt 123
  else if String.eqb text "null" then PNone
  else if String.eqb text (quoted loose_text) then PStr loose_text
  else PStr EmptyString.

(** A generator that plays a script: its [n+1]-th call has the [n+1]-th
    outcome of the script, whatever the messages, and [default] once the
    script is over. *)
Definition scripted (script : list GenOutcome) (default : GenOutcome)
    : nat -> list Message -> GenOutcome :=
  fun n _ => nth n script default.

(** A generator whose every call has the same outcome. *)
Definition always (o : GenOutcome) : nat -> list Message -> GenOutcome :=
  fun _ _ => o.

(** A generator that never helps: it times out on its odd calls and
    answers with a bare number on its even ones. *)
Definition flaky : nat -> list Message -> GenOutcome :=
  fun n _ => if Nat.even n then GenRaise (GatewayError "timeout") else GenText "123".

Definition externals (llm : nat -> list Message -> GenOutcome) : Externals :=
  mkExternals llm repair_json
    (fun _ => "<object>")
    (fun _ => "You are an assistant.")
    (fun _ prefs => "You are an assistant. Preferences: " ++ prefs)
    (fun _ notes => "You are an assistant. Notes: " ++ notes)
    (fun notes conv => "Update the notes. " ++ notes ++ " " ++ conv)
    (fun conv notes => "Select the relevant notes. " ++ conv ++ " " ++ notes).

Definition user_hello : Message := mkMessage "user" "Hello".

(** A store that holds one conversation of one message, no call made and
    nothing printed yet. *)
Definition world : World := mkWorld [user_hello] [] [].

Definition plain_agent (retries : Z) : CollaboratorAgent :=
  init (externals (always (GenText EmptyString)))
    "model" PNone PNone false false retries.

Definition notes_agent (scaffolding proper : bool) (retries : Z) : CollaboratorAgent :=
  init (externals (always (GenText EmptyString)))
    "model" PNone (PStr "Prefers Python.") scaffolding proper retries.

End Sample.

(** ** Sample user actions for the examples *)

Module SampleApp.

Import App.

Definition answers : SurveyAnswers :=
  mkSurveyAnswers 4 3 "Adhered to my preferences, and this positively impacted my experience."
    4 5 "It remembered camelCase." "None.".

(** An action in a run whose [uuid.uuid4()] and [datetime.now()] have
    these values. *)
Definition act (ev : Event) : string * string * Event :=
  ("participant-1", "2025-01-01 10:00:00", ev).

Definition one_session : list (string * string * Event) :=
  [act (ChatInput "Hello" "10:01" "10:02");
   act TaskComplete;
   act (SubmitSurvey answers "10:05" "10:05" "10:06")].

Definition one_study (key : string) : list (string * string * Event) :=
  [act (Start key "10:00"); act BeginStudy] ++ one_session ++ one_session ++ one_session.

(** From the first page to the survey of the first session of a memory
    condition. *)
Definition to_first_survey : list (string * string * Event) :=
  [act (BeginStudies true);
   act (Start "coding_collaborative_agent" "10:00");
   act BeginStudy;
   act (ChatInput "Hello" "10:01" "10:02");
   act TaskComplete].

(** The same for a condition without memory, one session further. *)
Definition to_second_survey_standard : list (string * string * Event) :=
  [act (BeginStudies true);
   act (Start "coding_standard_agent" "10:00");
   act BeginStudy] ++ one_session ++
  [act (ChatInput "Hello again" "10:11" "10:12"); act TaskComplete].

(** All four studies, then the download page. *)
Definition whole_study : list (string * string * Event) :=
  [act (BeginStudies true)] ++
  one_study "mixed_collaborative_agent" ++
  one_study "coding_standard_agent" ++
  one_study "coding_collaborative_agent" ++
  one_study "mixed_standard_agent" ++
  [act DownloadAll].

(** From the first page to the study page of a first session. *)
Definition to_study_page : list (string * string * Event) :=
  [act (BeginStudies true);
   act (Start "mixed_standard_agent" "10:00");
   act BeginStudy].

(** A memory study done, and the next study selected. *)
Definition to_second_study : list (string * string * Event) :=
  [act (BeginStudies true)] ++
  one_study "mixed_collaborative_agent" ++
  [act (Start "coding_collaborative_agent" "11:00")].

(** A generator that answers a turn with a valid response record and a
    consolidation with a valid notes record: it tells them apart by the
    role of the first message. *)
Definition helpful : nat -> list Message -> GenOutcome :=
  fun _ msgs =>
    match msgs with
    | m :: _ =>
        if String.eqb (role m) "system"
        then GenText (Sample.json_object Sample.response_ok)
        else GenText (Sample.json_object Sample.notes_ok)
    | [] => GenText EmptyString
    end.

End SampleApp.

(** ** Runs only extend the caller's store *)

Module Frame.

Lemma extends_refl n0 w : extends n0 w w.
Proof. repeat split; auto. Qed.

Lemma extends_trans n0 w1 w2 w3 :
  extends n0 w1 w2 -> extends n0 w2 w3 -> extends n0 w1 w3.
Proof.
  intros (H1 & H2 & H3) (H4 & H5 & H6). repeat split.
  - congruence.
  - lia.
  - etrans; eauto.
Qed.

Lemma safe_ret {A} n0 (a : A) (Q : A -> Prop) : Q a -> safe n0 (ret a) Q.
Proof. intros HQ w _. split; [apply extends_refl | exact HQ]. Qed.

Lemma safe_raise {A} n0 e (Q : A -> Prop) : safe n0 (raise e) Q.
Proof. intros w _. split; [apply extends_refl | exact I]. Qed.

Lemma safe_lift {A} n0 (r : Res A) : safe n0 (lift r) (fun a => r = Ok a).
Proof. intros w _. split; [apply extends_refl |]. simpl. destruct r; auto. Qed.

Lemma safe_bind {A B} n0 (m : M A) (f : A -> M B) (Q : A -> Prop) (Q' : B -> Prop) :
  safe n0 m Q -> (forall a, Q a -> safe n0 (f a) Q') -> safe n0 (bind m f) Q'.
Proof.
  intros Hm Hf w Hw. unfold bind.
  destruct (Hm w Hw) as [Hext HQ].
  destruct (m w) as [[a | e] w1]; simpl in *.
  - destruct Hext as (? & ? & ?).
    destruct (Hf a HQ w1 ltac:(lia)) as [Hext' HQ'].
    split; [| exact HQ'].
    eapply extends_trans; [| exact Hext']. repeat split; auto.
  - split; auto.
Qed.

Lemma safe_weaken {A} n0 (m : M A) (Q Q' : A -> Prop) :
  safe n0 m Q -> (forall a, Q a -> Q' a) -> safe n0 m Q'.
Proof.
  intros Hm HQ w Hw. destruct (Hm w Hw) as [Hext H]. split; [exact Hext |].
  destruct (m w).1; auto.
Qed.

Lemma safe_try_except {A} n0 (m : M A) (h : Exn -> M A) (Q : A -> Prop) :
  safe n0 m Q -> (forall e, safe n0 (h e) Q) -> safe n0 (try_except m h) Q.
Proof.
  intros Hm Hh w Hw. unfold try_except.
  destruct (Hm w Hw) as [Hext HQ].
  destruct (m w) as [[a | e] w1]; simpl in *.
  - split; auto.
  - destruct Hext as (? & ? & ?).
    destruct (Hh e w1 ltac:(lia)) as [Hext' HQ'].
    split; [| exact HQ'].
    eapply extends_trans; [| exact Hext']. repeat split; auto.
Qed.

Lemma safe_print n0 p : safe n0 (print p) (fun _ => True).
Proof. intros w _. split; [| exact I]. repeat split; simpl; auto. Qed.

Lemma safe_read n0 l : safe n0 (read l) (fun _ => True).
Proof.
  intros w _. unfold read. destruct (heap w !! l); simpl;
    (split; [apply extends_refl | exact I]).
Qed.

(** A new dictionary lies beyond the first [n0]. *)
Lemma safe_alloc n0 m : safe n0 (alloc m) (fun l => n0 <= l).
Proof.
  intros w Hw. unfold alloc; simpl. split; [| exact Hw].
  repeat split; simpl.
  - rewrite take_app_le by lia. reflexivity.
  - rewrite length_app. lia.
  - reflexivity.
Qed.

(** Assigning to a dictionary beyond the first [n0] leaves those alone. *)
Lemma safe_set_content n0 l text :
  n0 <= l -> safe n0 (set_content l text) (fun _ => True).
Proof.
  intros Hl w Hw. unfold set_content.
  destruct (heap w !! l); simpl; (split; [| exact I]).
  - repeat split; simpl.
    + apply take_insert_ge. exact Hl.
    + rewrite length_insert. lia.
    + reflexivity.
  - apply extends_refl.
Qed.

Lemma safe_snapshot n0 refs : safe n0 (snapshot refs) (fun _ => True).
Proof.
  induction refs as [| l refs IH]; simpl.
  - apply safe_ret; exact I.
  - eapply safe_bind; [apply safe_read |]. intros m _.
    eapply safe_bind; [apply IH |]. intros ms _.
    apply safe_ret; exact I.
Qed.

Section WithExternals.

Context (E : Externals).

Lemma safe_completion n0 msgs : safe n0 (completion E msgs) (fun _ => True).
Proof.
  intros w _. unfold completion.
  destruct (llm_completion E (length (calls w)) msgs); simpl;
    (split; [| exact I]); repeat split; simpl; auto; apply prefix_app_r; reflexivity.
Qed.

Lemma safe_get_conversation_string n0 refs :
  safe n0 (get_conversation_string refs) (fun _ => True).
Proof.
  unfold get_conversation_string.
  eapply safe_bind; [apply safe_snapshot |]. intros ms _.
  apply safe_ret; exact I.
Qed.

Lemma safe_prepend_to_first n0 prefix refs :
  Forall (fun l => n0 <= l) refs ->
  safe n0 (prepend_to_first prefix refs) (fun _ => True).
Proof.
  intros Hrefs. destruct refs as [| l refs]; simpl.
  - apply safe_raise.
  - inversion Hrefs; subst.
    eapply safe_bind; [apply safe_read |]. intros m _.
    apply safe_set_content. assumption.
Qed.

Lemma safe_scaffolding_loop n0 n smsgs refs :
  Forall (fun l => n0 <= l) refs ->
  safe n0 (scaffolding_loop E n smsgs refs)
    (fun r => r = None \/ r = Some refs).
Proof.
  intros Hrefs. induction n as [| n IH]; simpl.
  - apply safe_ret. left; reflexivity.
  - eapply safe_bind; [apply safe_completion |]. intros resp _.
    eapply safe_bind; [apply safe_lift |]. intros missing _.
    destruct missing as [| k ks].
    + eapply safe_bind; [apply safe_lift |]. intros notes _.
      eapply safe_bind; [apply safe_prepend_to_first; exact Hrefs |]. intros _ _.
      apply safe_ret. right; reflexivity.
    + eapply safe_bind; [apply safe_print |]. intros _ _. exact IH.
Qed.

Lemma safe_add_scaffolding n0 a conversation :
  beyond n0 conversation ->
  safe n0 (add_scaffolding_to_conversation E a conversation) (beyond n0).
Proof.
  intros Hc. destruct conversation as [refs |]; simpl.
  - destruct (with_proper_scaffolding a); simpl.
    + eapply safe_bind; [apply safe_get_conversation_string |]. intros s _.
      eapply safe_weaken; [apply safe_scaffolding_loop; exact Hc |].
      intros r [-> | ->]; simpl; auto.
    + eapply safe_bind; [apply safe_prepend_to_first; exact Hc |]. intros _ _.
      apply safe_ret. exact Hc.
  - apply safe_raise.
Qed.

Lemma safe_response_loop n0 a n conversation :
  beyond n0 conversation ->
  safe n0 (response_loop E a n conversation) (validated E).
Proof.
  revert conversation. induction n as [| n IH]; intros conversation Hc; simpl.
  - eapply safe_bind; [apply safe_print |]. intros _ _. apply safe_ret.
    intros ? [=].
  - eapply safe_bind with (Q := beyond n0).
    { destruct (with_scaffolding a);
        [apply safe_add_scaffolding; exact Hc | apply safe_ret; exact Hc]. }
    intros conv' Hc'.
    eapply safe_bind with (Q := fun _ => True).
    { destruct conv'; [apply safe_snapshot | apply safe_raise]. }
    intros rest _.
    eapply safe_bind; [apply safe_completion |]. intros resp _.
    eapply safe_bind; [apply safe_lift |]. intros missing Hmissing.
    destruct missing as [| k ks].
    + apply safe_ret. intros ? [= <-]. split; [exact Hmissing | eauto].
    + eapply safe_bind; [apply safe_print |]. intros _ _. apply IH; exact Hc'.
Qed.

Lemma safe_deepcopy_items n0 memo refs :
  Forall (fun p => n0 <= p.2) memo ->
  safe n0 (deepcopy_items memo refs) (Forall (fun l => n0 <= l)).
Proof.
  revert memo. induction refs as [| l refs IH]; intros memo Hmemo; simpl.
  - apply safe_ret. constructor.
  - destruct (memo_get memo l) as [l' |] eqn:Hget.
    + assert (Hl' : n0 <= l').
      { clear IH. induction memo as [| [k v] memo IHm]; simpl in Hget; [discriminate |].
        inversion Hmemo; subst.
        destruct (Nat.eqb k l); [inversion Hget; subst; assumption | auto]. }
      eapply safe_bind; [apply IH; exact Hmemo |]. intros rest Hrest.
      apply safe_ret. constructor; assumption.
    + eapply safe_bind; [apply safe_read |]. intros m _.
      eapply safe_bind; [apply safe_alloc |]. intros l' Hl'.
      eapply safe_bind; [apply IH; constructor; assumption |]. intros rest Hrest.
      apply safe_ret. constructor; assumption.
Qed.

Lemma safe_generate_collaborator_response n0 a conversation :
  safe n0 (generate_collaborator_response E a conversation) (validated E).
Proof.
  unfold generate_collaborator_response, deepcopy.
  eapply safe_bind; [apply safe_deepcopy_items; constructor |].
  intros refs Hrefs. apply safe_response_loop. exact Hrefs.
Qed.

End WithExternals.

End Frame.

(** ** Stepping through the loops *)

Module Runs.

Lemma bind_ok {A B} (m : M A) (f : A -> M B) w a w1 :
  m w = (Ok a, w1) -> bind m f w = f a w1.
Proof. intros H. unfold bind. rewrite H. reflexivity. Qed.

Lemma bind_raise {A B} (m : M A) (f : A -> M B) w e w1 :
  m w = (Raise e, w1) -> bind m f w = (Raise e, w1).
Proof. intros H. unfold bind. rewrite H. reflexivity. Qed.

Lemma read_valid l w m : heap w !! l = Some m -> read l w = (Ok m, w).
Proof. intros H. unfold read. rewrite H. reflexivity. Qed.

Lemma snapshot_valid refs w :
  valid_refs refs w -> snapshot refs w = (Ok (deref (heap w) refs), w).
Proof.
  induction refs as [| l refs IH]; intros Hv; [reflexivity |].
  inversion Hv as [| ? ? Hl Hrest]; subst.
  destruct (lookup_lt_is_Some_2 _ _ Hl) as [m Hm].
  cbn [snapshot].
  erewrite bind_ok by (apply read_valid; exact Hm).
  erewrite bind_ok by (apply IH; exact Hrest).
  unfold deref. simpl. rewrite Hm. reflexivity.
Qed.

Section WithExternals.

Context (E : Externals).

Lemma fails_first_never_valid keys c0 k :
  fails_first E keys c0 k -> never_valid E keys c0 k.
Proof.
  intros H i msgs Hi. specialize (H i msgs Hi).
  unfold fails_validation, yields_valid in *.
  destruct (llm_completion E (c0 + i) msgs); [| reflexivity].
  destruct (missing_keys keys (repair_json E text)) as [[| ? ?] |]; congruence.
Qed.

Lemma fails_first_shift keys c0 k :
  fails_first E keys c0 (S k) -> fails_first E keys (S c0) k.
Proof.
  intros H i msgs Hi. replace (S c0 + i) with (c0 + S i) by lia.
  apply H. lia.
Qed.

Lemma never_valid_shift keys c0 k :
  never_valid E keys c0 (S k) -> never_valid E keys (S c0) k.
Proof.
  intros H i msgs Hi. replace (S c0 + i) with (c0 + S i) by lia.
  apply H. lia.
Qed.

(** *** update_agent_notes *)

Lemma notes_loop_S n prompt w :
  notes_loop E (S n) prompt w =
  let msgs := [mkMessage "user" prompt] in
  let w1 := called w msgs in
  match llm_completion E (length (calls w)) msgs with
  | GenRaise e => notes_loop E n prompt (printed w1 (FailedUpdateNotes e))
  | GenText raw =>
      match missing_keys notes_keys (repair_json E raw) with
      | Raise e => notes_loop E n prompt (printed w1 (FailedUpdateNotes e))
      | Ok [] => (Ok (Some (repair_json E raw)), w1)
      | Ok (k :: ks) =>
          notes_loop E n prompt
            (printed w1 (MissingKeysNotes (k :: ks) (repair_json E raw)))
      end
  end.
Proof.
  cbn [notes_loop]. unfold bind, try_except, notes_attempt, bind, completion, lift.
  cbv zeta. unfold notes_keys.
  destruct (llm_completion E (length (calls w)) [mkMessage "user" prompt]) as [raw | e];
    [| reflexivity].
  destruct (missing_keys _ (repair_json E raw)) as [[| k ks] | e]; reflexivity.
Qed.

(** A first valid record after [k] failures of any kind is returned, after
    [k+1] calls. *)
Lemma notes_loop_succeeds k : forall n prompt w,
  k < n ->
  never_valid E notes_keys (length (calls w)) k ->
  valid_at E notes_keys (length (calls w) + k) ->
  exists raw w',
    notes_loop E n prompt w = (Ok (Some (repair_json E raw)), w') /\
    llm_completion E (length (calls w) + k) [mkMessage "user" prompt] = GenText raw /\
    missing_keys notes_keys (repair_json E raw) = Ok [] /\
    length (calls w') = length (calls w) + k + 1 /\
    last (calls w') = Some [mkMessage "user" prompt] /\
    heap w' = heap w.
Proof.
  induction k as [| k IH]; intros n prompt w Hlt Hfail Hvalid.
  - destruct n as [| n]; [lia |]. rewrite notes_loop_S. cbv zeta.
    rewrite Nat.add_0_r in Hvalid. specialize (Hvalid [mkMessage "user" prompt]).
    unfold yields_valid in Hvalid. rewrite Nat.add_0_r.
    destruct (llm_completion E (length (calls w)) _) as [raw | e]; [| discriminate].
    destruct (missing_keys notes_keys (repair_json E raw)) as [[| ? ?] | ?] eqn:Hm;
      try discriminate.
    exists raw, (called w [mkMessage "user" prompt]).
    repeat split; auto; simpl; [rewrite length_app; simpl; lia | apply last_snoc].
  - destruct n as [| n]; [lia |]. rewrite notes_loop_S. cbv zeta.
    pose proof (Hfail 0 [mkMessage "user" prompt] ltac:(lia)) as H0.
    rewrite Nat.add_0_r in H0. unfold yields_valid in H0.
    assert (Hstep : forall p,
      exists raw w',
        notes_loop E n prompt (printed (called w [mkMessage "user" prompt]) p)
          = (Ok (Some (repair_json E raw)), w') /\
        llm_completion E (length (calls w) + S k) [mkMessage "user" prompt] = GenText raw /\
        missing_keys notes_keys (repair_json E raw) = Ok [] /\
        length (calls w') = length (calls w) + S k + 1 /\
        last (calls w') = Some [mkMessage "user" prompt] /\
        heap w' = heap w).
    { intros p.
      assert (Hlen : length (calls (printed (called w [mkMessage "user" prompt]) p))
                     = S (length (calls w))).
      { simpl. rewrite length_app. simpl. lia. }
      destruct (IH n prompt (printed (called w [mkMessage "user" prompt]) p))
        as (raw & w' & H1 & H2 & H3 & H4 & H5 & H6).
      - lia.
      - rewrite Hlen. apply never_valid_shift. exact Hfail.
      - rewrite Hlen. replace (S (length (calls w)) + k) with (length (calls w) + S k) by lia.
        exact Hvalid.
      - exists raw, w'. rewrite Hlen in H2, H4.
        replace (S (length (calls w)) + k) with (length (calls w) + S k) in H2 by lia.
        repeat split; auto. lia. }
    destruct (llm_completion E (length (calls w)) _) as [raw | e]; [| apply Hstep].
    destruct (missing_keys notes_keys (repair_json E raw)) as [[| ? ?] | ?];
      [discriminate | apply Hstep | apply Hstep].
Qed.

(** [n] failures of any kind exhaust the loop: None after [n] calls, the
    store untouched. *)
Lemma notes_loop_exhausts n : forall prompt w,
  never_valid E notes_keys (length (calls w)) n ->
  exists w',
    notes_loop E n prompt w = (Ok None, w') /\
    length (calls w') = length (calls w) + n /\
    heap w' = heap w.
Proof.
  induction n as [| n IH]; intros prompt w Hfail.
  - exists w. repeat split; auto.
  - rewrite notes_loop_S. cbv zeta.
    pose proof (Hfail 0 [mkMessage "user" prompt] ltac:(lia)) as H0.
    rewrite Nat.add_0_r in H0. unfold yields_valid in H0.
    assert (Hstep : forall p,
      exists w',
        notes_loop E n prompt (printed (called w [mkMessage "user" prompt]) p)
          = (Ok None, w') /\
        length (calls w') = length (calls w) + S n /\
        heap w' = heap w).
    { intros p.
      assert (Hlen : length (calls (printed (called w [mkMessage "user" prompt]) p))
                     = S (length (calls w))).
      { simpl. rewrite length_app. simpl. lia. }
      destruct (IH prompt (printed (called w [mkMessage "user" prompt]) p))
        as (w' & H1 & H2 & H3).
      - rewrite Hlen. apply never_valid_shift. exact Hfail.
      - exists w'. rewrite Hlen in H2. repeat split; auto. lia. }
    destruct (llm_completion E (length (calls w)) _) as [raw | e]; [| apply Hstep].
    destruct (missing_keys notes_keys (repair_json E raw)) as [[| ? ?] | ?];
      [discriminate | apply Hstep | apply Hstep].
Qed.

Lemma get_conversation_string_valid refs w :
  valid_refs refs w ->
  exists s, get_conversation_string refs w = (Ok s, w).
Proof.
  intros Hv. unfold get_conversation_string.
  erewrite bind_ok by (apply snapshot_valid; exact Hv).
  eexists. reflexivity.
Qed.

(** *** generate_collaborator_response *)

Lemma scaffolded_calls a refs w : calls (scaffolded E a refs w) = calls w.
Proof.
  unfold scaffolded. destruct (with_scaffolding a); [| reflexivity].
  destruct refs as [| l ?]; [reflexivity |].
  destruct (heap w !! l); reflexivity.
Qed.

Lemma scaffolded_length a refs w :
  length (heap (scaffolded E a refs w)) = length (heap w).
Proof.
  unfold scaffolded. destruct (with_scaffolding a); [| reflexivity].
  destruct refs as [| l ?]; [reflexivity |].
  destruct (heap w !! l); [| reflexivity]. simpl. apply length_insert.
Qed.

Lemma scaffolded_valid a refs refs' w :
  valid_refs refs' w -> valid_refs refs' (scaffolded E a refs w).
Proof. unfold valid_refs. rewrite scaffolded_length. auto. Qed.

Lemma scaffold_step a refs w :
  local_scaffolding a refs -> valid_refs refs w ->
  (if with_scaffolding a
   then add_scaffolding_to_conversation E a (Some refs)
   else ret (Some refs)) w = (Ok (Some refs), scaffolded E a refs w).
Proof.
  intros Hloc Hv. unfold scaffolded.
  destruct (with_scaffolding a) eqn:Hs; [| reflexivity].
  destruct Hloc as [Hloc | [Hp Hne]]; [congruence |].
  cbn [add_scaffolding_to_conversation]. rewrite Hp. cbn [negb].
  destruct refs as [| l refs]; [congruence |].
  inversion Hv as [| ? ? Hl _]; subst.
  destruct (lookup_lt_is_Some_2 _ _ Hl) as [m Hm]. rewrite Hm.
  cbn [prepend_to_first].
  erewrite bind_ok; [reflexivity |].
  erewrite bind_ok by (apply read_valid; exact Hm).
  unfold set_content. rewrite Hm. reflexivity.
Qed.

Lemma response_loop_S a n refs w :
  local_scaffolding a refs -> valid_refs refs w ->
  response_loop E a (S n) (Some refs) w =
  let w1 := scaffolded E a refs w in
  let msgs := mkMessage "system" (system_prompt a) :: deref (heap w1) refs in
  let w2 := called w1 msgs in
  match llm_completion E (length (calls w)) msgs with
  | GenRaise e => (Raise e, w2)
  | GenText raw =>
      match missing_keys response_keys (repair_json E raw) with
      | Raise e => (Raise e, w2)
      | Ok [] => (Ok (Some (repair_json E raw)), w2)
      | Ok (k :: ks) =>
          response_loop E a n (Some refs)
            (printed w2 (MissingKeysResponse (k :: ks) msgs raw (repair_json E raw)))
      end
  end.
Proof.
  intros Hloc Hv. cbn [response_loop].
  erewrite bind_ok by (apply scaffold_step; assumption).
  erewrite bind_ok by (apply snapshot_valid, scaffolded_valid; exact Hv).
  cbv zeta. unfold bind, completion, lift, called, printed, response_keys.
  rewrite scaffolded_calls.
  destruct (llm_completion E (length (calls w)) _) as [raw | e]; [| reflexivity].
  destruct (missing_keys _ (repair_json E raw)) as [[| k ks] | e]; reflexivity.
Qed.

Lemma step_world_calls a refs w msgs p :
  length (calls (printed (called (scaffolded E a refs w) msgs) p)) = S (length (calls w)).
Proof. simpl. rewrite length_app, scaffolded_calls. simpl. lia. Qed.

Lemma step_world_valid a refs w msgs p :
  valid_refs refs w ->
  valid_refs refs (printed (called (scaffolded E a refs w) msgs) p).
Proof. intros Hv. unfold valid_refs. simpl. rewrite scaffolded_length. exact Hv. Qed.

(** After [k] attempts that fail validation, a valid record is returned,
    and the generator has been called [k+1] times. *)
Lemma response_loop_succeeds a refs k : forall n w,
  local_scaffolding a refs -> valid_refs refs w ->
  k < n ->
  fails_first E response_keys (length (calls w)) k ->
  valid_at E response_keys (length (calls w) + k) ->
  exists raw msgs w',
    response_loop E a n (Some refs) w = (Ok (Some (repair_json E raw)), w') /\
    llm_completion E (length (calls w) + k) msgs = GenText raw /\
    missing_keys response_keys (repair_json E raw) = Ok [] /\
    length (calls w') = length (calls w) + k + 1 /\
    last (calls w') = Some msgs.
Proof.
  induction k as [| k IH]; intros n w Hloc Hv Hlt Hfail Hvalid;
    (destruct n as [| n]; [lia |]); rewrite response_loop_S by assumption; cbv zeta.
  - rewrite Nat.add_0_r in Hvalid.
    set (msgs := mkMessage "system" (system_prompt a) :: _).
    specialize (Hvalid msgs). unfold yields_valid in Hvalid.
    destruct (llm_completion E (length (calls w)) msgs) as [raw | e] eqn:Hllm;
      [| discriminate].
    destruct (missing_keys response_keys (repair_json E raw)) as [[| ? ?] | ?] eqn:Hm;
      try discriminate.
    exists raw, msgs, (called (scaffolded E a refs w) msgs).
    split; [reflexivity |]. split; [rewrite Nat.add_0_r; exact Hllm |].
    split; [exact Hm |]. simpl. split; [| apply last_snoc].
    rewrite length_app, scaffolded_calls. simpl. lia.
  - set (msgs := mkMessage "system" (system_prompt a) :: _).
    pose proof (Hfail 0 msgs ltac:(lia)) as H0.
    rewrite Nat.add_0_r in H0. unfold fails_validation in H0.
    destruct (llm_completion E (length (calls w)) msgs) as [raw | e]; [| discriminate].
    destruct (missing_keys response_keys (repair_json E raw)) as [[| m ms] | ?];
      try discriminate.
    set (p := MissingKeysResponse _ _ _ _).
    destruct (IH n (printed (called (scaffolded E a refs w) msgs) p))
      as (raw' & msgs' & w' & H1 & H2 & H3 & H4 & H5).
    + exact Hloc.
    + apply step_world_valid; exact Hv.
    + lia.
    + rewrite step_world_calls. apply fails_first_shift; exact Hfail.
    + rewrite step_world_calls.
      replace (S (length (calls w)) + k) with (length (calls w) + S k) by lia.
      exact Hvalid.
    + rewrite step_world_calls in H2, H4.
      replace (S (length (calls w)) + k) with (length (calls w) + S k) in H2 by lia.
      exists raw', msgs', w'. repeat split; auto. lia.
Qed.

(** [n] attempts that fail validation exhaust the loop: None after [n]
    calls, and the final failure is printed. *)
Lemma response_loop_exhausts a refs n : forall w,
  local_scaffolding a refs -> valid_refs refs w ->
  fails_first E response_keys (length (calls w)) n ->
  exists w',
    response_loop E a n (Some refs) w = (Ok None, w') /\
    length (calls w') = length (calls w) + n /\
    last (stdout w') = Some (FailedCollaboratorResponse (num_retries a)).
Proof.
  induction n as [| n IH]; intros w Hloc Hv Hfail.
  - eexists. split; [reflexivity |]. simpl. split; [lia |]. apply last_snoc.
  - rewrite response_loop_S by assumption; cbv zeta.
    set (msgs := mkMessage "system" (system_prompt a) :: _).
    pose proof (Hfail 0 msgs ltac:(lia)) as H0.
    rewrite Nat.add_0_r in H0. unfold fails_validation in H0.
    destruct (llm_completion E (length (calls w)) msgs) as [raw | e]; [| discriminate].
    destruct (missing_keys response_keys (repair_json E raw)) as [[| m ms] | ?];
      try discriminate.
    set (p := MissingKeysResponse _ _ _ _).
    destruct (IH (printed (called (scaffolded E a refs w) msgs) p))
      as (w' & H1 & H2 & H3).
    + exact Hloc.
    + apply step_world_valid; exact Hv.
    + rewrite step_world_calls. apply fails_first_shift; exact Hfail.
    + rewrite step_world_calls in H2. exists w'. repeat split; auto. lia.
Qed.

(** *** copy.deepcopy *)

Lemma memo_get_ok memo h l l' :
  memo_ok memo h -> memo_get memo l = Some l' ->
  l' < length h /\ h !! l' = h !! l.
Proof.
  induction memo as [| [k v] memo IH]; simpl; intros Hok Hget; [discriminate |].
  inversion Hok as [| ? ? (Hk & Hv & Heq) Hrest]; subst. simpl in *.
  destruct (Nat.eqb_spec k l) as [-> | Hne].
  - inversion Hget; subst. auto.
  - auto.
Qed.

Lemma memo_ok_app memo h ext : memo_ok memo h -> memo_ok memo (h ++ ext).
Proof.
  unfold memo_ok. intros H. eapply Forall_impl; [exact H |].
  intros [k v] (Hk & Hv & Heq). simpl in *.
  rewrite length_app. repeat split; try lia.
  rewrite !lookup_app_l by assumption. exact Heq.
Qed.

Lemma copy_rebase (h : list Message) m ext refs refs' :
  Forall (fun l => l < length h) refs ->
  Forall2 (fun l l' => l' < length ((h ++ [m]) ++ ext) /\
                       ((h ++ [m]) ++ ext) !! l' = (h ++ [m]) !! l) refs refs' ->
  Forall2 (fun l l' => l' < length (h ++ [m] ++ ext) /\
                       (h ++ [m] ++ ext) !! l' = h !! l) refs refs'.
Proof.
  intros Hv H. rewrite <- app_assoc in H.
  induction H as [| x y xs ys [Hy Hxy] _ IH]; constructor.
  - inversion Hv; subst. split; [exact Hy |].
    rewrite Hxy. apply lookup_app_l. assumption.
  - inversion Hv; subst. auto.
Qed.

(** The copy of a conversation: new dictionaries appended to the store,
    one reference per original, each with the contents of its original;
    no generator call, nothing printed. *)
Lemma deepcopy_items_spec refs : forall memo w,
  valid_refs refs w -> memo_ok memo (heap w) ->
  exists refs' ext,
    deepcopy_items memo refs w =
      (Ok refs', mkWorld (heap w ++ ext) (calls w) (stdout w)) /\
    Forall2 (fun l l' => l' < length (heap w ++ ext) /\
                         (heap w ++ ext) !! l' = heap w !! l) refs refs'.
Proof.
  induction refs as [| l refs IH]; intros memo w Hv Hmemo.
  - exists [], []. split; [| constructor].
    simpl. unfold ret. rewrite app_nil_r. destruct w; reflexivity.
  - inversion Hv as [| ? ? Hl Hrest]; subst. cbn [deepcopy_items].
    destruct (memo_get memo l) as [l' |] eqn:Hget.
    + destruct (memo_get_ok _ _ _ _ Hmemo Hget) as [Hl' Heq].
      destruct (IH memo w Hrest Hmemo) as (refs' & ext & Hrun & Hall).
      exists (l' :: refs'), ext. split.
      * erewrite bind_ok by exact Hrun. reflexivity.
      * constructor; [| exact Hall]. rewrite length_app. split; [lia |].
        rewrite lookup_app_l by assumption. exact Heq.
    + destruct (lookup_lt_is_Some_2 _ _ Hl) as [m Hm].
      erewrite bind_ok by (apply read_valid; exact Hm).
      unfold alloc at 1. cbn [bind].
      set (w1 := mkWorld (heap w ++ [m]) (calls w) (stdout w)).
      assert (Hv1 : valid_refs refs w1).
      { unfold valid_refs in *. simpl. rewrite length_app.
        eapply Forall_impl; [exact Hrest |]. simpl. intros; lia. }
      assert (Hmemo1 : memo_ok ((l, length (heap w)) :: memo) (heap w1)).
      { constructor; [| apply memo_ok_app; exact Hmemo]. simpl.
        rewrite length_app. simpl. repeat split; try lia.
        rewrite (lookup_app_l (heap w) [m] l) by assumption. rewrite Hm.
        rewrite lookup_app_r by lia. rewrite Nat.sub_diag. reflexivity. }
      destruct (IH _ w1 Hv1 Hmemo1) as (refs' & ext & Hrun & Hall).
      exists (length (heap w) :: refs'), ([m] ++ ext). split.
      * erewrite bind_ok by exact Hrun. simpl. rewrite <- app_assoc. reflexivity.
      * constructor.
        -- rewrite length_app. simpl. split; [lia |].
           rewrite lookup_app_r by lia. rewrite Nat.sub_diag. simpl. auto.
        -- apply copy_rebase; assumption.
Qed.

Lemma deepcopy_spec refs w :
  valid_refs refs w ->
  exists refs' ext,
    deepcopy refs w = (Ok refs', mkWorld (heap w ++ ext) (calls w) (stdout w)) /\
    Forall2 (fun l l' => l' < length (heap w ++ ext) /\
                         (heap w ++ ext) !! l' = heap w !! l) refs refs'.
Proof. intros Hv. apply deepcopy_items_spec; [exact Hv | constructor]. Qed.

Lemma copy_valid (h : list Message) refs refs' w' :
  Forall2 (fun l l' => l' < length (heap w') /\ heap w' !! l' = h !! l) refs refs' ->
  valid_refs refs' w'.
Proof.
  intros H. unfold valid_refs. induction H as [| ? ? ? ? [? _] ? IH]; constructor; auto.
Qed.

Lemma copy_local (P : nat -> nat -> Prop) a refs refs' :
  Forall2 P refs refs' -> local_scaffolding a refs -> local_scaffolding a refs'.
Proof.
  intros H [Hs | [Hp Hne]]; [left; exact Hs | right; split; [exact Hp |]].
  destruct H; [congruence | discriminate].
Qed.

(** *** The whole methods *)

Lemma generate_collaborator_response_succeeds a conversation w k :
  valid_refs conversation w -> local_scaffolding a conversation ->
  k < Z.to_nat (num_retries a) ->
  fails_first E response_keys (length (calls w)) k ->
  valid_at E response_keys (length (calls w) + k) ->
  exists raw msgs w',
    generate_collaborator_response E a conversation w
      = (Ok (Some (repair_json E raw)), w') /\
    llm_completion E (length (calls w) + k) msgs = GenText raw /\
    missing_keys response_keys (repair_json E raw) = Ok [] /\
    length (calls w') = length (calls w) + k + 1 /\
    last (calls w') = Some msgs.
Proof.
  intros Hv Hloc Hk Hfail Hvalid. unfold generate_collaborator_response.
  destruct (deepcopy_spec _ _ Hv) as (refs & ext & Hcopy & Hall).
  erewrite bind_ok by exact Hcopy.
  set (w1 := mkWorld (heap w ++ ext) (calls w) (stdout w)) in *.
  apply (response_loop_succeeds a refs k _ w1); auto.
  - eapply copy_local; eauto.
  - eapply copy_valid with (h := heap w). exact Hall.
Qed.

Lemma generate_collaborator_response_exhausts a conversation w :
  valid_refs conversation w -> local_scaffolding a conversation ->
  fails_first E response_keys (length (calls w)) (Z.to_nat (num_retries a)) ->
  exists w',
    generate_collaborator_response E a conversation w = (Ok None, w') /\
    length (calls w') = length (calls w) + Z.to_nat (num_retries a) /\
    last (stdout w') = Some (FailedCollaboratorResponse (num_retries a)).
Proof.
  intros Hv Hloc Hfail. unfold generate_collaborator_response.
  destruct (deepcopy_spec _ _ Hv) as (refs & ext & Hcopy & Hall).
  erewrite bind_ok by exact Hcopy.
  set (w1 := mkWorld (heap w ++ ext) (calls w) (stdout w)) in *.
  apply (response_loop_exhausts a refs _ w1); auto.
  - eapply copy_local; eauto.
  - eapply copy_valid with (h := heap w). exact Hall.
Qed.

Lemma update_agent_notes_succeeds a notes conversation w k :
  valid_refs conversation w ->
  k < Z.to_nat (num_retries a) ->
  never_valid E notes_keys (length (calls w)) k ->
  valid_at E notes_keys (length (calls w) + k) ->
  exists raw msgs w',
    update_agent_notes E a notes conversation w
      = (Ok (Some (repair_json E raw)), w') /\
    llm_completion E (length (calls w) + k) msgs = GenText raw /\
    missing_keys notes_keys (repair_json E raw) = Ok [] /\
    length (calls w') = length (calls w) + k + 1 /\
    last (calls w') = Some msgs.
Proof.
  intros Hv Hk Hfail Hvalid. unfold update_agent_notes.
  destruct (get_conversation_string_valid _ _ Hv) as [s Hs].
  erewrite bind_ok by exact Hs.
  destruct (notes_loop_succeeds k (Z.to_nat (num_retries a))
              (update_agent_notes_prompt E (py_str E notes) s) w Hk Hfail Hvalid)
    as (raw & w' & H1 & H2 & H3 & H4 & H5 & _).
  exists raw, [mkMessage "user" (update_agent_notes_prompt E (py_str E notes) s)], w'.
  auto 6.
Qed.

Lemma update_agent_notes_exhausts a notes conversation w :
  valid_refs conversation w ->
  never_valid E notes_keys (length (calls w)) (Z.to_nat (num_retries a)) ->
  exists w',
    update_agent_notes E a notes conversation w = (Ok None, w') /\
    length (calls w') = length (calls w) + Z.to_nat (num_retries a) /\
    heap w' = heap w.
Proof.
  intros Hv Hfail. unfold update_agent_notes.
  destruct (get_conversation_string_valid _ _ Hv) as [s Hs].
  erewrite bind_ok by exact Hs.
  apply notes_loop_exhausts. exact Hfail.
Qed.

(** An exception in the first attempt, of the generator or of the
    membership test, leaves the method at once. *)
Lemma generate_collaborator_response_raises a conversation w e :
  valid_refs conversation w -> local_scaffolding a conversation ->
  0 < Z.to_nat (num_retries a) ->
  (forall msgs, ends_in E response_keys (llm_completion E (length (calls w)) msgs) e) ->
  exists w',
    generate_collaborator_response E a conversation w = (Raise e, w') /\
    length (calls w') = length (calls w) + 1.
Proof.
  intros Hv Hloc Hpos Hend. unfold generate_collaborator_response.
  destruct (deepcopy_spec _ _ Hv) as (refs & ext & Hcopy & Hall).
  erewrite bind_ok by exact Hcopy.
  set (w1 := mkWorld (heap w ++ ext) (calls w) (stdout w)) in *.
  destruct (Z.to_nat (num_retries a)) as [| n]; [lia |].
  rewrite response_loop_S;
    [| eapply copy_local; eauto | eapply copy_valid with (h := heap w); exact Hall].
  cbv zeta. set (msgs := mkMessage "system" (system_prompt a) :: _).
  specialize (Hend msgs). unfold ends_in in Hend. change (calls w1) with (calls w).
  assert (Hlen : length (calls (called (scaffolded E a refs w1) msgs))
                 = length (calls w) + 1).
  { simpl. rewrite length_app, scaffolded_calls. reflexivity. }
  destruct (llm_completion E (length (calls w)) msgs) as [raw | e'].
  - rewrite Hend. eauto.
  - subst e'. eauto.
Qed.

(** *** Stacked scaffolding *)

Lemma stack_shift j prefix body :
  stack j prefix (prefix ++ body) = stack (S j) prefix body.
Proof. induction j as [| j IH]; simpl; [reflexivity |]. rewrite IH. reflexivity. Qed.

Lemma response_loop_keeps_calls a n conversation w i msgs :
  calls w !! i = Some msgs ->
  calls (response_loop E a n conversation w).2 !! i = Some msgs.
Proof.
  intros Hi.
  destruct (Frame.safe_response_loop E 0 a n conversation) with (w := w)
    as [(_ & _ & Hpre) _].
  - destruct conversation; simpl; [| exact I].
    apply Forall_forall. intros; lia.
  - lia.
  - eapply prefix_lookup_Some; eauto.
Qed.

(** In raw mode, the call that follows [k] attempts failing validation
    gets a first conversation message with [k+1] copies of the prefix. *)
Lemma response_loop_stacks a l0 rest k : forall n w r c,
  with_scaffolding a = true -> with_proper_scaffolding a = false ->
  valid_refs (l0 :: rest) w ->
  heap w !! l0 = Some (mkMessage r c) ->
  k < n ->
  fails_first E response_keys (length (calls w)) k ->
  exists tail,
    calls (response_loop E a n (Some (l0 :: rest)) w).2 !! (length (calls w) + k)
    = Some (mkMessage "system" (system_prompt a)
              :: mkMessage r (stack (S k) (raw_prefix E a) c) :: tail).
Proof.
  induction k as [| k IH]; intros n w r c Hs Hp Hv Hl0 Hlt Hfail;
    (destruct n as [| n]; [lia |]);
    (assert (Hloc : local_scaffolding a (l0 :: rest))
       by (right; split; [exact Hp | discriminate]));
    rewrite response_loop_S by assumption; cbv zeta;
    (assert (Hl0' : heap (scaffolded E a (l0 :: rest) w) !! l0
                    = Some (mkMessage r (raw_prefix E a ++ c)))
       by (unfold scaffolded; rewrite Hs, Hl0; simpl;
           apply list_lookup_insert_eq; eapply lookup_lt_Some; exact Hl0));
    (assert (Hderef : deref (heap (scaffolded E a (l0 :: rest) w)) (l0 :: rest)
                      = mkMessage r (raw_prefix E a ++ c)
                          :: deref (heap (scaffolded E a (l0 :: rest) w)) rest)
       by (unfold deref; simpl; rewrite Hl0'; reflexivity));
    rewrite Hderef;
    set (msgs := mkMessage "system" (system_prompt a) :: _ :: _).
  - assert (Hcall : forall p,
      calls (called (scaffolded E a (l0 :: rest) w) msgs) !! (length (calls w) + 0) = Some msgs
      /\ calls (printed (called (scaffolded E a (l0 :: rest) w) msgs) p) !! (length (calls w) + 0)
         = Some msgs).
    { intros p. simpl. rewrite scaffolded_calls, Nat.add_0_r.
      split; apply list_lookup_middle; reflexivity. }
    exists (deref (heap (scaffolded E a (l0 :: rest) w)) rest).
    destruct (llm_completion E (length (calls w)) msgs) as [raw | e];
      [| apply (Hcall (FailedCollaboratorResponse 0))].
    destruct (missing_keys response_keys (repair_json E raw)) as [[| m ms] | e];
      try apply (Hcall (FailedCollaboratorResponse 0)).
    apply response_loop_keeps_calls. apply Hcall.
  - pose proof (Hfail 0 msgs ltac:(lia)) as H0.
    rewrite Nat.add_0_r in H0. unfold fails_validation in H0.
    destruct (llm_completion E (length (calls w)) msgs) as [raw | e]; [| discriminate].
    destruct (missing_keys response_keys (repair_json E raw)) as [[| m ms] | ?];
      try discriminate.
    set (p := MissingKeysResponse _ _ _ _).
    destruct (IH n (printed (called (scaffolded E a (l0 :: rest) w) msgs) p)
                r (raw_prefix E a ++ c)%string) as [tail Htail]; auto.
    + apply step_world_valid; exact Hv.
    + lia.
    + rewrite step_world_calls. apply fails_first_shift; exact Hfail.
    + rewrite step_world_calls in Htail.
      replace (S (length (calls w)) + k) with (length (calls w) + S k) in Htail by lia.
      exists tail. rewrite Htail. rewrite stack_shift. reflexivity.
Qed.

(** *** Model-mediated scaffolding that never gets its record *)

Lemma scaffolding_loop_exhausts n : forall smsgs refs w,
  fails_first E scaffold_keys (length (calls w)) n ->
  exists w',
    scaffolding_loop E n smsgs refs w = (Ok None, w') /\
    length (calls w') = length (calls w) + n /\
    heap w' = heap w.
Proof.
  induction n as [| n IH]; intros smsgs refs w Hfail.
  - exists w. repeat split; auto.
  - cbn [scaffolding_loop]. unfold bind at 1. unfold completion.
    pose proof (Hfail 0 smsgs ltac:(lia)) as H0.
    rewrite Nat.add_0_r in H0. unfold fails_validation, scaffold_keys in H0.
    destruct (llm_completion E (length (calls w)) smsgs) as [raw | e]; [| discriminate].
    unfold bind at 1. unfold lift.
    destruct (missing_keys _ (repair_json E raw)) as [[| m ms] | ?];
      try discriminate.
    unfold bind at 1. unfold print. cbn [heap calls stdout].
    set (w1 := mkWorld _ _ _).
    destruct (IH smsgs refs w1) as (w' & H1 & H2 & H3).
    + replace (length (calls w1)) with (S (length (calls w)))
        by (simpl; rewrite length_app; simpl; lia).
      apply fails_first_shift; exact Hfail.
    + exists w'. split; [exact H1 |]. split; [| rewrite H3; reflexivity].
      rewrite H2. simpl. rewrite length_app. simpl. lia.
Qed.

(** With model-mediated scaffolding, when every scaffolding attempt of
    the first iteration fails validation, the scaffolding method returns
    None and the concatenation that follows raises TypeError: no turn is
    generated. *)
Lemma proper_scaffolding_exhaustion_raises a conversation w :
  with_scaffolding a = true -> with_proper_scaffolding a = true ->
  valid_refs conversation w ->
  0 < Z.to_nat (num_retries a) ->
  fails_first E scaffold_keys (length (calls w)) (Z.to_nat (num_retries a)) ->
  exists w',
    generate_collaborator_response E a conversation w = (Raise TypeError, w') /\
    length (calls w') = length (calls w) + Z.to_nat (num_retries a).
Proof.
  intros Hs Hp Hv Hpos Hfail. unfold generate_collaborator_response.
  destruct (deepcopy_spec _ _ Hv) as (refs & ext & Hcopy & Hall).
  erewrite bind_ok by exact Hcopy.
  set (w1 := mkWorld (heap w ++ ext) (calls w) (stdout w)) in *.
  assert (Hv1 : valid_refs refs w1) by (eapply copy_valid with (h := heap w); exact Hall).
  destruct (Z.to_nat (num_retries a)) as [| n] eqn:HR; [lia |].
  cbn [response_loop]. rewrite Hs.
  cbn [add_scaffolding_to_conversation]. rewrite Hp. cbn [negb].
  destruct (get_conversation_string_valid _ _ Hv1) as [s Hstr].
  destruct (scaffolding_loop_exhausts (S n)
              [mkMessage "user" (proper_scaffolding_prompt E s (py_str E (agent_notes a)))]
              refs w1 Hfail) as (w' & Hloop & Hlen & _).
  exists w'. split; [| exact Hlen].
  erewrite bind_ok.
  2:{ erewrite bind_ok by exact Hstr. rewrite HR. exact Hloop. }
  reflexivity.
Qed.

(** *** The caller's conversation *)

Lemma build_conversation_spec msgs : forall w,
  exists refs ext,
    Study.build_conversation msgs w
      = (Ok refs, mkWorld (heap w ++ ext) (calls w) (stdout w)) /\
    valid_refs refs (mkWorld (heap w ++ ext) (calls w) (stdout w)).
Proof.
  induction msgs as [| m msgs IH]; intros w.
  - exists [], []. split; [| constructor].
    simpl. unfold ret. rewrite app_nil_r. destruct w; reflexivity.
  - cbn [Study.build_conversation]. unfold alloc at 1. cbn [bind].
    set (w1 := mkWorld (heap w ++ [mkMessage (role m) (content m)]) (calls w) (stdout w)).
    destruct (IH w1) as (refs & ext & Hrun & Hvalid).
    exists (length (heap w) :: refs), ([mkMessage (role m) (content m)] ++ ext).
    simpl in Hrun, Hvalid. rewrite <- app_assoc in Hrun, Hvalid.
    split.
    + erewrite bind_ok by exact Hrun. reflexivity.
    + constructor; [| exact Hvalid]. simpl. rewrite length_app. simpl. lia.
Qed.

Lemma missing_keys_two k1 k2 processed :
  missing_keys [k1; k2] processed = Ok [] ->
  contains k1 processed = Ok true /\ contains k2 processed = Ok true.
Proof.
  cbn [missing_keys].
  destruct (contains k1 processed) as [[|] |]; destruct (contains k2 processed) as [[|] |];
    intros H; try discriminate; auto.
Qed.

Lemma dict_has_get key items :
  dict_has key items = true -> exists v, dict_get key items = Some v.
Proof.
  induction items as [| [k v] items IH]; simpl; [discriminate |].
  destruct (String.eqb k key); simpl; eauto.
Qed.

Lemma missing_keys_dict keys items :
  missing_keys keys (PDict items)
  = Ok (List.filter (fun key => negb (dict_has key items)) keys).
Proof.
  induction keys as [| key keys IH]; [reflexivity |].
  cbn [missing_keys contains List.filter]. rewrite IH.
  destruct (dict_has key items); reflexivity.
Qed.

End WithExternals.

End Runs.

(** ** Substrings *)

Module Substring.

Lemma append_assoc (s1 s2 s3 : string) : ((s1 ++ s2) ++ s3 = s1 ++ (s2 ++ s3))%string.
Proof. induction s1 as [| c s1 IH]; simpl; [reflexivity |]. rewrite IH. reflexivity. Qed.

Lemma prefix_append (s t : string) : String.prefix s (s ++ t) = true.
Proof.
  induction s as [| c s IH]; simpl.
  - destruct t; reflexivity.
  - destruct (ascii_dec c c) as [_ | Hne]; [exact IH | congruence].
Qed.

(** A text is a substring of whatever is written around it. *)
Lemma is_substring_middle (s before after : string) :
  is_substring s (before ++ s ++ after) = true.
Proof.
  induction before as [| c before IH].
  - change (is_substring s (s ++ after) = true).
    destruct s as [| c s]; [destruct after; reflexivity |].
    pose proof (prefix_append (String c s) after) as H.
    cbn [is_substring append] in *. rewrite H. reflexivity.
  - cbn [append is_substring]. rewrite IH. apply orb_true_r.
Qed.

Lemma is_substring_nonempty (needle s : string) :
  needle <> EmptyString -> is_substring needle s = true -> s <> EmptyString.
Proof.
  intros Hne H ->. destruct needle; [congruence |]. simpl in H. discriminate.
Qed.

End Substring.

(** ** Properties of scaffolding and of the copy *)

Import Runs.

(** C7. [generate_collaborator_response] works on a deep copy: whatever
    the agent's modes, the generator's outcomes and the way the run ends
    (a record, None or an exception), every dictionary that was in the
    store before the call is still there with the same role and content.
    The caller's list itself is a value the method never assigns to: the
    code contains no list mutation. *)
Theorem generate_collaborator_response_keeps_caller_store
    (E : Externals) (a : CollaboratorAgent) (conversation : list loc) (w : World) :
  take (length (heap w))
       (heap (generate_collaborator_response E a conversation w).2) = heap w.
Proof.
  destruct (Frame.safe_generate_collaborator_response E (length (heap w)) a
              conversation w (le_n _)) as [(Htake & _ & _) _].
  rewrite Htake. apply firstn_all.
Qed.

(** C8, as stated, fails on the empty conversation: there is no first
    message to write to, and [messages[0]] raises IndexError. *)
Lemma raw_scaffolding_empty_conversation :
  ~ raw_scaffolding_succeeds
      (Sample.externals (Sample.always (GenText EmptyString)))
      (Sample.notes_agent true false 10) [] Sample.world
  /\ add_scaffolding_to_conversation
       (Sample.externals (Sample.always (GenText EmptyString)))
       (Sample.notes_agent true false 10) (Some []) Sample.world
     = (Raise IndexError, Sample.world).
Proof.
  split; [| reflexivity]. intros [w' H]. discriminate H.
Qed.

(** C8, amended. On a conversation with a first message, raw-mode
    scaffolding returns the conversation, makes no generator call, and
    leaves in the first message the fixed instruction, then the notes,
    then the old content: the new content contains the instruction and
    the whole notes text. *)
Theorem raw_scaffolding_nonempty
    (E : Externals) (a : CollaboratorAgent) (notes : string)
    (l : loc) (rest : list loc) (w : World) (m : Message) :
  with_proper_scaffolding a = false ->
  agent_notes a = PStr notes ->
  heap w !! l = Some m ->
  exists w' text,
    add_scaffolding_to_conversation E a (Some (l :: rest)) w
      = (Ok (Some (l :: rest)), w') /\
    calls w' = calls w /\
    heap w' !! l = Some (mkMessage (role m) text) /\
    text = ((raw_instruction ++ notes) ++ content m)%string /\
    is_substring raw_instruction text = true /\
    is_substring notes text = true.
Proof.
  intros Hp Hnotes Hm.
  exists (mkWorld (<[l := mkMessage (role m) ((raw_instruction ++ notes) ++ content m)]>
                     (heap w)) (calls w) (stdout w)),
         ((raw_instruction ++ notes) ++ content m)%string.
  split; [| split; [reflexivity | split; [| split; [reflexivity | split]]]].
  - cbn [add_scaffolding_to_conversation]. rewrite Hp, Hnotes. cbn [negb py_str].
    cbn [prepend_to_first].
    erewrite bind_ok; [reflexivity |].
    erewrite bind_ok by (apply read_valid; exact Hm).
    unfold set_content. rewrite Hm. reflexivity.
  - simpl. apply list_lookup_insert_eq. eapply lookup_lt_Some; exact Hm.
  - rewrite Substring.append_assoc.
    apply (Substring.is_substring_middle raw_instruction EmptyString).
  - rewrite Substring.append_assoc.
    apply (Substring.is_substring_middle notes raw_instruction (content m)).
Qed.

Lemma raw_scaffolding_nonempty_witness :
  exists w' text,
    add_scaffolding_to_conversation
      (Sample.externals (Sample.always (GenText EmptyString)))
      (Sample.notes_agent true false 10) (Some [0]) Sample.world
      = (Ok (Some [0]), w') /\
    calls w' = [] /\
    heap w' !! 0 = Some (mkMessage "user" text) /\
    text = ((raw_instruction ++ "Prefers Python.") ++ "Hello")%string /\
    is_substring raw_instruction text = true /\
    is_substring "Prefers Python." text = true.
Proof.
  apply (raw_scaffolding_nonempty
           (Sample.externals (Sample.always (GenText EmptyString)))
           (Sample.notes_agent true false 10) "Prefers Python." 0 [] Sample.world
           Sample.user_hello); reflexivity.
Defined.

(** C9. Scaffolding is applied again in every iteration, to the
    conversation the previous iteration already augmented.  For an agent
    that scaffolds in raw mode: when the first [k] attempts fail
    validation and the budget allows one more, the generator call number
    [k+1] of the run gets, after the system message, a first conversation
    message whose content is [k+1] copies of the injection prefix
    (instruction and notes) in front of the original content. *)
Theorem scaffolding_stacks_on_retry
    (E : Externals) (a : CollaboratorAgent) (l0 : loc) (rest : list loc)
    (w : World) (m : Message) (k : nat) :
  with_scaffolding a = true ->
  with_proper_scaffolding a = false ->
  valid_refs (l0 :: rest) w ->
  heap w !! l0 = Some m ->
  k < Z.to_nat (num_retries a) ->
  fails_first E response_keys (length (calls w)) k ->
  exists tail,
    calls (generate_collaborator_response E a (l0 :: rest) w).2
      !! (length (calls w) + k)
    = Some (mkMessage "system" (system_prompt a)
              :: mkMessage (role m) (stack (S k) (raw_prefix E a) (content m))
              :: tail).
Proof.
  intros Hs Hp Hv Hm Hk Hfail. unfold generate_collaborator_response.
  destruct (deepcopy_spec _ _ Hv) as (refs & ext & Hcopy & Hall).
  erewrite bind_ok by exact Hcopy.
  inversion Hall as [| ? l0' ? rest' [Hl0' Heq] Hall']; subst.
  set (w1 := mkWorld (heap w ++ ext) (calls w) (stdout w)) in *.
  apply (response_loop_stacks E a l0' rest' k _ w1 (role m) (content m)); auto.
  - eapply copy_valid with (h := heap w). exact Hall.
  - simpl. rewrite Heq, Hm. destruct m; reflexivity.
Qed.

Lemma scaffolding_stacks_on_retry_witness :
  exists tail,
    calls (generate_collaborator_response
             (Sample.externals
                (Sample.always (GenText (Sample.json_object Sample.response_only))))
             (Sample.notes_agent true false 3) [0] Sample.world).2 !! 2
    = Some (mkMessage "system" "You are an assistant. Notes: Prefers Python."
              :: mkMessage "user"
                   (stack 3 (raw_instruction ++ "Prefers Python.") "Hello")
              :: tail).
Proof.
  apply (scaffolding_stacks_on_retry
           (Sample.externals
              (Sample.always (GenText (Sample.json_object Sample.response_only))))
           (Sample.notes_agent true false 3) 0 [] Sample.world Sample.user_hello 2).
  - reflexivity.
  - reflexivity.
  - repeat constructor.
  - reflexivity.
  - vm_compute. lia.
  - intros i msgs Hi. vm_compute. reflexivity.
Defined.

(** ** Properties of validation and of the callers *)

(** C10. Validation is Python's [in], which on a str is substring
    containment.  When the generator's next output is repaired to a plain
    string that contains the words reasoning and response, an agent that
    does not scaffold accepts it at once and returns the string as the
    record; the caller's own test [result and "response" in result]
    passes on it in the same way, and the subscript [result["response"]]
    that follows raises TypeError. *)
Theorem string_passes_validation
    (E : Externals) (a : CollaboratorAgent) (conversation : list loc)
    (w : World) (raw s : string) :
  with_scaffolding a = false ->
  valid_refs conversation w ->
  (0 < num_retries a)%Z ->
  (forall msgs, llm_completion E (length (calls w)) msgs = GenText raw) ->
  repair_json E raw = PStr s ->
  is_substring "reasoning" s = true ->
  is_substring "response" s = true ->
  (exists w',
     generate_collaborator_response E a conversation w = (Ok (Some (PStr s)), w') /\
     length (calls w') = length (calls w) + 1) /\
  Study.result_has "response" (Some (PStr s)) = Ok true /\
  Study.response_text (Some (PStr s)) = Raise TypeError.
Proof.
  intros Hs Hv Hpos Hllm Hrep Hreasoning Hresponse.
  assert (Hmissing : missing_keys response_keys (PStr s) = Ok []).
  { unfold response_keys. cbn [missing_keys contains].
    rewrite Hreasoning, Hresponse. reflexivity. }
  assert (Htruthy : truthy (PStr s) = true).
  { simpl. apply negb_true_iff, String.eqb_neq.
    eapply Substring.is_substring_nonempty; [| exact Hresponse]. discriminate. }
  split; [| split].
  - destruct (generate_collaborator_response_succeeds E a conversation w 0)
      as (raw' & msgs & w' & Hrun & Hraw & _ & Hlen & _).
    + exact Hv.
    + left; exact Hs.
    + lia.
    + intros i msgs Hi; lia.
    + intros msgs. rewrite Nat.add_0_r, Hllm. unfold yields_valid.
      rewrite Hrep, Hmissing. reflexivity.
    + rewrite Nat.add_0_r, Hllm in Hraw. injection Hraw as <-.
      rewrite Hrep in Hrun. exists w'. split; [exact Hrun | lia].
  - unfold Study.result_has. rewrite Htruthy. cbn [contains].
    rewrite Hresponse. reflexivity.
  - unfold Study.response_text, Study.result_has. rewrite Htruthy. cbn [contains].
    rewrite Hresponse. reflexivity.
Qed.

Lemma string_passes_validation_witness :
  (exists w',
     generate_collaborator_response
       (Sample.externals (Sample.always (GenText (Sample.quoted Sample.loose_text))))
       (Sample.plain_agent 10) [0] Sample.world
     = (Ok (Some (PStr Sample.loose_text)), w') /\
     length (calls w') = 1) /\
  Study.result_has "response" (Some (PStr Sample.loose_text)) = Ok true /\
  Study.response_text (Some (PStr Sample.loose_text)) = Raise TypeError.
Proof.
  apply (string_passes_validation
           (Sample.externals (Sample.always (GenText (Sample.quoted Sample.loose_text))))
           (Sample.plain_agent 10) [0] Sample.world
           (Sample.quoted Sample.loose_text) Sample.loose_text).
  - reflexivity.
  - repeat constructor.
  - reflexivity.
  - intros msgs. reflexivity.
  - reflexivity.
  - reflexivity.
  - reflexivity.
Defined.

(** C3. When no attempt of [update_agent_notes] yields a valid record
    (each one raises, or fails validation, or makes the validation
    raise), the method returns None after [num_retries] generator calls,
    and the caller's memory update returns the session as it was: the
    stored notes and the agent are the ones from before. *)
Theorem failed_consolidation_keeps_notes
    (E : Externals) (uses_memory : bool) (st : Study.Session) (w : World) :
  never_valid E notes_keys (length (calls w))
    (Z.to_nat (num_retries (Study.agent st))) ->
  (forall notes conversation, valid_refs conversation w ->
     exists w',
       update_agent_notes E (Study.agent st) notes conversation w = (Ok None, w') /\
       length (calls w') = length (calls w) + Z.to_nat (num_retries (Study.agent st))) /\
  (exists w', Study.update_memory E uses_memory st w = (Ok st, w')).
Proof.
  intros Hfail. split.
  - intros notes conversation Hv.
    destruct (update_agent_notes_exhausts E (Study.agent st) notes conversation w Hv Hfail)
      as (w' & Hrun & Hlen & _).
    exists w'. auto.
  - unfold Study.update_memory. destruct uses_memory; [| eexists; reflexivity].
    destruct (build_conversation_spec (Study.messages st) w)
      as (refs & ext & Hbuild & Hv).
    erewrite bind_ok by exact Hbuild.
    set (w1 := mkWorld (heap w ++ ext) (calls w) (stdout w)) in *.
    assert (Hupd : forall notes, exists w',
              update_agent_notes E (Study.agent st) notes refs w1 = (Ok None, w')).
    { intros notes.
      destruct (update_agent_notes_exhausts E (Study.agent st) notes refs w1 Hv Hfail)
        as (w' & Hrun & _). eauto. }
    destruct (truthy (Study.session_agent_notes st)).
    + destruct (Hupd (Study.session_agent_notes st)) as [w' Hrun].
      exists w'. erewrite bind_ok by exact Hrun. reflexivity.
    + destruct (Hupd (PStr Study.initial_notes)) as [w' Hrun].
      exists w'. erewrite bind_ok by exact Hrun. reflexivity.
Qed.

Lemma failed_consolidation_keeps_notes_witness :
  let E := Sample.externals Sample.flaky in
  let st := Study.mkSession [Sample.user_hello] (PStr "Prefers Python.")
              (Sample.notes_agent false false 10) in
  (forall notes conversation, valid_refs conversation Sample.world ->
     exists w',
       update_agent_notes E (Study.agent st) notes conversation Sample.world
         = (Ok None, w') /\
       length (calls w') = 10) /\
  (exists w', Study.update_memory E true st Sample.world = (Ok st, w')).
Proof.
  apply (failed_consolidation_keeps_notes
           (Sample.externals Sample.flaky) true
           (Study.mkSession [Sample.user_hello] (PStr "Prefers Python.")
              (Sample.notes_agent false false 10))
           Sample.world).
  intros i msgs _. unfold yields_valid. simpl llm_completion. unfold Sample.flaky.
  destruct (Nat.even _); reflexivity.
Defined.

(** ** Properties of the retry loops *)

(** C1, as stated, fails for an agent with model-mediated scaffolding: a
    generator that never fails ([k = 0]) is called twice before the record
    is returned, once by the scaffolding method and once for the turn.
    It also fails for raw scaffolding of the empty conversation, where
    the loop raises IndexError before any generator call. *)
Lemma response_retry_claim_fails :
  ~ response_retry_claim
      (Sample.externals (Sample.always (GenText (Sample.json_object Sample.all_keys))))
      (Sample.notes_agent true true 10) [0] Sample.world 0
  /\
  ~ response_retry_claim
      (Sample.externals (Sample.always (GenText (Sample.json_object Sample.all_keys))))
      (Sample.notes_agent true false 10) [] Sample.world 0.
Proof.
  split; intros H; destruct H as (raw & msgs & w' & Hrun & _ & Hlen);
    try (repeat constructor; fail);
    try (vm_compute; lia);
    try (intros i ? Hi; lia);
    try (intros ?; reflexivity).
  - vm_compute in Hrun. injection Hrun as _ <-. vm_compute in Hlen. discriminate Hlen.
  - vm_compute in Hrun. discriminate Hrun.
Qed.

(** C1, amended.  [update_agent_notes], for every agent, and
    [generate_collaborator_response], for an agent whose scaffolding step
    calls no generator (no scaffolding, or raw scaffolding of a
    conversation that has a first message): when the first [k] attempts
    fail validation, [k] below the budget, and the next one yields a
    record with the required keys, the loop returns that record and the
    generator has been called [k+1] times; when [num_retries] attempts in
    a row fail validation, the loop returns None after exactly
    [num_retries] calls. *)
Theorem retry_loops_bounded
    (E : Externals) (a : CollaboratorAgent) (notes : PyValue)
    (conversation : list loc) (w : World) (k : nat) :
  valid_refs conversation w ->
  (local_scaffolding a conversation ->
   k < Z.to_nat (num_retries a) ->
   fails_first E response_keys (length (calls w)) k ->
   valid_at E response_keys (length (calls w) + k) ->
   exists raw msgs w',
     generate_collaborator_response E a conversation w
       = (Ok (Some (repair_json E raw)), w') /\
     last (calls w') = Some msgs /\
     llm_completion E (length (calls w) + k) msgs = GenText raw /\
     length (calls w') = length (calls w) + k + 1)
  /\
  (local_scaffolding a conversation ->
   fails_first E response_keys (length (calls w)) (Z.to_nat (num_retries a)) ->
   exists w',
     generate_collaborator_response E a conversation w = (Ok None, w') /\
     length (calls w') = length (calls w) + Z.to_nat (num_retries a))
  /\
  (k < Z.to_nat (num_retries a) ->
   fails_first E notes_keys (length (calls w)) k ->
   valid_at E notes_keys (length (calls w) + k) ->
   exists raw msgs w',
     update_agent_notes E a notes conversation w
       = (Ok (Some (repair_json E raw)), w') /\
     last (calls w') = Some msgs /\
     llm_completion E (length (calls w) + k) msgs = GenText raw /\
     length (calls w') = length (calls w) + k + 1)
  /\
  (fails_first E notes_keys (length (calls w)) (Z.to_nat (num_retries a)) ->
   exists w',
     update_agent_notes E a notes conversation w = (Ok None, w') /\
     length (calls w') = length (calls w) + Z.to_nat (num_retries a)).
Proof.
  intros Hv. repeat split.
  - intros Hloc Hk Hfail Hvalid.
    destruct (generate_collaborator_response_succeeds E a conversation w k
                Hv Hloc Hk Hfail Hvalid) as (raw & msgs & w' & H1 & H2 & _ & H3 & H4).
    exists raw, msgs, w'. auto.
  - intros Hloc Hfail.
    destruct (generate_collaborator_response_exhausts E a conversation w
                Hv Hloc Hfail) as (w' & H1 & H2 & _).
    exists w'. auto.
  - intros Hk Hfail Hvalid.
    destruct (update_agent_notes_succeeds E a notes conversation w k
                Hv Hk (fails_first_never_valid E _ _ _ Hfail) Hvalid)
      as (raw & msgs & w' & H1 & H2 & _ & H3 & H4).
    exists raw, msgs, w'. auto.
  - intros Hfail.
    destruct (update_agent_notes_exhausts E a notes conversation w
                Hv (fails_first_never_valid E _ _ _ Hfail)) as (w' & H1 & H2 & _).
    exists w'. auto.
Qed.

Lemma retry_loops_bounded_witness :
  let failing := GenText (Sample.json_object Sample.response_only) in
  let E1 := Sample.externals
              (Sample.scripted [failing] (GenText (Sample.json_object Sample.response_ok))) in
  let E2 := Sample.externals (Sample.always failing) in
  let E3 := Sample.externals
              (Sample.scripted [failing] (GenText (Sample.json_object Sample.notes_ok))) in
  (exists w',
     generate_collaborator_response E1 (Sample.notes_agent true false 3) [0] Sample.world
       = (Ok (Some (Sample.record Sample.response_ok)), w') /\
     length (calls w') = 2) /\
  (exists w',
     generate_collaborator_response E2 (Sample.notes_agent true false 3) [0] Sample.world
       = (Ok None, w') /\
     length (calls w') = 3) /\
  (exists w',
     update_agent_notes E3 (Sample.plain_agent 3) (PStr "old notes") [0] Sample.world
       = (Ok (Some (Sample.record Sample.notes_ok)), w') /\
     length (calls w') = 2) /\
  (exists w',
     update_agent_notes E2 (Sample.plain_agent 3) (PStr "old notes") [0] Sample.world
       = (Ok None, w') /\
     length (calls w') = 3).
Proof.
  assert (Hv : valid_refs [0] Sample.world) by repeat constructor.
  assert (Hloc : local_scaffolding (Sample.notes_agent true false 3) [0])
    by (right; split; [reflexivity | discriminate]).
  cbv zeta. repeat split.
  - destruct (proj1 (retry_loops_bounded
        (Sample.externals
           (Sample.scripted [GenText (Sample.json_object Sample.response_only)]
              (GenText (Sample.json_object Sample.response_ok))))
        (Sample.notes_agent true false 3) PNone [0] Sample.world 1 Hv))
      as (raw & msgs & w' & Hrun & _ & Hraw & Hlen).
    + exact Hloc.
    + vm_compute. lia.
    + intros i ? Hi. destruct i; [reflexivity | lia].
    + intros ?. reflexivity.
    + exists w'. injection Hraw as <-. split; [exact Hrun | exact Hlen].
  - destruct (proj1 (proj2 (retry_loops_bounded
        (Sample.externals
           (Sample.always (GenText (Sample.json_object Sample.response_only))))
        (Sample.notes_agent true false 3) PNone [0] Sample.world 0 Hv)))
      as (w' & Hrun & Hlen).
    + exact Hloc.
    + intros i ? Hi. reflexivity.
    + exists w'. split; [exact Hrun | exact Hlen].
  - destruct (proj1 (proj2 (proj2 (retry_loops_bounded
        (Sample.externals
           (Sample.scripted [GenText (Sample.json_object Sample.response_only)]
              (GenText (Sample.json_object Sample.notes_ok))))
        (Sample.plain_agent 3) (PStr "old notes") [0] Sample.world 1 Hv))))
      as (raw & msgs & w' & Hrun & _ & Hraw & Hlen).
    + vm_compute. lia.
    + intros i ? Hi. destruct i; [reflexivity | lia].
    + intros ?. reflexivity.
    + exists w'. injection Hraw as <-. split; [exact Hrun | exact Hlen].
  - destruct (proj2 (proj2 (proj2 (retry_loops_bounded
        (Sample.externals
           (Sample.always (GenText (Sample.json_object Sample.response_only))))
        (Sample.plain_agent 3) (PStr "old notes") [0] Sample.world 0 Hv))))
      as (w' & Hrun & Hlen).
    + intros i ? Hi. reflexivity.
    + exists w'. split; [exact Hrun | exact Hlen].
Defined.

(** C2. The code does not degrade to a turn without scaffolding.  With
    model-mediated scaffolding and a generator whose output never has the
    key relevant_notes, the scaffolding method uses up its ten attempts
    and returns None, and [generate_collaborator_response] then raises
    TypeError on [[system message] + None]: ten generator calls, all of
    them for scaffolding, none for the turn, and no result. *)
Theorem scaffolding_exhaustion_raises :
  let E := Sample.externals
             (Sample.always (GenText (Sample.json_object Sample.response_ok))) in
  let run := generate_collaborator_response E (Sample.notes_agent true true 10)
               [0] Sample.world in
  run.1 = Raise TypeError /\
  length (calls run.2) = 10 /\
  Forall (fun msgs => length msgs = 1) (calls run.2) /\
  (generate_collaborator_response E (Sample.notes_agent false false 10)
     [0] Sample.world).1 = Ok (Some (Sample.record Sample.response_ok)).
Proof.
  cbv zeta. split; [vm_compute; reflexivity |].
  split; [vm_compute; reflexivity |].
  split; [| vm_compute; reflexivity].
  vm_compute. repeat constructor.
Qed.

(** C4, as stated, fails: the method returns the record itself, with its
    reasoning field. *)
Lemma response_record_returned_whole :
  let E := Sample.externals
             (Sample.always (GenText (Sample.json_object Sample.response_ok))) in
  (generate_collaborator_response E (Sample.plain_agent 10) [0] Sample.world).1
    = Ok (Some (PDict [("reasoning", PStr "r"); ("response", PStr "hi")])) /\
  ~ (exists text,
       (generate_collaborator_response E (Sample.plain_agent 10) [0] Sample.world).1
         = Ok (Some (PStr text))) /\
  ~ returns_response_text E (Sample.plain_agent 10) [0] Sample.world.
Proof.
  cbv zeta. split; [vm_compute; reflexivity |]. split.
  - intros [text H]. vm_compute in H. discriminate H.
  - intros H.
    destruct (generate_collaborator_response
                (Sample.externals
                   (Sample.always (GenText (Sample.json_object Sample.response_ok))))
                (Sample.plain_agent 10) [0] Sample.world) as [r w'] eqn:Hrun.
    vm_compute in Hrun. injection Hrun as <- <-.
    destruct (H _ _ eq_refl) as [raw Hraw].
    unfold Sample.externals, repair_json, Sample.repair_json in Hraw.
    repeat (match type of Hraw with
            | context [if ?c then _ else _] => destruct c
            end; try (vm_compute in Hraw; discriminate Hraw)).
Qed.

(** C4, amended.  Whenever [generate_collaborator_response] returns a
    result, it is the whole repaired output of a generator call, one that
    passes the membership test for reasoning and for response: reasoning
    is part of the returned value.  The caller keeps the response field
    only: for a returned dict, the text the caller shows is the value of
    that field. *)
Theorem response_record_and_shown_text
    (E : Externals) (a : CollaboratorAgent) (conversation : list loc)
    (w w' : World) (returned : PyValue) :
  generate_collaborator_response E a conversation w = (Ok (Some returned), w') ->
  (exists raw, returned = repair_json E raw) /\
  contains "reasoning" returned = Ok true /\
  contains "response" returned = Ok true /\
  (forall items, returned = PDict items ->
     exists v, dict_get "response" items = Some v /\
               Study.response_text (Some returned) = Ok v).
Proof.
  intros Hrun.
  destruct (Frame.safe_generate_collaborator_response E 0 a conversation w
              ltac:(lia)) as [_ Hpost].
  rewrite Hrun in Hpost. simpl in Hpost.
  destruct (Hpost returned eq_refl) as [Hmissing Hraw].
  destruct (missing_keys_two _ _ _ Hmissing) as [Hreasoning Hresponse].
  repeat split; auto.
  intros items ->. cbn [contains] in Hresponse. injection Hresponse as Hhas.
  destruct (dict_has_get _ _ Hhas) as [v Hv]. exists v. split; [exact Hv |].
  unfold Study.response_text, Study.result_has.
  assert (Htruthy : truthy (PDict items) = true)
    by (destruct items; [discriminate Hhas | reflexivity]).
  rewrite Htruthy. cbn [contains getitem]. rewrite Hhas, Hv. reflexivity.
Qed.

Lemma response_record_and_shown_text_witness :
  let returned := PDict [("reasoning", PStr "r"); ("response", PStr "hi")] in
  (exists raw, returned = Sample.repair_json raw) /\
  contains "reasoning" returned = Ok true /\
  contains "response" returned = Ok true /\
  (forall items, returned = PDict items ->
     exists v, dict_get "response" items = Some v /\
               Study.response_text (Some returned) = Ok v).
Proof.
  apply (response_record_and_shown_text
           (Sample.externals
              (Sample.always (GenText (Sample.json_object Sample.response_ok))))
           (Sample.plain_agent 10) [0] Sample.world
           (generate_collaborator_response
              (Sample.externals
                 (Sample.always (GenText (Sample.json_object Sample.response_ok))))
              (Sample.plain_agent 10) [0] Sample.world).2).
  vm_compute. reflexivity.
Defined.

(** C5. In [generate_collaborator_response] an exception of the
    generator call is not a failed attempt: nothing catches it, and it
    leaves the method after one call with nine attempts unused.
    [update_agent_notes], whose loop body is inside a [try], prints the
    same exception and goes on to the next attempt. *)
Theorem generator_error_leaves_response_loop :
  let outcomes := Sample.scripted [GenRaise (GatewayError "timeout")]
                    (GenText (Sample.json_object Sample.all_keys)) in
  let run := generate_collaborator_response (Sample.externals outcomes)
               (Sample.plain_agent 10) [0] Sample.world in
  let notes_outcomes := Sample.scripted [GenRaise (GatewayError "timeout")]
                          (GenText (Sample.json_object Sample.notes_ok)) in
  let notes_run := update_agent_notes (Sample.externals notes_outcomes)
                     (Sample.plain_agent 10) (PStr "old notes") [0] Sample.world in
  run.1 = Raise (GatewayError "timeout") /\
  length (calls run.2) = 1 /\
  stdout run.2 = [] /\
  notes_run.1 = Ok (Some (Sample.record Sample.notes_ok)) /\
  length (calls notes_run.2) = 2 /\
  stdout notes_run.2 = [FailedUpdateNotes (GatewayError "timeout")].
Proof. cbv zeta. repeat split; vm_compute; reflexivity. Qed.

(** C6. On a dict the list of missing keys is exact: the required keys
    that are not keys of the dict, in order.  But the test can raise: when
    the output is repaired to an object that is not a container (here the
    number 123) the membership test raises TypeError, which leaves
    [generate_collaborator_response] as an exception, where
    [update_agent_notes] counts it as a failed attempt. *)
Theorem validation_raises_on_number :
  (forall keys items,
     missing_keys keys (PDict items)
     = Ok (List.filter (fun key => negb (dict_has key items)) keys)) /\
  let E := Sample.externals (Sample.always (GenText "123")) in
  repair_json E "123" = PInt 123 /\
  missing_keys response_keys (repair_json E "123") = Raise TypeError /\
  generate_collaborator_response E (Sample.plain_agent 10) [0] Sample.world
    = (Raise TypeError,
       mkWorld [Sample.user_hello; Sample.user_hello]
         [[mkMessage "system" "You are an assistant."; Sample.user_hello]] []) /\
  (update_agent_notes E (Sample.plain_agent 3) (PStr "old notes") [0] Sample.world).1
    = Ok None.
Proof.
  split; [intros keys items; apply missing_keys_dict |].
  cbv zeta. repeat split; vm_compute; reflexivity.
Qed.

(** ** Further properties of the agent *)

Module Budget.

Lemma spends_ret {A} (a : A) : spends 0 (ret a).
Proof. intros w. simpl. lia. Qed.

Lemma spends_raise {A} e : spends 0 (@raise A e).
Proof. intros w. simpl. lia. Qed.

Lemma spends_lift {A} (r : Res A) : spends 0 (lift r).
Proof. intros w. simpl. lia. Qed.

Lemma spends_print p : spends 0 (print p).
Proof. intros w. simpl. lia. Qed.

Lemma spends_read l : spends 0 (read l).
Proof. intros w. unfold read. destruct (heap w !! l); simpl; lia. Qed.

Lemma spends_alloc m : spends 0 (alloc m).
Proof. intros w. simpl. lia. Qed.

Lemma spends_set_content l text : spends 0 (set_content l text).
Proof. intros w. unfold set_content. destruct (heap w !! l); simpl; lia. Qed.

Lemma spends_bind {A B} n1 n2 (m : M A) (f : A -> M B) :
  spends n1 m -> (forall a, spends n2 (f a)) -> spends (n1 + n2) (bind m f).
Proof.
  intros Hm Hf w. unfold bind. specialize (Hm w).
  destruct (m w) as [[a | e] w1]; simpl in *.
  - specialize (Hf a w1). lia.
  - lia.
Qed.

Lemma spends_weaken {A} n n' (m : M A) : spends n m -> n <= n' -> spends n' m.
Proof. intros Hm Hle w. specialize (Hm w). lia. Qed.

Lemma spends_snapshot refs : spends 0 (snapshot refs).
Proof.
  induction refs as [| l refs IH]; simpl; [apply spends_ret |].
  apply (spends_bind 0 0); [apply spends_read |]. intros m.
  apply (spends_bind 0 0); [apply IH |]. intros ms. apply spends_ret.
Qed.

Lemma spends_deepcopy_items refs : forall memo, spends 0 (deepcopy_items memo refs).
Proof.
  induction refs as [| l refs IH]; intros memo; simpl; [apply spends_ret |].
  destruct (memo_get memo l).
  - apply (spends_bind 0 0); [apply IH |]. intros rest. apply spends_ret.
  - apply (spends_bind 0 0); [apply spends_read |]. intros m.
    apply (spends_bind 0 0); [apply spends_alloc |]. intros l'.
    apply (spends_bind 0 0); [apply IH |]. intros rest. apply spends_ret.
Qed.

Lemma spends_prepend_to_first prefix refs : spends 0 (prepend_to_first prefix refs).
Proof.
  destruct refs as [| l refs]; simpl; [apply spends_raise |].
  apply (spends_bind 0 0); [apply spends_read |]. intros m. apply spends_set_content.
Qed.

Section WithExternals.

Context (E : Externals).

Lemma spends_completion msgs : spends 1 (completion E msgs).
Proof.
  intros w. unfold completion.
  destruct (llm_completion E (length (calls w)) msgs); simpl;
    rewrite length_app; simpl; lia.
Qed.

Lemma spends_get_conversation_string refs : spends 0 (get_conversation_string refs).
Proof.
  unfold get_conversation_string.
  apply (spends_bind 0 0); [apply spends_snapshot |]. intros ms. apply spends_ret.
Qed.

Lemma spends_scaffolding_loop n smsgs refs : spends n (scaffolding_loop E n smsgs refs).
Proof.
  induction n as [| n IH]; simpl; [apply spends_ret |].
  apply (spends_bind 1 n); [apply spends_completion |]. intros resp.
  apply (spends_bind 0 n); [apply spends_lift |]. intros missing.
  destruct missing as [| k ks].
  - apply (spends_weaken 0); [| lia].
    apply (spends_bind 0 0); [apply spends_lift |]. intros notes.
    apply (spends_bind 0 0); [apply spends_prepend_to_first |]. intros _.
    apply spends_ret.
  - apply (spends_bind 0 n); [apply spends_print |]. intros _. exact IH.
Qed.

Lemma spends_scaffolding_step a conversation :
  spends (scaffolding_budget a)
    (if with_scaffolding a
     then add_scaffolding_to_conversation E a conversation
     else ret conversation).
Proof.
  unfold scaffolding_budget.
  destruct (with_scaffolding a); simpl; [| apply spends_ret].
  destruct conversation as [refs |]; simpl; [| apply spends_weaken with 0; [apply spends_raise | lia]].
  destruct (with_proper_scaffolding a); simpl.
  - apply (spends_bind 0 _); [apply spends_get_conversation_string |]. intros s.
    apply spends_scaffolding_loop.
  - apply (spends_bind 0 0); [apply spends_prepend_to_first |]. intros _.
    apply spends_ret.
Qed.

Lemma spends_response_loop a n : forall conversation,
  spends (n * (scaffolding_budget a + 1)) (response_loop E a n conversation).
Proof.
  induction n as [| n IH]; intros conversation; cbn [response_loop].
  - apply (spends_bind 0 0); [apply spends_print |]. intros _. apply spends_ret.
  - apply spends_weaken with
      (scaffolding_budget a + (0 + (1 + (0 + n * (scaffolding_budget a + 1))))); [| lia].
    apply spends_bind; [apply spends_scaffolding_step |]. intros conv'.
    apply spends_bind.
    { destruct conv'; [apply spends_snapshot | apply spends_raise]. }
    intros rest.
    apply spends_bind; [apply spends_completion |]. intros resp.
    apply spends_bind; [apply spends_lift |]. intros missing.
    destruct missing as [| k ks].
    + apply spends_weaken with 0; [apply spends_ret | lia].
    + apply (spends_bind 0 _); [apply spends_print |]. intros _. apply IH.
Qed.

End WithExternals.

End Budget.

(** X1. Whatever the agent's modes and whatever the generator does
    (valid records, invalid ones, exceptions), one call of
    [generate_collaborator_response] makes at most
    [num_retries * (num_retries + 1)] generator calls, and at most
    [num_retries] unless the agent scaffolds in model-mediated mode. *)
Theorem generate_collaborator_response_call_budget
    (E : Externals) (a : CollaboratorAgent) (conversation : list loc) (w : World) :
  (length (calls (generate_collaborator_response E a conversation w).2)
   <= length (calls w) + Z.to_nat (num_retries a) * (Z.to_nat (num_retries a) + 1))
  /\
  ((with_scaffolding a && with_proper_scaffolding a)%bool = false ->
   length (calls (generate_collaborator_response E a conversation w).2)
   <= length (calls w) + Z.to_nat (num_retries a)).
Proof.
  assert (H : length (calls (generate_collaborator_response E a conversation w).2)
              <= length (calls w)
                 + (0 + Z.to_nat (num_retries a) * (scaffolding_budget a + 1))).
  { unfold generate_collaborator_response.
    apply (Budget.spends_bind 0 _ _ _
             (Budget.spends_deepcopy_items conversation [])
             (fun refs => Budget.spends_response_loop E a
                            (Z.to_nat (num_retries a)) (Some refs)) w). }
  split.
  - assert (scaffolding_budget a <= Z.to_nat (num_retries a))
      by (unfold scaffolding_budget; destruct (_ && _); lia).
    nia.
  - intros Hflag. unfold scaffolding_budget in H. rewrite Hflag in H. lia.
Qed.

Lemma generate_collaborator_response_call_budget_witness :
  (length (calls (generate_collaborator_response
                    (Sample.externals
                       (Sample.always (GenText (Sample.json_object Sample.response_only))))
                    (Sample.notes_agent true false 3) [0] Sample.world).2)
   <= 0 + 3 * (3 + 1))
  /\
  (length (calls (generate_collaborator_response
                    (Sample.externals
                       (Sample.always (GenText (Sample.json_object Sample.response_only))))
                    (Sample.notes_agent true false 3) [0] Sample.world).2)
   <= 0 + 3).
Proof.
  pose proof (generate_collaborator_response_call_budget
                (Sample.externals
                   (Sample.always (GenText (Sample.json_object Sample.response_only))))
                (Sample.notes_agent true false 3) [0] Sample.world) as (H1 & H2).
  split; [exact H1 | exact (H2 eq_refl)].
Defined.

Module Notes.

Section WithExternals.

Context (E : Externals).

(** The notes loop always ends without an exception.  It leaves the
    store alone, every call it makes gets the one prompt message, and
    every attempt that does not return prints one line. *)
Lemma notes_loop_total n : forall prompt w,
  exists r w' j,
    notes_loop E n prompt w = (Ok r, w') /\
    heap w' = heap w /\
    j <= n /\
    calls w' = calls w ++ replicate j [mkMessage "user" prompt] /\
    match r with
    | Some processed =>
        missing_keys notes_keys processed = Ok [] /\
        (exists raw, processed = repair_json E raw) /\
        length (stdout w') + 1 = length (stdout w) + j
    | None =>
        j = n /\ length (stdout w') = length (stdout w) + n
    end.
Proof.
  induction n as [| n IH]; intros prompt w.
  - exists None, w, 0. simpl. rewrite app_nil_r. repeat split; auto.
  - rewrite notes_loop_S. cbv zeta.
    assert (Hstep : forall p,
      exists r w' j,
        notes_loop E n prompt (printed (called w [mkMessage "user" prompt]) p)
          = (Ok r, w') /\
        heap w' = heap w /\
        j <= S n /\
        calls w' = calls w ++ replicate j [mkMessage "user" prompt] /\
        match r with
        | Some processed =>
            missing_keys notes_keys processed = Ok [] /\
            (exists raw, processed = repair_json E raw) /\
            length (stdout w') + 1 = length (stdout w) + j
        | None =>
            j = S n /\ length (stdout w') = length (stdout w) + S n
        end).
    { intros p.
      destruct (IH prompt (printed (called w [mkMessage "user" prompt]) p))
        as (r & w' & j & Hrun & Hheap & Hj & Hcalls & Hr).
      exists r, w', (S j). split; [exact Hrun |]. split; [exact Hheap |].
      split; [lia |]. split.
      - rewrite Hcalls. simpl. rewrite <- app_assoc. reflexivity.
      - simpl in Hr. rewrite length_app in Hr. simpl in Hr.
        destruct r as [processed |].
        + destruct Hr as (H1 & H2 & H3). repeat split; auto. lia.
        + destruct Hr as (H1 & H2). split; lia. }
    destruct (llm_completion E (length (calls w)) _) as [raw | e]; [| apply Hstep].
    destruct (missing_keys notes_keys (repair_json E raw)) as [[| ? ?] | ?] eqn:Hm;
      [| apply Hstep | apply Hstep].
    exists (Some (repair_json E raw)), (called w [mkMessage "user" prompt]), 1.
    simpl. repeat split; eauto; lia.
Qed.

Lemma get_conversation_string_transcript refs w :
  valid_refs refs w ->
  get_conversation_string refs w = (Ok (transcript (heap w) refs), w).
Proof.
  intros Hv. unfold get_conversation_string.
  erewrite bind_ok by (apply snapshot_valid; exact Hv). reflexivity.
Qed.

End WithExternals.

End Notes.

(** X2. [update_agent_notes] never raises, whatever the generator does:
    an exception of the generator call or of the membership test is one
    more failed attempt.  It makes at most [num_retries] calls, each with
    the one user message built from the prior notes and the transcript
    of the conversation; it changes no stored message; a returned record
    has passed validation; every attempt that did not return has printed
    exactly one line, and exhaustion prints no line of its own. *)
Theorem update_agent_notes_never_raises
    (E : Externals) (a : CollaboratorAgent) (notes : PyValue)
    (conversation : list loc) (w : World) :
  valid_refs conversation w ->
  exists r w' j,
    update_agent_notes E a notes conversation w = (Ok r, w') /\
    heap w' = heap w /\
    j <= Z.to_nat (num_retries a) /\
    calls w' = calls w ++
      replicate j [mkMessage "user"
                     (update_agent_notes_prompt E (py_str E notes)
                        (transcript (heap w) conversation))] /\
    match r with
    | Some processed =>
        missing_keys notes_keys processed = Ok [] /\
        (exists raw, processed = repair_json E raw) /\
        length (stdout w') + 1 = length (stdout w) + j
    | None =>
        j = Z.to_nat (num_retries a) /\
        length (stdout w') = length (stdout w) + Z.to_nat (num_retries a)
    end.
Proof.
  intros Hv. unfold update_agent_notes.
  erewrite bind_ok by (apply Notes.get_conversation_string_transcript; exact Hv).
  apply Notes.notes_loop_total.
Qed.

Lemma update_agent_notes_never_raises_witness :
  exists r w' j,
    update_agent_notes (Sample.externals Sample.flaky) (Sample.plain_agent 3)
      (PStr "old notes") [0] Sample.world = (Ok r, w') /\
    heap w' = [Sample.user_hello] /\
    j <= 3 /\
    calls w' = replicate j [mkMessage "user" "Update the notes. old notes User: Hello"] /\
    match r with
    | Some processed =>
        missing_keys notes_keys processed = Ok [] /\
        (exists raw, processed = Sample.repair_json raw) /\
        length (stdout w') + 1 = j
    | None => j = 3 /\ length (stdout w') = 3
    end.
Proof.
  apply (update_agent_notes_never_raises (Sample.externals Sample.flaky)
           (Sample.plain_agent 3) (PStr "old notes") [0] Sample.world).
  repeat constructor.
Defined.

Module Scaffolding.

Lemma join_snoc sep parts p :
  parts <> [] -> join sep (parts ++ [p]) = (join sep parts ++ sep ++ p)%string.
Proof.
  induction parts as [| q parts IH]; intros Hne; [congruence |].
  destruct parts as [| q' parts]; [reflexivity |].
  change (join sep ((q :: q' :: parts) ++ [p]))
    with (q ++ sep ++ join sep ((q' :: parts) ++ [p]))%string.
  rewrite IH by discriminate.
  change (join sep (q :: q' :: parts)) with (q ++ sep ++ join sep (q' :: parts))%string.
  rewrite !Substring.append_assoc. reflexivity.
Qed.

Lemma deref_snoc (h : list Message) refs l m :
  h !! l = Some m -> deref h (refs ++ [l]) = deref h refs ++ [m].
Proof.
  intros Hl. unfold deref. rewrite omap_app. simpl. rewrite Hl. reflexivity.
Qed.

(** A copy has the contents of its original. *)
Lemma deref_copy (h h' : list Message) refs refs' :
  Forall2 (fun l l' => l' < length h' /\ h' !! l' = h !! l) refs refs' ->
  deref h' refs' = deref h refs.
Proof.
  intros H. unfold deref. induction H as [| l l' refs refs' [_ Heq] _ IH].
  - reflexivity.
  - change (omap (fun l => h' !! l) (l' :: refs'))
      with (match h' !! l' with
            | Some m => m :: omap (fun l => h' !! l) refs'
            | None => omap (fun l => h' !! l) refs'
            end).
    change (omap (fun l => h !! l) (l :: refs))
      with (match h !! l with
            | Some m => m :: omap (fun l => h !! l) refs
            | None => omap (fun l => h !! l) refs
            end).
    rewrite Heq, IH. reflexivity.
Qed.

Section WithExternals.

Context (E : Externals).

Lemma scaffolding_loop_S n smsgs refs w :
  scaffolding_loop E (S n) smsgs refs w =
  let w1 := called w smsgs in
  match llm_completion E (length (calls w)) smsgs with
  | GenRaise e => (Raise e, w1)
  | GenText raw =>
      match missing_keys scaffold_keys (repair_json E raw) with
      | Raise e => (Raise e, w1)
      | Ok (k :: ks) =>
          scaffolding_loop E n smsgs refs
            (printed w1 (MissingKeysScaffolding (k :: ks) (repair_json E raw)))
      | Ok [] =>
          bind (lift (getitem (repair_json E raw) "relevant_notes"))
            (fun notes =>
               bind (prepend_to_first (proper_instruction ++ py_str E notes) refs)
                 (fun _ => ret (Some refs))) w1
      end
  end.
Proof.
  cbn [scaffolding_loop]. unfold bind at 1. unfold completion. cbv zeta.
  unfold called, printed, scaffold_keys.
  destruct (llm_completion E (length (calls w)) smsgs) as [raw | e]; [| reflexivity].
  unfold bind at 1. unfold lift at 1.
  destruct (missing_keys _ (repair_json E raw)) as [[| k ks] | e]; reflexivity.
Qed.

(** After [k] scaffolding attempts that fail validation, a dict with the
    two keys ends the loop: the selected notes go in front of the first
    message, and every call has got the same prompt. *)
Lemma scaffolding_loop_succeeds l rest m raw items v k : forall n smsgs w,
  k < n ->
  heap w !! l = Some m ->
  fails_first E scaffold_keys (length (calls w)) k ->
  (forall msgs, llm_completion E (length (calls w) + k) msgs = GenText raw) ->
  repair_json E raw = PDict items ->
  dict_has "reasoning" items = true ->
  dict_get "relevant_notes" items = Some v ->
  exists w',
    scaffolding_loop E n smsgs (l :: rest) w = (Ok (Some (l :: rest)), w') /\
    heap w' = <[l := mkMessage (role m)
                        ((proper_instruction ++ py_str E v) ++ content m)]> (heap w) /\
    calls w' = calls w ++ replicate (S k) smsgs /\
    length (stdout w') = length (stdout w) + k.
Proof.
  induction k as [| k IH]; intros n smsgs w Hlt Hm Hfail Hllm Hrep Hreason Hnotes;
    (destruct n as [| n]; [lia |]); rewrite scaffolding_loop_S; cbv zeta.
  - rewrite Nat.add_0_r in Hllm. rewrite Hllm, Hrep.
    assert (Hhas : dict_has "relevant_notes" items = true).
    { clear - Hnotes. induction items as [| [k0 v0] items IH]; simpl in *; [discriminate |].
      destruct (String.eqb k0 "relevant_notes"); [reflexivity | auto]. }
    unfold scaffold_keys. cbn [missing_keys contains]. rewrite Hreason, Hhas.
    unfold bind at 1. unfold lift at 1. cbn [getitem]. rewrite Hnotes.
    cbn [prepend_to_first].
    eexists. split.
    + erewrite bind_ok; [reflexivity |].
      erewrite bind_ok by (apply read_valid; exact Hm).
      unfold set_content. simpl. rewrite Hm. reflexivity.
    + simpl. repeat split; auto.
  - pose proof (Hfail 0 smsgs ltac:(lia)) as H0.
    rewrite Nat.add_0_r in H0. unfold fails_validation in H0.
    destruct (llm_completion E (length (calls w)) smsgs) as [raw' | e]; [| discriminate].
    destruct (missing_keys scaffold_keys (repair_json E raw')) as [[| k0 ks] | ?];
      try discriminate.
    set (w1 := printed (called w smsgs) _).
    assert (Hlen : length (calls w1) = S (length (calls w)))
      by (simpl; rewrite length_app; simpl; lia).
    destruct (IH n smsgs w1) as (w' & Hrun & Hheap & Hcalls & Hout); auto.
    + lia.
    + rewrite Hlen. apply fails_first_shift; exact Hfail.
    + intros msgs. rewrite Hlen.
      replace (S (length (calls w)) + k) with (length (calls w) + S k) by lia.
      apply Hllm.
    + exists w'. split; [exact Hrun |]. split; [exact Hheap |]. split.
      * rewrite Hcalls. simpl. rewrite <- app_assoc. reflexivity.
      * rewrite Hout. simpl. rewrite length_app. simpl. lia.
Qed.

(** Without scaffolding the loop writes nothing to the store and sends
    the same messages at every attempt. *)
Lemma response_loop_plain a refs n : forall w,
  with_scaffolding a = false -> valid_refs refs w ->
  exists j,
    j <= n /\
    heap (response_loop E a n (Some refs) w).2 = heap w /\
    calls (response_loop E a n (Some refs) w).2
    = calls w ++ replicate j (mkMessage "system" (system_prompt a) :: deref (heap w) refs).
Proof.
  induction n as [| n IH]; intros w Hs Hv.
  - exists 0. simpl. rewrite app_nil_r. auto.
  - rewrite response_loop_S; [| left; exact Hs | exact Hv]. cbv zeta.
    assert (Hsc : scaffolded E a refs w = w) by (unfold scaffolded; rewrite Hs; reflexivity).
    rewrite Hsc.
    set (msgs := mkMessage "system" (system_prompt a) :: deref (heap w) refs).
    assert (Hone : exists j, j <= S n /\ heap (called w msgs) = heap w /\
                     calls (called w msgs) = calls w ++ replicate j msgs)
      by (exists 1; simpl; repeat split; auto; lia).
    destruct (llm_completion E (length (calls w)) msgs) as [raw | e]; [| exact Hone].
    destruct (missing_keys response_keys (repair_json E raw)) as [[| k ks] | e];
      [exact Hone | | exact Hone].
    set (w1 := printed (called w msgs) _).
    destruct (IH w1 Hs) as (j & Hj & Hheap & Hcalls); [exact Hv |].
    exists (S j). split; [lia |]. split; [rewrite Hheap; reflexivity |].
    rewrite Hcalls. simpl. rewrite <- app_assoc. reflexivity.
Qed.

End WithExternals.

End Scaffolding.

(** X3. Model-mediated scaffolding that gets its record.  When the first
    [k] scaffolding attempts fail validation, [k] below the budget, and
    the next output is repaired to a dict with the keys reasoning and
    relevant_notes, [add_scaffolding_to_conversation] returns the
    conversation after [k+1] generator calls.  Every one of these calls
    got the single user message made from the transcript of the
    conversation and the agent's complete notes; what is written in front
    of the first message is the second instruction followed by the value
    of relevant_notes, not the complete notes; each failed attempt has
    printed one line. *)
Theorem proper_scaffolding_injects_selected_notes
    (E : Externals) (a : CollaboratorAgent) (l : loc) (rest : list loc)
    (w : World) (m : Message) (k : nat) (raw : string)
    (items : list (string * PyValue)) (v : PyValue) :
  with_proper_scaffolding a = true ->
  valid_refs (l :: rest) w ->
  heap w !! l = Some m ->
  k < Z.to_nat (num_retries a) ->
  fails_first E scaffold_keys (length (calls w)) k ->
  (forall msgs, llm_completion E (length (calls w) + k) msgs = GenText raw) ->
  repair_json E raw = PDict items ->
  dict_has "reasoning" items = true ->
  dict_get "relevant_notes" items = Some v ->
  exists w',
    add_scaffolding_to_conversation E a (Some (l :: rest)) w
      = (Ok (Some (l :: rest)), w') /\
    heap w' = <[l := mkMessage (role m)
                        ((proper_instruction ++ py_str E v) ++ content m)]> (heap w) /\
    calls w' = calls w ++
      replicate (S k)
        [mkMessage "user"
           (proper_scaffolding_prompt E (transcript (heap w) (l :: rest))
              (py_str E (agent_notes a)))] /\
    length (stdout w') = length (stdout w) + k.
Proof.
  intros Hp Hv Hm Hk Hfail Hllm Hrep Hreason Hnotes.
  cbn [add_scaffolding_to_conversation]. rewrite Hp. cbn [negb].
  erewrite bind_ok by (apply Notes.get_conversation_string_transcript; exact Hv).
  apply (Scaffolding.scaffolding_loop_succeeds E l rest m raw items v k); assumption.
Qed.

Lemma proper_scaffolding_injects_selected_notes_witness :
  exists w',
    add_scaffolding_to_conversation
      (Sample.externals
         (Sample.scripted [GenText (Sample.json_object Sample.response_only)]
            (GenText (Sample.json_object Sample.scaffold_ok))))
      (Sample.notes_agent true true 3) (Some [0]) Sample.world
      = (Ok (Some [0]), w') /\
    heap w' = [mkMessage "user" ((proper_instruction ++ "Prefers Python.") ++ "Hello")] /\
    calls w' = replicate 2
                 [mkMessage "user"
                    "Select the relevant notes. User: Hello Prefers Python."] /\
    length (stdout w') = 1.
Proof.
  apply (proper_scaffolding_injects_selected_notes
           (Sample.externals
              (Sample.scripted [GenText (Sample.json_object Sample.response_only)]
                 (GenText (Sample.json_object Sample.scaffold_ok))))
           (Sample.notes_agent true true 3) 0 [] Sample.world Sample.user_hello 1
           (Sample.json_object Sample.scaffold_ok)
           [("reasoning", PStr "r"); ("relevant_notes", PStr "Prefers Python.")]
           (PStr "Prefers Python.")).
  - reflexivity.
  - repeat constructor.
  - reflexivity.
  - vm_compute. lia.
  - intros i msgs Hi. destruct i; [reflexivity | lia].
  - intros msgs. reflexivity.
  - reflexivity.
  - reflexivity.
  - reflexivity.
Defined.

(** X4. An agent that does not scaffold sends the same messages at every
    attempt of [generate_collaborator_response]: the system prompt
    followed by the conversation as the caller holds it.  There are at
    most [num_retries] such calls, and a failed attempt changes nothing
    in what the next attempt sends. *)
Theorem unscaffolded_attempts_send_the_conversation
    (E : Externals) (a : CollaboratorAgent) (conversation : list loc) (w : World) :
  with_scaffolding a = false ->
  valid_refs conversation w ->
  exists j,
    j <= Z.to_nat (num_retries a) /\
    calls (generate_collaborator_response E a conversation w).2
    = calls w ++
      replicate j (mkMessage "system" (system_prompt a)
                     :: deref (heap w) conversation).
Proof.
  intros Hs Hv. unfold generate_collaborator_response.
  destruct (deepcopy_spec _ _ Hv) as (refs & ext & Hcopy & Hall).
  erewrite bind_ok by exact Hcopy.
  set (w1 := mkWorld (heap w ++ ext) (calls w) (stdout w)) in *.
  destruct (Scaffolding.response_loop_plain E a refs (Z.to_nat (num_retries a)) w1 Hs)
    as (j & Hj & _ & Hcalls).
  - eapply copy_valid with (h := heap w). exact Hall.
  - exists j. split; [exact Hj |]. rewrite Hcalls. simpl.
    rewrite (Scaffolding.deref_copy (heap w) (heap w ++ ext) conversation refs Hall).
    reflexivity.
Qed.

Lemma unscaffolded_attempts_send_the_conversation_witness :
  exists j,
    j <= 3 /\
    calls (generate_collaborator_response
             (Sample.externals
                (Sample.always (GenText (Sample.json_object Sample.response_only))))
             (Sample.plain_agent 3) [0] Sample.world).2
    = replicate j [mkMessage "system" "You are an assistant."; Sample.user_hello].
Proof.
  apply (unscaffolded_attempts_send_the_conversation
           (Sample.externals
              (Sample.always (GenText (Sample.json_object Sample.response_only))))
           (Sample.plain_agent 3) [0] Sample.world).
  - reflexivity.
  - repeat constructor.
Defined.

(** X5. [get_conversation_string] reads the store and changes nothing.
    The transcript of the empty conversation is the empty string, and a
    message added at the end of a non-empty conversation adds one line to
    the transcript: a newline, the capitalized role, a colon, a space and
    the content. *)
Theorem transcript_grows_by_one_line
    (refs : list loc) (l : loc) (w : World) (m : Message) :
  valid_refs refs w ->
  refs <> [] ->
  heap w !! l = Some m ->
  get_conversation_string [] w = (Ok EmptyString, w) /\
  get_conversation_string refs w = (Ok (transcript (heap w) refs), w) /\
  get_conversation_string (refs ++ [l]) w
  = (Ok (transcript (heap w) refs ++ nl ++ capitalize (role m) ++ ": " ++ content m)%string,
     w).
Proof.
  intros Hv Hne Hm. split; [reflexivity |]. split.
  - apply Notes.get_conversation_string_transcript. exact Hv.
  - rewrite Notes.get_conversation_string_transcript.
    + unfold transcript. rewrite (Scaffolding.deref_snoc _ _ _ _ Hm), map_app.
      change (map message_line [m]) with [message_line m].
      rewrite Scaffolding.join_snoc; [reflexivity |].
      destruct refs as [| r refs]; [congruence |].
      inversion Hv as [| ? ? Hr _]; subst.
      destruct (lookup_lt_is_Some_2 _ _ Hr) as [mr Hmr].
      unfold deref. simpl. rewrite Hmr. discriminate.
    + apply Forall_app. split; [exact Hv |].
      constructor; [| constructor]. eapply lookup_lt_Some; exact Hm.
Qed.

Lemma transcript_grows_by_one_line_witness :
  let w := mkWorld [Sample.user_hello; mkMessage "assistant" "Hi there"] [] [] in
  get_conversation_string [] w = (Ok EmptyString, w) /\
  get_conversation_string [0] w = (Ok "User: Hello", w) /\
  get_conversation_string ([0] ++ [1]) w
  = (Ok ("User: Hello" ++ nl ++ "Assistant" ++ ": " ++ "Hi there")%string, w).
Proof.
  apply (transcript_grows_by_one_line [0] 1
           (mkWorld [Sample.user_hello; mkMessage "assistant" "Hi there"] [] [])
           (mkMessage "assistant" "Hi there")).
  - repeat constructor.
  - discriminate.
  - reflexivity.
Defined.

Module Caller.

Lemma dict_get_has key items v :
  dict_get key items = Some v -> dict_has key items = true.
Proof.
  induction items as [| [k0 v0] items IH]; simpl; [discriminate |].
  destruct (String.eqb k0 key); simpl; auto.
Qed.

Lemma response_text_dict items v :
  dict_get "response" items = Some v ->
  Study.response_text (Some (PDict items)) = Ok v.
Proof.
  intros Hget. pose proof (dict_get_has _ _ _ Hget) as Hhas.
  unfold Study.response_text, Study.result_has.
  assert (Htruthy : truthy (PDict items) = true)
    by (destruct items; [discriminate Hhas | reflexivity]).
  rewrite Htruthy. cbn [contains getitem]. rewrite Hhas, Hget. reflexivity.
Qed.

End Caller.

(** X6. A consolidation that succeeds replaces the memory.  In a memory
    condition, when the first [k] attempts of [update_agent_notes] yield
    no valid record and the next output is repaired to a dict with both
    keys, the caller stores the value of agent_notes as the new notes,
    whatever the old notes were, and builds a new agent from them with
    the default settings (ten retries, no scaffolding).  The new agent's
    system prompt is the reflective one when the new notes are truthy and
    the plain one when they are not (empty notes, for instance). *)
Theorem consolidation_replaces_notes
    (E : Externals) (st : Study.Session) (w : World) (k : nat) (raw : string)
    (items : list (string * PyValue)) (v : PyValue) :
  k < Z.to_nat (num_retries (Study.agent st)) ->
  never_valid E notes_keys (length (calls w)) k ->
  (forall msgs, llm_completion E (length (calls w) + k) msgs = GenText raw) ->
  repair_json E raw = PDict items ->
  dict_has "user_preferences_reasoning" items = true ->
  dict_get "agent_notes" items = Some v ->
  exists w',
    Study.update_memory E true st w
      = (Ok (Study.mkSession (Study.messages st) v
               (init E Study.MODEL_NAME PNone v false false 10)), w') /\
    length (calls w') = length (calls w) + k + 1 /\
    system_prompt (init E Study.MODEL_NAME PNone v false false 10)
      = (if truthy v
         then reflective_agent_system_prompt E 2048 (py_str E v)
         else agent_system_prompt E 2048).
Proof.
  intros Hk Hfail Hllm Hrep Hreason Hnotes.
  pose proof (Caller.dict_get_has _ _ _ Hnotes) as Hhas.
  assert (Hvalid : valid_at E notes_keys (length (calls w) + k)).
  { intros msgs. rewrite Hllm. unfold yields_valid. rewrite Hrep.
    unfold notes_keys. cbn [missing_keys contains]. rewrite Hreason, Hhas. reflexivity. }
  unfold Study.update_memory.
  destruct (build_conversation_spec (Study.messages st) w) as (refs & ext & Hbuild & Hv).
  erewrite bind_ok by exact Hbuild.
  set (w1 := mkWorld (heap w ++ ext) (calls w) (stdout w)) in *.
  assert (Hupd : forall notes, exists w',
            update_agent_notes E (Study.agent st) notes refs w1
              = (Ok (Some (PDict items)), w') /\
            length (calls w') = length (calls w) + k + 1).
  { intros notes.
    destruct (update_agent_notes_succeeds E (Study.agent st) notes refs w1 k
                Hv Hk Hfail Hvalid) as (raw' & msgs & w' & Hrun & Hraw & _ & Hlen & _).
    simpl in Hraw. rewrite Hllm in Hraw. injection Hraw as <-.
    rewrite Hrep in Hrun. exists w'. split; [exact Hrun | exact Hlen]. }
  assert (Htruthy : truthy (PDict items) = true)
    by (destruct items; [discriminate Hhas | reflexivity]).
  assert (Hrest : forall w',
            bind (lift (Study.result_has "agent_notes" (Some (PDict items))))
              (fun has : bool =>
                 if has
                 then bind (lift (getitem (PDict items) "agent_notes"))
                        (fun notes =>
                           ret (Study.mkSession (Study.messages st) notes
                                  (init E Study.MODEL_NAME PNone notes false false 10)))
                 else ret st) w'
            = (Ok (Study.mkSession (Study.messages st) v
                     (init E Study.MODEL_NAME PNone v false false 10)), w')).
  { intros w'. unfold Study.result_has. rewrite Htruthy. cbn [contains].
    rewrite Hhas. unfold bind, lift, ret. cbn [getitem]. rewrite Hnotes. reflexivity. }
  assert (Hprompt : system_prompt (init E Study.MODEL_NAME PNone v false false 10)
                    = (if truthy v
                       then reflective_agent_system_prompt E 2048 (py_str E v)
                       else agent_system_prompt E 2048))
    by (unfold init; simpl; destruct (truthy v); reflexivity).
  destruct (truthy (Study.session_agent_notes st)).
  - destruct (Hupd (Study.session_agent_notes st)) as (w' & Hrun & Hlen).
    exists w'. split; [| split; [exact Hlen | exact Hprompt]].
    erewrite bind_ok by exact Hrun. apply Hrest.
  - destruct (Hupd (PStr Study.initial_notes)) as (w' & Hrun & Hlen).
    exists w'. split; [| split; [exact Hlen | exact Hprompt]].
    erewrite bind_ok by exact Hrun. apply Hrest.
Qed.

Lemma consolidation_replaces_notes_witness :
  let E := Sample.externals
             (Sample.scripted [GenRaise (GatewayError "timeout")]
                (GenText (Sample.json_object Sample.notes_ok))) in
  let st := Study.mkSession [Sample.user_hello] (PStr "Prefers Python.")
              (Sample.notes_agent false false 10) in
  exists w',
    Study.update_memory E true st Sample.world
      = (Ok (Study.mkSession [Sample.user_hello] (PStr "User prefers camelCase naming.")
               (init E Study.MODEL_NAME PNone (PStr "User prefers camelCase naming.")
                  false false 10)), w') /\
    length (calls w') = 2 /\
    system_prompt (init E Study.MODEL_NAME PNone (PStr "User prefers camelCase naming.")
                     false false 10)
      = "You are an assistant. Notes: User prefers camelCase naming.".
Proof.
  apply (consolidation_replaces_notes
           (Sample.externals
              (Sample.scripted [GenRaise (GatewayError "timeout")]
                 (GenText (Sample.json_object Sample.notes_ok))))
           (Study.mkSession [Sample.user_hello] (PStr "Prefers Python.")
              (Sample.notes_agent false false 10))
           Sample.world 1 (Sample.json_object Sample.notes_ok)
           [("user_preferences_reasoning", PStr "likes camelCase");
            ("agent_notes", PStr "User prefers camelCase naming.")]
           (PStr "User prefers camelCase naming.")).
  - vm_compute. lia.
  - intros i msgs Hi. destruct i; [reflexivity | lia].
  - intros msgs. reflexivity.
  - reflexivity.
  - reflexivity.
  - reflexivity.
Defined.

Module Turn.

Lemma agent_turn_exhausts
    (E : Externals) (st : Study.Session) (w : World) :
  with_scaffolding (Study.agent st) = false ->
  fails_first E response_keys (length (calls w))
    (Z.to_nat (num_retries (Study.agent st))) ->
  exists w',
    Study.agent_turn E st w = (Ok (PStr Study.apology), w') /\
    length (calls w') = length (calls w) + Z.to_nat (num_retries (Study.agent st)).
Proof.
  intros Hs Hfail. unfold Study.agent_turn.
  destruct (build_conversation_spec (Study.messages st) w) as (refs & ext & Hbuild & Hv).
  erewrite bind_ok by exact Hbuild.
  set (w1 := mkWorld (heap w ++ ext) (calls w) (stdout w)) in *.
  destruct (generate_collaborator_response_exhausts E (Study.agent st) refs w1
              Hv (or_introl Hs) Hfail) as (w' & Hrun & Hlen & _).
  exists w'. split; [| exact Hlen].
  erewrite bind_ok by exact Hrun. reflexivity.
Qed.

Lemma agent_turn_succeeds
    (E : Externals) (st : Study.Session) (w : World) (k : nat) (raw : string)
    (items : list (string * PyValue)) (v : PyValue) :
  with_scaffolding (Study.agent st) = false ->
  k < Z.to_nat (num_retries (Study.agent st)) ->
  fails_first E response_keys (length (calls w)) k ->
  (forall msgs, llm_completion E (length (calls w) + k) msgs = GenText raw) ->
  repair_json E raw = PDict items ->
  dict_has "reasoning" items = true ->
  dict_get "response" items = Some v ->
  exists w',
    Study.agent_turn E st w = (Ok v, w') /\
    length (calls w') = length (calls w) + k + 1.
Proof.
  intros Hs Hk Hfail Hllm Hrep Hreason Hresp.
  pose proof (Caller.dict_get_has _ _ _ Hresp) as Hhas.
  assert (Hvalid : valid_at E response_keys (length (calls w) + k)).
  { intros msgs. rewrite Hllm. unfold yields_valid. rewrite Hrep.
    unfold response_keys. cbn [missing_keys contains]. rewrite Hreason, Hhas. reflexivity. }
  unfold Study.agent_turn.
  destruct (build_conversation_spec (Study.messages st) w) as (refs & ext & Hbuild & Hv).
  erewrite bind_ok by exact Hbuild.
  set (w1 := mkWorld (heap w ++ ext) (calls w) (stdout w)) in *.
  destruct (generate_collaborator_response_succeeds E (Study.agent st) refs w1 k
              Hv (or_introl Hs) Hk Hfail Hvalid)
    as (raw' & msgs & w' & Hrun & Hraw & _ & Hlen & _).
  simpl in Hraw. rewrite Hllm in Hraw. injection Hraw as <-. rewrite Hrep in Hrun.
  exists w'. split; [| exact Hlen].
  erewrite bind_ok by exact Hrun. unfold lift.
  rewrite (Caller.response_text_dict items v Hresp). reflexivity.
Qed.

End Turn.

(** X7. A turn whose attempts all fail validation ends with the apology.
    For an agent that does not scaffold, when [num_retries] outputs in a
    row fail validation, the caller's turn returns the fixed apology text
    after exactly [num_retries] generator calls; no exception reaches the
    page. *)
Theorem exhausted_turn_shows_apology
    (E : Externals) (st : Study.Session) (w : World) :
  with_scaffolding (Study.agent st) = false ->
  fails_first E response_keys (length (calls w))
    (Z.to_nat (num_retries (Study.agent st))) ->
  exists w',
    Study.agent_turn E st w = (Ok (PStr Study.apology), w') /\
    length (calls w') = length (calls w) + Z.to_nat (num_retries (Study.agent st)).
Proof.
  intros Hs Hfail.
  destruct (Turn.agent_turn_exhausts E st w Hs Hfail) as (w' & Hrun & Hlen).
  exists w'. split; [exact Hrun | exact Hlen].
Qed.

Lemma exhausted_turn_shows_apology_witness :
  exists w',
    Study.agent_turn
      (Sample.externals
         (Sample.always (GenText (Sample.json_object Sample.response_only))))
      (Study.mkSession [Sample.user_hello] (PStr EmptyString) (Sample.plain_agent 10))
      Sample.world
    = (Ok (PStr Study.apology), w') /\
    length (calls w') = 10.
Proof.
  apply (exhausted_turn_shows_apology
           (Sample.externals
              (Sample.always (GenText (Sample.json_object Sample.response_only))))
           (Study.mkSession [Sample.user_hello] (PStr EmptyString) (Sample.plain_agent 10))
           Sample.world).
  - reflexivity.
  - intros i msgs Hi. reflexivity.
Defined.

(** X8. A turn that succeeds shows the response field of the first valid
    record.  For an agent that does not scaffold, when the first [k]
    outputs fail validation, [k] below the budget, and the next one is
    repaired to a dict with the keys reasoning and response, the caller's
    turn returns the value of response after [k+1] generator calls; the
    reasoning does not reach the page. *)
Theorem successful_turn_shows_response
    (E : Externals) (st : Study.Session) (w : World) (k : nat) (raw : string)
    (items : list (string * PyValue)) (v : PyValue) :
  with_scaffolding (Study.agent st) = false ->
  k < Z.to_nat (num_retries (Study.agent st)) ->
  fails_first E response_keys (length (calls w)) k ->
  (forall msgs, llm_completion E (length (calls w) + k) msgs = GenText raw) ->
  repair_json E raw = PDict items ->
  dict_has "reasoning" items = true ->
  dict_get "response" items = Some v ->
  exists w',
    Study.agent_turn E st w = (Ok v, w') /\
    length (calls w') = length (calls w) + k + 1.
Proof.
  intros Hs Hk Hfail Hllm Hrep Hreason Hresp.
  destruct (Turn.agent_turn_succeeds E st w k raw items v
              Hs Hk Hfail Hllm Hrep Hreason Hresp) as (w' & Hrun & Hlen).
  exists w'. split; [exact Hrun | exact Hlen].
Qed.

Lemma successful_turn_shows_response_witness :
  exists w',
    Study.agent_turn
      (Sample.externals
         (Sample.scripted [GenText (Sample.json_object Sample.response_only)]
            (GenText (Sample.json_object Sample.response_ok))))
      (Study.mkSession [Sample.user_hello] (PStr EmptyString) (Sample.plain_agent 10))
      Sample.world
    = (Ok (PStr "hi"), w') /\
    length (calls w') = 2.
Proof.
  apply (successful_turn_shows_response
           (Sample.externals
              (Sample.scripted [GenText (Sample.json_object Sample.response_only)]
                 (GenText (Sample.json_object Sample.response_ok))))
           (Study.mkSession [Sample.user_hello] (PStr EmptyString) (Sample.plain_agent 10))
           Sample.world 1 (Sample.json_object Sample.response_ok)
           [("reasoning", PStr "r"); ("response", PStr "hi")] (PStr "hi")).
  - reflexivity.
  - vm_compute. lia.
  - intros i msgs Hi. destruct i; [reflexivity | lia].
  - intros msgs. reflexivity.
  - reflexivity.
  - reflexivity.
  - reflexivity.
Defined.

(** ** The study application keeps its books *)

Module AppFacts.

Import App.

Lemma init_session_store s uuid now : init_session (store s) uuid now = s.
Proof. destruct s; reflexivity. Qed.

(** Every condition of the table has a first problem. *)
Lemma config_has_problems key cfg :
  lookup_config key STUDY_CONDITIONS = Some cfg -> 0 < length (problems cfg).
Proof.
  unfold STUDY_CONDITIONS. cbn [lookup_config].
  repeat match goal with
         | |- context [String.eqb ?k key] => destruct (String.eqb k key)
         end;
    intros [= <-]; cbn [problems CODING_PROBLEMS MIXED_PROBLEMS length]; lia.
Qed.

Lemma lookup_config_key key cfg table :
  lookup_config key table = Some cfg -> In key (map fst table).
Proof.
  induction table as [| [k c] table IH]; simpl; [discriminate |].
  destruct (String.eqb_spec k key) as [-> | Hne]; auto.
Qed.

Lemma set_mem_false key set : set_mem key set = false -> ~ In key set.
Proof.
  unfold set_mem. intros H Hin.
  assert (existsb (String.eqb key) set = true); [| congruence].
  apply existsb_exists. exists key. split; [exact Hin | apply String.eqb_refl].
Qed.

Lemma set_add_new key set : set_mem key set = false -> set_add key set = set ++ [key].
Proof. unfold set_add. intros ->. reflexivity. Qed.

Lemma chained_snoc first l final r :
  chained first l final ->
  agent_notes_before r = final ->
  chained first (l ++ [r]) (agent_notes_after r).
Proof.
  revert first. induction l as [| x l IH]; simpl; intros first H Hr.
  - subst. auto.
  - destruct H as [H1 H2]. split; [exact H1 | apply IH; assumption].
Qed.

Lemma numbered_snoc l r :
  numbered l -> session_index r = length l -> numbered (l ++ [r]).
Proof.
  unfold numbered. intros Hl Hr.
  rewrite map_app, length_app, seq_app, Hl. simpl. rewrite Hr. reflexivity.
Qed.

Section WithExternals.

Context (E : Externals).

Lemma new_agent_default : default_agent (new_agent E).
Proof. repeat split. Qed.

Lemma rebuilt_agent_default v :
  default_agent (init E Study.MODEL_NAME PNone v false false 10).
Proof. repeat split. Qed.

(** The memory update of a memory condition ends in one of three ways:
    the session as it was, new notes with an agent built from them, or
    the TypeError of the subscript on a result that is not a dict. *)
Lemma update_memory_cases st w :
  exists w',
    Study.update_memory E true st w = (Ok st, w') \/
    (exists v,
       Study.update_memory E true st w
       = (Ok (Study.mkSession (Study.messages st) v
                (init E Study.MODEL_NAME PNone v false false 10)), w')) \/
    Study.update_memory E true st w = (Raise TypeError, w').
Proof.
  unfold Study.update_memory.
  destruct (build_conversation_spec (Study.messages st) w) as (refs & ext & Hbuild & Hv).
  erewrite bind_ok by exact Hbuild.
  set (w1 := mkWorld (heap w ++ ext) (calls w) (stdout w)) in *.
  assert (Hupd : forall notes, exists r w',
            update_agent_notes E (Study.agent st) notes refs w1 = (Ok r, w') /\
            match r with
            | Some processed => missing_keys notes_keys processed = Ok []
            | None => True
            end).
  { intros notes. unfold update_agent_notes.
    erewrite bind_ok by (apply Notes.get_conversation_string_transcript; exact Hv).
    destruct (Notes.notes_loop_total E (Z.to_nat (num_retries (Study.agent st)))
                (update_agent_notes_prompt E (py_str E notes)
                   (transcript (heap w1) refs)) w1)
      as (r & w' & j & Hrun & _ & _ & _ & Hr).
    exists r, w'. split; [exact Hrun |]. destruct r; [apply Hr | exact I]. }
  assert (Hrest : forall r w',
            match r with
            | Some processed => missing_keys notes_keys processed = Ok []
            | None => True
            end ->
            let k := (fun has : bool =>
                 if has
                 then bind (lift (match r with
                                  | Some r0 => getitem r0 "agent_notes"
                                  | None => Raise TypeError
                                  end))
                        (fun notes =>
                           ret (Study.mkSession (Study.messages st) notes
                                  (init E Study.MODEL_NAME PNone notes false false 10)))
                 else ret st) in
            bind (lift (Study.result_has "agent_notes" r)) k w' = (Ok st, w') \/
            (exists v,
               bind (lift (Study.result_has "agent_notes" r)) k w'
               = (Ok (Study.mkSession (Study.messages st) v
                        (init E Study.MODEL_NAME PNone v false false 10)), w')) \/
            bind (lift (Study.result_has "agent_notes" r)) k w' = (Raise TypeError, w')).
  { intros r w' Hr. cbv zeta. destruct r as [processed |]; [| left; reflexivity].
    destruct (missing_keys_two _ _ _ Hr) as [_ Hc].
    unfold Study.result_has. destruct (truthy processed); [| left; reflexivity].
    rewrite Hc. unfold bind at 1. unfold lift at 1.
    destruct processed as [| | | | s | l | items]; try discriminate Hc;
      try (right; right; reflexivity).
    cbn [contains] in Hc. injection Hc as Hhas.
    destruct (dict_has_get _ _ Hhas) as [v Hget].
    right; left. exists v. unfold bind, lift, ret. cbn [getitem]. rewrite Hget.
    reflexivity. }
  destruct (truthy (Study.session_agent_notes st)).
  - destruct (Hupd (Study.session_agent_notes st)) as (r & w' & Hrun & Hr).
    exists w'. erewrite bind_ok by exact Hrun. apply (Hrest r w' Hr).
  - destruct (Hupd (PStr Study.initial_notes)) as (r & w' & Hrun & Hr).
    exists w'. erewrite bind_ok by exact Hrun. apply (Hrest r w' Hr).
Qed.

Ltac state_simpl :=
  cbn [page selected_study current_problem_index messages App.agent_notes
       completed_studies all_study_data agent study_start_time
       current_study_sessions set_page set_messages sessions_of studies
       participant_id overall_start_time] in *.

Lemma invariant_initial uuid now : invariant E (init_session no_state uuid now).
Proof.
  unfold invariant, init_session, no_state, idle, sessions_of, numbered. simpl.
  repeat split; try constructor; auto; discriminate.
Qed.

(** Changing the page alone keeps everything that does not speak of the
    page. *)
Lemma invariant_set_page s p :
  invariant E s ->
  match p with
  | Intro | StudySelect => idle s
  | FinalDownload =>
      idle s /\ length (completed_studies s) = length STUDY_CONDITIONS
  | StudyIntro => idle s /\ exists key cfg, active s key cfg
  | StudyPage | Survey =>
      exists key cfg,
        active s key cfg /\
        current_problem_index s < length (problems cfg) /\
        agent_fits E s cfg /\
        (uses_memory cfg = false -> Forall without_notes (sessions_of s))
  end ->
  invariant E (set_page s p).
Proof.
  intros (H1 & H2 & H3 & H4 & H5 & H6 & H7 & _) Hp.
  unfold invariant. state_simpl.
  repeat (split; [assumption |]). exact Hp.
Qed.

Lemma show_intro_page_invariant s ev :
  invariant E s -> page s = Intro -> invariant E (show_intro_page s ev).
Proof.
  intros Hinv Hpage. unfold show_intro_page.
  destruct ev as [| [|] | | | | | | | | |]; try exact Hinv.
  apply invariant_set_page; [exact Hinv |].
  destruct Hinv as (_ & _ & _ & _ & _ & _ & _ & Hp). rewrite Hpage in Hp. exact Hp.
Qed.

Lemma show_study_selector_invariant s ev :
  invariant E s -> page s = StudySelect -> invariant E (show_study_selector s ev).
Proof.
  intros Hinv Hpage. unfold show_study_selector.
  pose proof Hinv as (H1 & H2 & H3 & H4 & H5 & H6 & H7 & Hp). rewrite Hpage in Hp.
  destruct (Nat.eqb_spec (length (completed_studies s)) (length STUDY_CONDITIONS))
    as [Hall | Hnot].
  - destruct ev; try exact Hinv.
    apply invariant_set_page; [exact Hinv | split; assumption].
  - destruct ev as [| | | key now | | | | | | |]; try exact Hinv.
    destruct (lookup_config key STUDY_CONDITIONS) as [cfg |] eqn:Hcfg; [| exact Hinv].
    destruct (set_mem key (completed_studies s)) eqn:Hmem; [exact Hinv |].
    unfold invariant. state_simpl. unfold idle, active in *. state_simpl.
    repeat (split; [assumption |]).
    exists key, cfg. auto.
Qed.

Lemma current_config_active s key cfg :
  active s key cfg -> current_config s = Ok cfg.
Proof. intros (Hsel & Hcfg & _). unfold current_config. rewrite Hsel, Hcfg. reflexivity. Qed.

Lemma show_study_intro_page_invariant s ev :
  invariant E s -> page s = StudyIntro ->
  invariant E (show_study_intro_page E s ev).1.
Proof.
  intros Hinv Hpage. unfold show_study_intro_page.
  pose proof Hinv as (H1 & H2 & H3 & H4 & H5 & H6 & H7 & Hp). rewrite Hpage in Hp.
  destruct Hp as (Hidle & key & cfg & Hact).
  rewrite (current_config_active s key cfg Hact).
  destruct ev; try exact Hinv.
  - apply invariant_set_page; [exact Hinv | exact Hidle].
  - simpl. unfold invariant. state_simpl.
    pose proof Hidle as (Hi0 & Hi1 & Hi2 & Hi3).
    repeat (split; [assumption |]).
    split; [intros a [= <-]; apply new_agent_default |].
    exists key, cfg. split; [exact Hact |].
    split; [rewrite Hi0; destruct Hact as (_ & Hcfg & _);
            exact (config_has_problems key cfg Hcfg) |].
    split.
    + exists (new_agent E). state_simpl. split; [reflexivity |].
      split; [rewrite Hi3; reflexivity | intros _; split; [exact Hi3 | reflexivity]].
    + intros _. unfold sessions_of in Hi1 |- *. state_simpl. rewrite Hi1. constructor.
Qed.

Lemma invariant_set_messages s ms :
  invariant E s -> page s = StudyPage -> invariant E (set_messages s ms).
Proof.
  intros (H1 & H2 & H3 & H4 & H5 & H6 & H7 & Hp) Hpage.
  unfold invariant. state_simpl. rewrite Hpage in *.
  repeat (split; [assumption |]).
  destruct Hp as (key & cfg & Hact & Hidx & Hfit & Hstd).
  exists key, cfg. auto.
Qed.

Lemma active_unique s key cfg key' cfg' :
  active s key cfg -> active s key' cfg' -> key = key' /\ cfg = cfg'.
Proof.
  intros (Hs & Hc & _) (Hs' & Hc' & _).
  assert (key = key') by congruence. subst. split; congruence.
Qed.

Lemma show_study_interface_invariant s ev w :
  invariant E s -> page s = StudyPage ->
  invariant E (show_study_interface E s ev w).1.1.
Proof.
  intros Hinv Hpage. unfold show_study_interface.
  pose proof Hinv as (_ & _ & _ & _ & _ & _ & _ & Hp). rewrite Hpage in Hp.
  destruct Hp as (key & cfg & Hact & Hidx & Hfit & Hstd).
  rewrite (current_config_active s key cfg Hact).
  assert (Hsurvey : invariant E (set_page s Survey)).
  { apply invariant_set_page; [exact Hinv |]. exists key, cfg. auto. }
  destruct (Nat.leb (length (problems cfg)) (current_problem_index s)); [exact Hsurvey |].
  destruct ev as [| | | | | | | prompt t1 t2 | | |]; try exact Hinv; [exact Hsurvey |].
  destruct (String.eqb prompt EmptyString); [exact Hinv |].
  unfold chat. state_simpl.
  set (s1 := set_messages s _).
  assert (Hs1 : invariant E s1) by (apply invariant_set_messages; assumption).
  destruct (agent s); [| exact Hs1].
  destruct (Study.agent_turn E (session_view E s1 c) w) as [[text | e] w'];
    [| exact Hs1].
  apply invariant_set_messages; [exact Hs1 | exact Hpage].
Qed.

Lemma record_session_invariant s key cfg p notes a answers t1 t2 t3 :
  invariant E s -> page s = Survey -> active s key cfg ->
  (forall a0, a = Some a0 -> default_agent a0) ->
  (exists a0, a = Some a0 /\
     system_prompt a0
     = system_prompt (init E Study.MODEL_NAME PNone notes false false 10)) ->
  (uses_memory cfg = false -> notes = App.agent_notes s /\ a = agent s) ->
  invariant E (record_session s key cfg p notes a answers t1 t2 t3).
Proof.
  intros (H1 & H2 & H3 & H4 & H5 & H6 & H7 & Hp) Hpage Hact Hdef Hprompt Hsame.
  rewrite Hpage in Hp. destruct Hp as (key' & cfg' & Hact' & Hidx & Hfit & Hstd).
  destruct (active_unique s key cfg key' cfg' Hact Hact') as [<- <-].
  pose proof Hact as (Hsel & Hcfg & Hmem).
  set (rec := mkSessionRecord (current_problem_index s) (problem_id p) (problem_title p)
                (messages s) (App.agent_notes s) notes (survey_responses_of answers) t1).
  assert (Hnum : numbered (sessions_of s ++ [rec]))
    by (apply numbered_snoc; [exact H2 | symmetry; exact H1]).
  assert (Hchain : chained (PStr EmptyString) (sessions_of s ++ [rec]) notes)
    by (apply (chained_snoc _ _ _ rec H3); reflexivity).
  assert (Hlen : length (sessions_of s ++ [rec]) = current_problem_index s + 1)
    by (rewrite length_app; simpl; lia).
  assert (Hwithout : uses_memory cfg = false ->
                     Forall without_notes (sessions_of s ++ [rec])).
  { intros Hno. apply Forall_app. split; [exact (Hstd Hno) |].
    constructor; [| constructor].
    destruct Hfit as (a0 & _ & _ & Hfit). destruct (Hfit Hno) as [Hempty _].
    destruct (Hsame Hno) as [-> _]. split; simpl; exact Hempty. }
  unfold record_session. cbv zeta. fold (sessions_of s). fold rec.
  destruct (Nat.leb_spec (length (problems cfg)) (current_problem_index s + 1))
    as [Hdone | Hmore].
  - unfold invariant. state_simpl. unfold sessions_of at 1 2 3. state_simpl.
    change (match current_study_sessions s with Some l => l | None => [] end)
      with (sessions_of s) in *.
    split; [reflexivity |]. split; [reflexivity |]. split; [reflexivity |].
    split; [rewrite map_app, H4, (set_add_new _ _ Hmem); reflexivity |].
    split.
    { rewrite (set_add_new _ _ Hmem). apply NoDup_app. split; [exact H5 |].
      split; [| apply NoDup_singleton].
      intros x Hx Hx'. apply list_elem_of_singleton in Hx'. subst x.
      apply (set_mem_false _ _ Hmem). apply list_elem_of_In. exact Hx. }
    split.
    { apply Forall_app. split; [exact H6 |]. constructor; [| constructor].
      exists cfg, notes. simpl. repeat split; auto. lia. }
    split; [exact Hdef |].
    unfold idle, sessions_of. state_simpl. auto.
  - unfold invariant. state_simpl. unfold sessions_of at 1 2 3. state_simpl.
    change (match current_study_sessions s with Some l => l | None => [] end)
      with (sessions_of s) in *.
    split; [exact Hlen |]. split; [exact Hnum |]. split; [exact Hchain |].
    repeat (split; [assumption |]).
    exists key, cfg. split; [split; [reflexivity | split; assumption] |].
    split; [lia |]. split.
    + destruct Hprompt as (a0 & -> & Hsp). exists a0. state_simpl.
      split; [reflexivity |]. split; [exact Hsp |].
      intros Hno. destruct (Hsame Hno) as [Hn Ha].
      destruct Hfit as (a1 & Ha1 & _ & Hfit). destruct (Hfit Hno) as [Hempty Hnew].
      split; [rewrite Hn; exact Hempty |].
      rewrite Ha1 in Ha. injection Ha as ->. exact Hnew.
    + unfold sessions_of. state_simpl. exact Hwithout.
Qed.

(** A submitted survey either records the session or, in a memory
    condition, stops at the TypeError of the notes subscript with the
    state as it was; a condition without memory calls no generator. *)
Lemma show_survey_interface_invariant s ev w :
  invariant E s -> page s = Survey ->
  invariant E (show_survey_interface E s ev w).1.1 /\
  ((show_survey_interface E s ev w).1.2 = None \/
   ((show_survey_interface E s ev w).1.2 = Some (PyExn TypeError) /\
    (show_survey_interface E s ev w).1.1 = s /\
    exists key cfg, active s key cfg /\ uses_memory cfg = true)) /\
  (forall key cfg, active s key cfg -> uses_memory cfg = false ->
   (show_survey_interface E s ev w).2 = w).
Proof.
  intros Hinv Hpage. unfold show_survey_interface.
  pose proof Hinv as (_ & _ & _ & _ & _ & _ & H7 & Hp). rewrite Hpage in Hp.
  destruct Hp as (key & cfg & Hact & Hidx & Hfit & Hstd).
  destruct ev as [| | | | | | | | answers t1 t2 t3 | |];
    try (split; [exact Hinv | split; [left; reflexivity | reflexivity]]).
  pose proof Hact as (Hsel & Hcfg & Hmem).
  rewrite Hsel, (current_config_active s key cfg Hact).
  destruct (lookup_lt_is_Some_2 _ _ Hidx) as [p Hprob]. rewrite Hprob.
  pose proof Hfit as (a & Ha & Hsp & Hno).
  destruct (uses_memory cfg) eqn:Hmemory.
  - rewrite Ha.
    destruct (update_memory_cases (session_view E s a) w) as [w' [Hrun | [[v Hrun] | Hrun]]];
      rewrite Hrun; cbn [fst snd].
    + split; [| split; [left; reflexivity |]].
      * apply record_session_invariant;
          [exact Hinv | exact Hpage | exact Hact | | | rewrite Hmemory; discriminate].
        -- intros a0 [= <-]. apply H7. exact Ha.
        -- exists a. split; [reflexivity | exact Hsp].
      * intros key' cfg' Hact' Hfalse.
        destruct (active_unique s key cfg key' cfg' Hact Hact') as [_ <-]. congruence.
    + split; [| split; [left; reflexivity |]].
      * apply record_session_invariant;
          [exact Hinv | exact Hpage | exact Hact | | | rewrite Hmemory; discriminate].
        -- intros a0 [= <-]. apply rebuilt_agent_default.
        -- eexists. split; reflexivity.
      * intros key' cfg' Hact' Hfalse.
        destruct (active_unique s key cfg key' cfg' Hact Hact') as [_ <-]. congruence.
    + split; [exact Hinv |]. split.
      * right. split; [reflexivity |]. split; [reflexivity |]. exists key, cfg. auto.
      * intros key' cfg' Hact' Hfalse.
        destruct (active_unique s key cfg key' cfg' Hact Hact') as [_ <-]. congruence.
  - cbn [fst snd]. split; [| split; [left; reflexivity | reflexivity]].
    apply record_session_invariant;
      [exact Hinv | exact Hpage | exact Hact | | | rewrite Hmemory; auto].
    + intros a0 Ha0. apply H7. exact Ha0.
    + exists a. split; [exact Ha | exact Hsp].
Qed.

Lemma main_invariant raw uuid now ev w :
  raw_invariant E raw -> raw_invariant E (main E raw uuid now ev w).1.1.
Proof.
  intros Hraw.
  assert (Hinv : invariant E (init_session raw uuid now)).
  { destruct Hraw as [-> | (s & -> & Hs)]; [apply invariant_initial |].
    rewrite init_session_store. exact Hs. }
  unfold main. set (s := init_session raw uuid now) in *.
  destruct (page s) eqn:Hpage; cbn [fst snd].
  - right. eexists. split; [reflexivity |]. apply show_intro_page_invariant; assumption.
  - right. eexists. split; [reflexivity |].
    apply show_study_selector_invariant; assumption.
  - right. eexists. split; [reflexivity |].
    apply show_study_intro_page_invariant; assumption.
  - right. eexists. split; [reflexivity |].
    apply show_study_interface_invariant; assumption.
  - right. eexists. split; [reflexivity |].
    apply show_survey_interface_invariant; assumption.
  - destruct ev; try (right; exists s; split; [reflexivity | exact Hinv]).
    left. reflexivity.
Qed.

Lemma session_invariant actions : forall raw w,
  raw_invariant E raw -> raw_invariant E (session E raw w actions).1.
Proof.
  induction actions as [| [[uuid now] ev] actions IH]; intros raw w Hraw; [exact Hraw |].
  cbn [session]. apply IH. apply main_invariant. exact Hraw.
Qed.

(** Whatever the user does and whatever the generator answers, the state
    the next run starts from satisfies the invariant. *)
Lemma state_after_invariant w actions uuid now :
  invariant E (state_after E w actions uuid now).
Proof.
  unfold state_after.
  destruct (session_invariant actions no_state w (or_introl eq_refl))
    as [-> | (s & -> & Hs)]; [apply invariant_initial |].
  rewrite init_session_store. exact Hs.
Qed.

End WithExternals.

End AppFacts.

(** ** Properties of the study application *)

Import App.

(** X9. The books of recorded studies.  After any sequence of user
    actions, whatever the generator answered: the recorded studies are
    the completed ones, in the order of completion and each condition at
    most once; every recorded study is a condition of the table, has
    exactly one session record per problem of that condition, numbered
    0, 1, 2, ... in order, and carries the condition's name, preferences
    and memory flag. *)
Theorem recorded_studies_are_complete
    (E : Externals) (w : World) (actions : list (string * string * Event))
    (uuid now : string) :
  let s := state_after E w actions uuid now in
  map study_condition (studies (all_study_data s)) = completed_studies s /\
  NoDup (map study_condition (studies (all_study_data s))) /\
  Forall (fun r =>
            exists cfg,
              lookup_config (study_condition r) STUDY_CONDITIONS = Some cfg /\
              length (sessions r) = length (problems cfg) /\
              map session_index (sessions r) = seq 0 (length (problems cfg)) /\
              record_study_name r = study_name cfg /\
              assigned_preferences r = preferences cfg /\
              record_uses_memory r = uses_memory cfg)
         (studies (all_study_data s)).
Proof.
  cbv zeta.
  destruct (AppFacts.state_after_invariant E w actions uuid now)
    as (_ & _ & _ & Hmap & Hnd & Hst & _).
  split; [exact Hmap |]. split; [rewrite Hmap; exact Hnd |].
  eapply Forall_impl; [exact Hst |].
  intros r (cfg & final & H1 & H2 & H3 & H4 & H5 & H6 & _).
  exists cfg. unfold numbered in H3. rewrite H2 in H3. auto 10.
Qed.

(** X10. How the notes move through the records.  In every recorded
    study the first session starts from empty notes and every later
    session starts from the notes the session before ended with; in a
    study without memory every record shows empty notes before and
    after. *)
Theorem recorded_notes_are_chained
    (E : Externals) (w : World) (actions : list (string * string * Event))
    (uuid now : string) :
  Forall (fun r =>
            (exists final, chained (PStr EmptyString) (sessions r) final) /\
            (record_uses_memory r = false -> Forall without_notes (sessions r)))
         (studies (all_study_data (state_after E w actions uuid now))).
Proof.
  destruct (AppFacts.state_after_invariant E w actions uuid now)
    as (_ & _ & _ & _ & _ & Hst & _).
  eapply Forall_impl; [exact Hst |].
  intros r (cfg & final & _ & _ & _ & H4 & _ & _ & H7 & H8).
  split; [exists final; exact H7 |]. intros Hno. apply H8. congruence.
Qed.

(** X11. The download page is reached only when everything is recorded:
    on that page there is one recorded study for every condition of the
    table, and no study is under way. *)
Theorem download_page_has_every_study
    (E : Externals) (w : World) (actions : list (string * string * Event))
    (uuid now : string) :
  let s := state_after E w actions uuid now in
  page s = FinalDownload ->
  length (studies (all_study_data s)) = length STUDY_CONDITIONS /\
  (forall key, In key (map fst STUDY_CONDITIONS) ->
               In key (map study_condition (studies (all_study_data s)))) /\
  idle s.
Proof.
  cbv zeta. intros Hpage.
  destruct (AppFacts.state_after_invariant E w actions uuid now)
    as (_ & _ & _ & Hmap & Hnd & Hst & _ & Hp).
  rewrite Hpage in Hp. destruct Hp as [Hidle Hall].
  set (s := state_after E w actions uuid now) in *.
  assert (Hlen : length (map study_condition (studies (all_study_data s)))
                 = length STUDY_CONDITIONS) by (rewrite Hmap; exact Hall).
  split; [rewrite length_map in Hlen; exact Hlen |]. split; [| exact Hidle].
  apply NoDup_length_incl.
  - rewrite Hmap. apply NoDup_ListNoDup. exact Hnd.
  - rewrite Hlen, length_map. reflexivity.
  - intros key Hkey. apply in_map_iff in Hkey. destruct Hkey as (r & <- & Hr).
    rewrite Forall_forall in Hst. apply list_elem_of_In in Hr.
    destruct (Hst r Hr) as (cfg & final & Hcfg & _).
    exact (AppFacts.lookup_config_key _ _ _ Hcfg).
Qed.

Lemma download_page_has_every_study_witness :
  let s := state_after (Sample.externals SampleApp.helpful) Sample.world
             SampleApp.whole_study "participant-2" "2025-01-01 12:00:00" in
  length (studies (all_study_data s)) = 4 /\
  (forall key, In key (map fst STUDY_CONDITIONS) ->
               In key (map study_condition (studies (all_study_data s)))) /\
  idle s.
Proof.
  apply (download_page_has_every_study (Sample.externals SampleApp.helpful)
           Sample.world SampleApp.whole_study "participant-2" "2025-01-01 12:00:00").
  vm_compute. reflexivity.
Defined.

(** X12. A study under way has what its pages need.  After any sequence
    of user actions, on the study page and on the survey page a study of
    the table is selected, the problem index points at one of its
    problems (the redirect of the study page for an index past the last
    problem is never taken) and the agent is there.  Submitting the
    survey therefore never fails for a missing study, problem or agent:
    it ends without an exception, or with the TypeError of the notes
    subscript, and then the session state is as before. *)
Theorem study_pages_have_what_they_need
    (E : Externals) (w : World) (actions : list (string * string * Event))
    (uuid now : string) :
  let s := state_after E w actions uuid now in
  page s = StudyPage \/ page s = Survey ->
  (exists key cfg p a,
     selected_study s = Some key /\
     current_config s = Ok cfg /\
     problems cfg !! current_problem_index s = Some p /\
     agent s = Some a) /\
  (page s = Survey ->
   forall ev w1,
     (show_survey_interface E s ev w1).1.2 = None \/
     ((show_survey_interface E s ev w1).1.2 = Some (PyExn TypeError) /\
      (show_survey_interface E s ev w1).1.1 = s)).
Proof.
  cbv zeta. intros Hpage.
  pose proof (AppFacts.state_after_invariant E w actions uuid now) as Hinv.
  set (s := state_after E w actions uuid now) in *.
  pose proof Hinv as (_ & _ & _ & _ & _ & _ & _ & Hp).
  assert (Hp' : exists key cfg,
             active s key cfg /\ current_problem_index s < length (problems cfg) /\
             agent_fits E s cfg /\
             (uses_memory cfg = false -> Forall without_notes (sessions_of s)))
    by (destruct Hpage as [H | H]; rewrite H in Hp; exact Hp).
  destruct Hp' as (key & cfg & Hact & Hidx & (a & Ha & _) & _).
  split.
  - destruct (lookup_lt_is_Some_2 _ _ Hidx) as [p Hprob].
    exists key, cfg, p, a.
    split; [destruct Hact as (Hsel & _); exact Hsel |].
    split; [exact (AppFacts.current_config_active s key cfg Hact) |].
    split; [exact Hprob | exact Ha].
  - intros Hsurvey ev w1.
    destruct (AppFacts.show_survey_interface_invariant E s ev w1 Hinv Hsurvey)
      as (_ & [Hnone | (Hexn & Hsame & _)] & _); [left; exact Hnone | right; auto].
Qed.

Lemma study_pages_have_what_they_need_witness :
  let E := Sample.externals SampleApp.helpful in
  let s := state_after E Sample.world SampleApp.to_first_survey
             "participant-2" "2025-01-01 12:00:00" in
  (exists key cfg p a,
     selected_study s = Some key /\
     current_config s = Ok cfg /\
     problems cfg !! current_problem_index s = Some p /\
     agent s = Some a) /\
  (page s = Survey ->
   forall ev w1,
     (show_survey_interface E s ev w1).1.2 = None \/
     ((show_survey_interface E s ev w1).1.2 = Some (PyExn TypeError) /\
      (show_survey_interface E s ev w1).1.1 = s)).
Proof.
  apply (study_pages_have_what_they_need (Sample.externals SampleApp.helpful)
           Sample.world SampleApp.to_first_survey "participant-2" "2025-01-01 12:00:00").
  right. vm_compute. reflexivity.
Defined.

(** X13. The agent of the application.  After any sequence of user
    actions, an agent in the session state has the default settings: no
    scaffolding of either kind, ten retries, the model of the module, and
    no user preferences (the assigned preferences are never handed to
    it).  While a study is under way the agent is there and its system
    prompt is the one the stored notes give: the reflective prompt with
    these notes when they are truthy, the plain prompt otherwise. *)
Theorem application_agent_is_default_and_current
    (E : Externals) (w : World) (actions : list (string * string * Event))
    (uuid now : string) :
  let s := state_after E w actions uuid now in
  (forall a, agent s = Some a -> default_agent a) /\
  (page s = StudyPage \/ page s = Survey ->
   exists a,
     agent s = Some a /\
     system_prompt a
     = (if truthy (App.agent_notes s)
        then reflective_agent_system_prompt E 2048 (py_str E (App.agent_notes s))
        else agent_system_prompt E 2048)).
Proof.
  cbv zeta.
  pose proof (AppFacts.state_after_invariant E w actions uuid now) as Hinv.
  set (s := state_after E w actions uuid now) in *.
  destruct Hinv as (_ & _ & _ & _ & _ & _ & H7 & Hp).
  split; [exact H7 |]. intros Hpage.
  assert (Hp' : exists key cfg,
             active s key cfg /\ current_problem_index s < length (problems cfg) /\
             agent_fits E s cfg /\
             (uses_memory cfg = false -> Forall without_notes (sessions_of s)))
    by (destruct Hpage as [H | H]; rewrite H in Hp; exact Hp).
  destruct Hp' as (key & cfg & _ & _ & (a & Ha & Hsp & _) & _).
  exists a. split; [exact Ha |]. rewrite Hsp. unfold init. simpl.
  destruct (truthy (App.agent_notes s)); reflexivity.
Qed.

Lemma application_agent_is_default_and_current_witness :
  let E := Sample.externals SampleApp.helpful in
  let s := state_after E Sample.world
             (SampleApp.to_first_survey
              ++ [SampleApp.act (SubmitSurvey SampleApp.answers "10:05" "10:05" "10:06")])
             "participant-2" "2025-01-01 12:00:00" in
  (exists a, agent s = Some a /\ default_agent a) /\
  (exists a,
     agent s = Some a /\
     system_prompt a = "You are an assistant. Notes: User prefers camelCase naming.").
Proof.
  pose proof (application_agent_is_default_and_current
                (Sample.externals SampleApp.helpful) Sample.world
                (SampleApp.to_first_survey
                 ++ [SampleApp.act
                       (SubmitSurvey SampleApp.answers "10:05" "10:05" "10:06")])
                "participant-2" "2025-01-01 12:00:00") as [H1 H2].
  split.
  - eexists. split; [| apply H1]; vm_compute; reflexivity.
  - apply H2. left. vm_compute. reflexivity.
Defined.

(** X14. A condition without memory keeps none.  After any sequence of
    user actions, while a study whose condition has [uses_memory] false
    is under way, the stored notes are empty and the agent is still the
    one the study began with; submitting the survey calls no generator
    and prints nothing: it leaves the world as it was. *)
Theorem standard_condition_keeps_no_memory
    (E : Externals) (w : World) (actions : list (string * string * Event))
    (uuid now : string) (key : string) (cfg : StudyConfig) :
  let s := state_after E w actions uuid now in
  page s = StudyPage \/ page s = Survey ->
  selected_study s = Some key ->
  lookup_config key STUDY_CONDITIONS = Some cfg ->
  uses_memory cfg = false ->
  App.agent_notes s = PStr EmptyString /\
  agent s = Some (new_agent E) /\
  Forall without_notes (sessions_of s) /\
  (page s = Survey -> forall ev w1, (show_survey_interface E s ev w1).2 = w1).
Proof.
  cbv zeta. intros Hpage Hsel Hcfg Hno.
  pose proof (AppFacts.state_after_invariant E w actions uuid now) as Hinv.
  set (s := state_after E w actions uuid now) in *.
  pose proof Hinv as (_ & _ & _ & _ & _ & _ & _ & Hp).
  assert (Hp' : exists key cfg,
             active s key cfg /\ current_problem_index s < length (problems cfg) /\
             agent_fits E s cfg /\
             (uses_memory cfg = false -> Forall without_notes (sessions_of s)))
    by (destruct Hpage as [H | H]; rewrite H in Hp; exact Hp).
  destruct Hp' as (key' & cfg' & Hact & _ & (a & Ha & _ & Hfit) & Hstd).
  pose proof Hact as (Hsel' & Hcfg' & _).
  assert (key' = key) by congruence. subst key'.
  assert (cfg' = cfg) by congruence. subst cfg'.
  destruct (Hfit Hno) as [Hempty ->].
  split; [exact Hempty |]. split; [exact Ha |]. split; [exact (Hstd Hno) |].
  intros Hsurvey ev w1.
  destruct (AppFacts.show_survey_interface_invariant E s ev w1 Hinv Hsurvey)
    as (_ & _ & Hworld).
  exact (Hworld key cfg Hact Hno).
Qed.

Lemma standard_condition_keeps_no_memory_witness :
  let E := Sample.externals SampleApp.helpful in
  let s := state_after E Sample.world SampleApp.to_second_survey_standard
             "participant-2" "2025-01-01 12:00:00" in
  App.agent_notes s = PStr EmptyString /\
  agent s = Some (new_agent E) /\
  Forall without_notes (sessions_of s) /\
  (page s = Survey -> forall ev w1, (show_survey_interface E s ev w1).2 = w1).
Proof.
  apply (standard_condition_keeps_no_memory (Sample.externals SampleApp.helpful)
           Sample.world SampleApp.to_second_survey_standard
           "participant-2" "2025-01-01 12:00:00" "coding_standard_agent"
           (mkStudyConfig "Coding Study - Version A"
              "You will be solving debugging, implementation, and object-oriented design problems."
              false CODING_PREFERENCES CODING_PROBLEMS)).
  - right. vm_compute. reflexivity.
  - vm_compute. reflexivity.
  - reflexivity.
  - reflexivity.
Defined.

(** X15. Nothing is carried from one study to the next.  After any
    sequence of user actions, on every page but the study page and the
    survey page the problem index is 0, no session record is pending, the
    chat is empty and the notes are empty; and Begin Study on the study's
    introduction page gives the study page with a new agent that has no
    notes, whatever agent an earlier study left. *)
Theorem nothing_is_carried_between_studies
    (E : Externals) (w : World) (actions : list (string * string * Event))
    (uuid now : string) :
  let s := state_after E w actions uuid now in
  (page s <> StudyPage -> page s <> Survey -> idle s) /\
  (page s = StudyIntro ->
   (show_study_intro_page E s BeginStudy).2 = None /\
   let s' := (show_study_intro_page E s BeginStudy).1 in
   page s' = StudyPage /\
   agent s' = Some (new_agent E) /\
   App.agent_notes s' = PStr EmptyString /\
   messages s' = [] /\
   current_problem_index s' = 0).
Proof.
  cbv zeta.
  pose proof (AppFacts.state_after_invariant E w actions uuid now) as Hinv.
  set (s := state_after E w actions uuid now) in *. clearbody s.
  destruct Hinv as (_ & _ & _ & _ & _ & _ & _ & Hp).
  split.
  - intros H1 H2. destruct (page s); try congruence; try exact Hp; apply Hp.
  - intros Hpage. rewrite Hpage in Hp.
    destruct Hp as ((Hi0 & _ & Hi2 & Hi3) & key & cfg & Hact).
    unfold show_study_intro_page.
    rewrite (AppFacts.current_config_active s key cfg Hact). simpl. auto 10.
Qed.

Lemma nothing_is_carried_between_studies_witness :
  let E := Sample.externals SampleApp.helpful in
  let s := state_after E Sample.world SampleApp.to_second_study
             "participant-2" "2025-01-01 12:00:00" in
  idle s /\
  (exists a, agent s = Some a /\ a <> new_agent E) /\
  (show_study_intro_page E s BeginStudy).2 = None /\
  let s' := (show_study_intro_page E s BeginStudy).1 in
  page s' = StudyPage /\
  agent s' = Some (new_agent E) /\
  App.agent_notes s' = PStr EmptyString /\
  messages s' = [] /\
  current_problem_index s' = 0.
Proof.
  pose proof (nothing_is_carried_between_studies
                (Sample.externals SampleApp.helpful) Sample.world
                SampleApp.to_second_study "participant-2" "2025-01-01 12:00:00")
    as [H1 H2].
  split; [apply H1; vm_compute; discriminate |].
  split; [| apply H2; vm_compute; reflexivity].
  eexists. split; [vm_compute; reflexivity |]. vm_compute. discriminate.
Defined.

(** X16. What a chat turn leaves in the chat.  After any sequence of user
    actions, on the study page a non-empty prompt is answered without an
    exception in these two cases, and the chat grows by the user's entry
    followed by the assistant's.  When ten outputs in a row fail
    validation, the assistant's entry is the apology, after exactly ten
    generator calls.  When the first [k] outputs fail validation, [k]
    below ten, and the next is repaired to a dict with the keys reasoning
    and response, the assistant's entry is the value of response, after
    [k+1] calls. *)
Theorem chat_turn_is_recorded
    (E : Externals) (w : World) (actions : list (string * string * Event))
    (uuid now : string) (prompt now_user now_assistant : string) (w1 : World) :
  let s := state_after E w actions uuid now in
  let r := show_study_interface E s (ChatInput prompt now_user now_assistant) w1 in
  let grown text :=
    set_messages s
      (messages s ++ [mkChatEntry "user" (PStr prompt) now_user;
                      mkChatEntry "assistant" text now_assistant]) in
  page s = StudyPage ->
  prompt <> EmptyString ->
  (fails_first E response_keys (length (calls w1)) 10 ->
   r.1 = (grown (PStr Study.apology), None) /\
   length (calls r.2) = length (calls w1) + 10)
  /\
  (forall k raw items v,
     k < 10 ->
     fails_first E response_keys (length (calls w1)) k ->
     (forall msgs, llm_completion E (length (calls w1) + k) msgs = GenText raw) ->
     repair_json E raw = PDict items ->
     dict_has "reasoning" items = true ->
     dict_get "response" items = Some v ->
     r.1 = (grown v, None) /\
     length (calls r.2) = length (calls w1) + k + 1).
Proof.
  cbv zeta. intros Hpage Hprompt.
  pose proof (AppFacts.state_after_invariant E w actions uuid now) as Hinv.
  set (s := state_after E w actions uuid now) in *. clearbody s.
  destruct Hinv as (_ & _ & _ & _ & _ & _ & H7 & Hp). rewrite Hpage in Hp.
  destruct Hp as (key & cfg & Hact & Hidx & (a & Ha & _) & _).
  destruct (H7 a Ha) as (Hs & _ & Hretries & _).
  unfold show_study_interface. rewrite (AppFacts.current_config_active s key cfg Hact).
  destruct (Nat.leb_spec (length (problems cfg)) (current_problem_index s)); [lia |].
  destruct (String.eqb_spec prompt EmptyString); [congruence |].
  unfold chat. cbn [agent set_messages messages]. rewrite Ha.
  set (s1 := set_messages s _).
  assert (Hagent : Study.agent (session_view E s1 a) = a) by reflexivity.
  split.
  - intros Hfail.
    destruct (Turn.agent_turn_exhausts E (session_view E s1 a) w1) as (w' & Hrun & Hlen).
    + rewrite Hagent. exact Hs.
    + rewrite Hagent, Hretries. exact Hfail.
    + rewrite Hrun. cbn [fst snd]. rewrite Hagent, Hretries in Hlen.
      split; [| exact Hlen]. unfold s1, set_messages. cbn [messages page selected_study
        current_problem_index App.agent_notes completed_studies all_study_data agent
        study_start_time current_study_sessions].
      rewrite <- app_assoc. reflexivity.
  - intros k raw items v Hk Hfail Hllm Hrep Hreason Hresp.
    destruct (Turn.agent_turn_succeeds E (session_view E s1 a) w1 k raw items v)
      as (w' & Hrun & Hlen); auto.
    + rewrite Hagent, Hretries. exact Hk.
    + rewrite Hrun. cbn [fst snd].
      split; [| exact Hlen]. unfold s1, set_messages. cbn [messages page selected_study
        current_problem_index App.agent_notes completed_studies all_study_data agent
        study_start_time current_study_sessions].
      rewrite <- app_assoc. reflexivity.
Qed.

Lemma chat_turn_is_recorded_witness :
  let failing := Sample.externals
                   (Sample.always (GenText (Sample.json_object Sample.response_only))) in
  let helping := Sample.externals
                   (Sample.always (GenText (Sample.json_object Sample.response_ok))) in
  let s1 := state_after failing Sample.world SampleApp.to_study_page "p" "t" in
  let s2 := state_after helping Sample.world SampleApp.to_study_page "p" "t" in
  ((show_study_interface failing s1 (ChatInput "Hello" "10:01" "10:02") Sample.world).1
   = (set_messages s1 [mkChatEntry "user" (PStr "Hello") "10:01";
                       mkChatEntry "assistant" (PStr Study.apology) "10:02"], None) /\
   length (calls (show_study_interface failing s1
                    (ChatInput "Hello" "10:01" "10:02") Sample.world).2) = 10)
  /\
  ((show_study_interface helping s2 (ChatInput "Hello" "10:01" "10:02") Sample.world).1
   = (set_messages s2 [mkChatEntry "user" (PStr "Hello") "10:01";
                       mkChatEntry "assistant" (PStr "hi") "10:02"], None) /\
   length (calls (show_study_interface helping s2
                    (ChatInput "Hello" "10:01" "10:02") Sample.world).2) = 1).
Proof.
  cbv zeta. split.
  - apply (chat_turn_is_recorded
             (Sample.externals
                (Sample.always (GenText (Sample.json_object Sample.response_only))))
             Sample.world SampleApp.to_study_page "p" "t" "Hello" "10:01" "10:02"
             Sample.world).
    + vm_compute. reflexivity.
    + discriminate.
    + intros i msgs Hi. reflexivity.
  - apply (chat_turn_is_recorded
             (Sample.externals
                (Sample.always (GenText (Sample.json_object Sample.response_ok))))
             Sample.world SampleApp.to_study_page "p" "t" "Hello" "10:01" "10:02"
             Sample.world) with (k := 0) (raw := Sample.json_object Sample.response_ok)
             (items := [("reasoning", PStr "r"); ("response", PStr "hi")]).
    + vm_compute. reflexivity.
    + discriminate.
    + lia.
    + intros i msgs Hi. lia.
    + intros msgs. reflexivity.
    + reflexivity.
    + reflexivity.
    + reflexivity.
Defined.

Module AppBudget.

Section WithExternals.

Context (E : Externals).

Lemma spends_notes_loop n prompt : spends n (notes_loop E n prompt).
Proof.
  intros w.
  destruct (Notes.notes_loop_total E n prompt w) as (r & w' & j & Hrun & _ & Hj & Hcalls & _).
  rewrite Hrun. simpl. rewrite Hcalls, length_app, length_replicate. lia.
Qed.

Lemma spends_update_agent_notes a notes refs :
  spends (Z.to_nat (num_retries a)) (update_agent_notes E a notes refs).
Proof.
  unfold update_agent_notes.
  apply (Budget.spends_bind 0 (Z.to_nat (num_retries a)));
    [apply Budget.spends_get_conversation_string |].
  intros s. apply spends_notes_loop.
Qed.

Lemma spends_build_conversation msgs : spends 0 (Study.build_conversation msgs).
Proof.
  induction msgs as [| m msgs IH]; simpl; [apply Budget.spends_ret |].
  apply (Budget.spends_bind 0 0); [apply Budget.spends_alloc |]. intros l.
  apply (Budget.spends_bind 0 0); [apply IH |]. intros ls. apply Budget.spends_ret.
Qed.

Lemma spends_update_memory uses_memory st :
  spends (Z.to_nat (num_retries (Study.agent st))) (Study.update_memory E uses_memory st).
Proof.
  unfold Study.update_memory.
  destruct uses_memory; [| eapply Budget.spends_weaken; [apply Budget.spends_ret | lia]].
  apply (Budget.spends_bind 0 (Z.to_nat (num_retries (Study.agent st))));
    [apply spends_build_conversation |].
  intros refs.
  eapply Budget.spends_weaken with (n := Z.to_nat (num_retries (Study.agent st)) + 0);
    [| lia].
  apply Budget.spends_bind.
  - destruct (truthy (Study.session_agent_notes st)); apply spends_update_agent_notes.
  - intros r. apply (Budget.spends_bind 0 0); [apply Budget.spends_lift |].
    intros [|]; [| apply Budget.spends_ret].
    apply (Budget.spends_bind 0 0); [apply Budget.spends_lift |]. intros notes.
    apply Budget.spends_ret.
Qed.

Lemma spends_agent_turn st :
  spends (Z.to_nat (num_retries (Study.agent st))
          * (scaffolding_budget (Study.agent st) + 1))
    (Study.agent_turn E st).
Proof.
  unfold Study.agent_turn.
  apply (Budget.spends_bind 0
           (Z.to_nat (num_retries (Study.agent st))
            * (scaffolding_budget (Study.agent st) + 1)));
    [apply spends_build_conversation |].
  intros refs.
  eapply Budget.spends_weaken with
    (n := (0 + Z.to_nat (num_retries (Study.agent st))
               * (scaffolding_budget (Study.agent st) + 1)) + 0); [| lia].
  apply Budget.spends_bind; [| intros r; apply Budget.spends_lift].
  unfold generate_collaborator_response.
  apply Budget.spends_bind; [apply Budget.spends_deepcopy_items |].
  intros refs'. apply Budget.spends_response_loop.
Qed.

End WithExternals.

End AppBudget.

(** X17. What one user action can cost.  After any sequence of user
    actions, whatever the generator answers, the next run of [main] makes
    at most ten generator calls, for any action: a chat turn and a survey
    submission are the only actions that call the generator, and the
    application's agent has ten retries and no scaffolding. *)
Theorem one_action_costs_at_most_ten_calls
    (E : Externals) (w : World) (actions : list (string * string * Event))
    (uuid now : string) (ev : Event) (w1 : World) :
  length (calls (main E (session E no_state w actions).1 uuid now ev w1).2)
  <= length (calls w1) + 10.
Proof.
  pose proof (AppFacts.state_after_invariant E w actions uuid now) as Hinv.
  unfold state_after in Hinv. unfold main.
  set (s := init_session (session E no_state w actions).1 uuid now) in *. clearbody s.
  destruct Hinv as (_ & _ & _ & _ & _ & _ & H7 & Hp).
  destruct (page s) eqn:Hpage; cbn [fst snd]; try lia.
  - destruct Hp as (key & cfg & Hact & Hidx & (a & Ha & _) & _).
    destruct (H7 a Ha) as (Hs & _ & Hretries & _).
    unfold show_study_interface.
    rewrite (AppFacts.current_config_active s key cfg Hact).
    destruct (Nat.leb (length (problems cfg)) (current_problem_index s));
      cbn [snd]; [lia |].
    destruct ev; cbn [snd]; try lia.
    destruct (String.eqb prompt EmptyString); cbn [snd]; [lia |].
    unfold chat. cbn [agent set_messages]. rewrite Ha.
    set (st := session_view E _ a).
    pose proof (AppBudget.spends_agent_turn E st w1) as Hcost.
    assert (Hagent : Study.agent st = a) by reflexivity.
    rewrite Hagent in Hcost. unfold scaffolding_budget in Hcost.
    rewrite Hs, Hretries in Hcost. cbn [andb Nat.add Nat.mul] in Hcost.
    destruct (Study.agent_turn E st w1) as [[text | e] w']; cbn [fst snd] in *; lia.
  - destruct Hp as (key & cfg & Hact & Hidx & (a & Ha & _) & _).
    destruct (H7 a Ha) as (_ & _ & Hretries & _).
    pose proof Hact as (Hsel & _).
    unfold show_survey_interface. destruct ev; cbn [snd]; try lia.
    rewrite Hsel, (AppFacts.current_config_active s key cfg Hact).
    destruct (problems cfg !! current_problem_index s); cbn [snd]; [| lia].
    destruct (uses_memory cfg); cbn [snd]; [| lia].
    rewrite Ha.
    pose proof (AppBudget.spends_update_memory E true (session_view E s a) w1) as Hcost.
    assert (Hagent : Study.agent (session_view E s a) = a) by reflexivity.
    rewrite Hagent, Hretries in Hcost.
    destruct (Study.update_memory E true (session_view E s a) w1) as [[st | e] w'];
      exact Hcost.
  - destruct ev; simpl; lia.
Qed.

Module Participant.

Section WithExternals.

Context (E : Externals).

(** One run of [main] on an initialized state, with any action but the
    reset of the download page, leaves an initialized state with the
    same participant id and the same overall start time. *)
Lemma main_keeps_participant s uuid now ev w :
  ev <> StartAnother ->
  exists s',
    (main E (store s) uuid now ev w).1.1 = store s' /\
    participant_id (all_study_data s') = participant_id (all_study_data s) /\
    overall_start_time (all_study_data s') = overall_start_time (all_study_data s).
Proof.
  intros Hev. unfold main. rewrite AppFacts.init_session_store.
  destruct (page s); cbn [fst snd].
  - eexists. split; [reflexivity |].
    unfold show_intro_page. destruct ev as [| [|] | | | | | | | | |]; auto.
  - eexists. split; [reflexivity |]. unfold show_study_selector.
    repeat match goal with
           | |- context [match ?x with _ => _ end] => destruct x
           end; auto.
  - eexists. split; [reflexivity |]. unfold show_study_intro_page.
    repeat match goal with
           | |- context [match ?x with _ => _ end] => destruct x
           end; auto.
  - eexists. split; [reflexivity |]. unfold show_study_interface, chat.
    repeat match goal with
           | |- context [match ?x with _ => _ end] => destruct x
           end; auto.
  - eexists. split; [reflexivity |]. unfold show_survey_interface, record_session.
    repeat match goal with
           | |- context [match ?x with _ => _ end] => destruct x
           end; auto.
  - destruct ev; try congruence; eexists; split; reflexivity || auto.
Qed.

Lemma session_keeps_participant actions : forall s w,
  Forall (fun a => a.2 <> StartAnother) actions ->
  exists s',
    (session E (store s) w actions).1 = store s' /\
    participant_id (all_study_data s') = participant_id (all_study_data s) /\
    overall_start_time (all_study_data s') = overall_start_time (all_study_data s).
Proof.
  induction actions as [| [[uuid now] ev] actions IH]; intros s w Hall.
  - exists s. auto.
  - inversion Hall as [| ? ? Hev Hrest]; subst. cbn [session].
    destruct (main_keeps_participant s uuid now ev w Hev) as (s1 & Hs1 & Hp1 & Ht1).
    rewrite Hs1.
    destruct (IH s1 (main E (store s) uuid now ev w).2 Hrest) as (s2 & Hs2 & Hp2 & Ht2).
    exists s2. split; [exact Hs2 |]. split; congruence.
Qed.

End WithExternals.

End Participant.

(** X18. The participant id is drawn once.  In a browser session without
    the reset of the download page, the participant id and the overall
    start time in the collected data are the values [uuid.uuid4()] and
    [datetime.now()] had in the very first run, whatever was done and
    drawn in later runs. *)
Theorem participant_id_is_drawn_once
    (E : Externals) (w : World) (uuid0 now0 : string) (ev0 : Event)
    (actions : list (string * string * Event)) (uuid now : string) :
  Forall (fun a => a.2 <> StartAnother) actions ->
  let s := state_after E w ((uuid0, now0, ev0) :: actions) uuid now in
  participant_id (all_study_data s) = uuid0 /\
  overall_start_time (all_study_data s) = now0.
Proof.
  intros Hall. cbv zeta. unfold state_after. cbn [session].
  assert (Hfirst : exists s1,
            (main E no_state uuid0 now0 ev0 w).1.1 = store s1 /\
            participant_id (all_study_data s1) = uuid0 /\
            overall_start_time (all_study_data s1) = now0).
  { unfold main. cbn [init_session no_state raw_page page fst snd].
    eexists. split; [reflexivity |].
    unfold show_intro_page. destruct ev0 as [| [|] | | | | | | | | |]; auto. }
  destruct Hfirst as (s1 & Hs1 & Hp1 & Ht1). rewrite Hs1.
  destruct (Participant.session_keeps_participant E actions s1
              (main E no_state uuid0 now0 ev0 w).2 Hall) as (s2 & Hs2 & Hp2 & Ht2).
  rewrite Hs2, AppFacts.init_session_store. split; congruence.
Qed.

Lemma participant_id_is_drawn_once_witness :
  let s := state_after (Sample.externals SampleApp.helpful) Sample.world
             (("first-id", "09:59", BeginStudies true)
              :: SampleApp.one_study "coding_collaborative_agent")
             "later-id" "12:00" in
  participant_id (all_study_data s) = "first-id" /\
  overall_start_time (all_study_data s) = "09:59".
Proof.
  apply (participant_id_is_drawn_once (Sample.externals SampleApp.helpful)
           Sample.world "first-id" "09:59" (BeginStudies true)
           (SampleApp.one_study "coding_collaborative_agent") "later-id" "12:00").
  unfold SampleApp.one_study, SampleApp.one_session, SampleApp.act. simpl.
  repeat constructor; discriminate.
Defined.
